(** * Knowledge lifecycle and scheduled ingestion of the operations chatbot

    A shallow embedding of [adaptive_learning_system.py] (class
    [AdaptiveLearningSystem]) and [scheduled_data_loader.py] (class
    [ScheduledDataLoader]), and the properties of the knowledge store, the
    ingestion adapter, the backup manager and the interaction-learning job.

    Conventions of the embedding.
    - A Python [str] is a [string]; a character is a code point below 256.
    - A Python [float] is a binary64 [float] of the kernel.
    - A Python [dict] is an association list in insertion order.
    - An exception is [None] in an [option]; every [try/except] of the source
      is a [match] on it.
    - State ([self], the files, the log, the wall clock) is passed explicitly. *)

From Stdlib Require Import ZArith List String Ascii Bool Lia Arith.
From Stdlib Require Import DecimalString DecimalPos DecimalZ.
From Stdlib Require Import Floats Sorting.Sorted Permutation.
Import ListNotations.
Set Warnings "-register-all".
Local Open Scope string_scope.
Local Open Scope Z_scope.

(* ===================================================================== *)
(** ** Python strings *)
(* ===================================================================== *)

Module PyStr.

Definition code (c : ascii) : Z := Z.of_N (N_of_ascii c).
Definition chr (z : Z) : ascii := ascii_of_N (Z.to_N z).

(** [str.isspace] on one character, for code points below 256. *)
Definition isspace (c : ascii) : bool :=
  let n := code c in
  ((9 <=? n) && (n <=? 13)) || ((28 <=? n) && (n <=? 32))
  || (n =? 133) || (n =? 160).

Definition isdigit (c : ascii) : bool :=
  let n := code c in (48 <=? n) && (n <=? 57).

(** [str.lower] on one character: A-Z and the upper-case letters of Latin-1. *)
Definition lower_char (c : ascii) : ascii :=
  let n := code c in
  if ((65 <=? n) && (n <=? 90))
     || ((192 <=? n) && (n <=? 222) && negb (n =? 215))
  then chr (n + 32) else c.

Fixpoint lower (s : string) : string :=
  match s with
  | EmptyString => EmptyString
  | String c r => String (lower_char c) (lower r)
  end.

Fixpoint lstrip (s : string) : string :=
  match s with
  | EmptyString => EmptyString
  | String c r => if isspace c then lstrip r else s
  end.

Fixpoint rev_str (acc s : string) : string :=
  match s with
  | EmptyString => acc
  | String c r => rev_str (String c acc) r
  end.

Definition rstrip (s : string) : string :=
  rev_str EmptyString (lstrip (rev_str EmptyString s)).

(** [s.strip()] *)
Definition strip (s : string) : string := rstrip (lstrip s).

(** [len(s)] *)
Definition len (s : string) : Z := Z.of_nat (String.length s).

Fixpoint startswith (p s : string) : bool :=
  match p, s with
  | EmptyString, _ => true
  | String a p', String b s' => Ascii.eqb a b && startswith p' s'
  | String _ _, EmptyString => false
  end.

(** [t in s] for strings *)
Fixpoint contains (t s : string) : bool :=
  startswith t s
  || match s with
     | EmptyString => false
     | String _ r => contains t r
     end.

Definition endswith (p s : string) : bool :=
  startswith (rev_str EmptyString p) (rev_str EmptyString s).

(** [sep.join(l)] *)
Fixpoint join (sep : string) (l : list string) : string :=
  match l with
  | [] => EmptyString
  | [x] => x
  | x :: r => x ++ sep ++ join sep r
  end.

(** [s.replace(a, b)] for single characters [a] and [b]. *)
Fixpoint replace_char (a b : ascii) (s : string) : string :=
  match s with
  | EmptyString => EmptyString
  | String c r => String (if Ascii.eqb c a then b else c) (replace_char a b r)
  end.

(** [s.split(sep)] for a single-character separator. *)
Fixpoint split_char (sep : ascii) (s : string) : list string :=
  match s with
  | EmptyString => [EmptyString]
  | String c r =>
      if Ascii.eqb c sep then EmptyString :: split_char sep r
      else match split_char sep r with
           | [] => [String c EmptyString]
           | h :: t => String c h :: t
           end
  end.

(** [str(n)] for an integer. *)
Definition of_Z (z : Z) : string := NilZero.string_of_int (Z.to_int z).

(** [s.encode()]: UTF-8, for code points below 256. *)
Fixpoint encode (s : string) : list Z :=
  match s with
  | EmptyString => []
  | String c r =>
      let n := code c in
      if n <? 128 then n :: encode r
      else Z.lor 192 (Z.shiftr n 6) :: Z.lor 128 (Z.land n 63) :: encode r
  end.

(** The line feed of a string literal. *)
Definition nl : string := String (chr 10) EmptyString.

Fixpoint take (n : nat) (s : string) : string :=
  match n, s with
  | O, _ => EmptyString
  | S _, EmptyString => EmptyString
  | S k, String c r => String c (take k r)
  end.

Fixpoint drop (n : nat) (s : string) : string :=
  match n, s with
  | O, _ => s
  | S _, EmptyString => EmptyString
  | S k, String _ r => drop k r
  end.

End PyStr.

(* ===================================================================== *)
(** ** [hashlib.md5] (RFC 1321) *)
(* ===================================================================== *)

Module MD5.

Definition mask32 : Z := 4294967295.
Definition w32 (x : Z) : Z := Z.land x mask32.
Definition add32 (x y : Z) : Z := w32 (x + y).
Definition rotl32 (x : Z) (c : Z) : Z :=
  w32 (Z.lor (Z.shiftl x c) (Z.shiftr x (32 - c))).
Definition not32 (x : Z) : Z := Z.lxor x mask32.

Definition shifts : list Z :=
  [7; 12; 17; 22; 7; 12; 17; 22; 7; 12; 17; 22; 7; 12; 17; 22;
   5; 9; 14; 20; 5; 9; 14; 20; 5; 9; 14; 20; 5; 9; 14; 20;
   4; 11; 16; 23; 4; 11; 16; 23; 4; 11; 16; 23; 4; 11; 16; 23;
   6; 10; 15; 21; 6; 10; 15; 21; 6; 10; 15; 21; 6; 10; 15; 21].

(** [floor (2^32 * abs (sin (i + 1)))] for i = 0 .. 63 *)
Definition sines : list Z :=
  [3614090360; 3905402710; 606105819; 3250441966; 4118548399; 1200080426;
   2821735955; 4249261313; 1770035416; 2336552879; 4294925233; 2304563134;
   1804603682; 4254626195; 2792965006; 1236535329; 4129170786; 3225465664;
   643717713; 3921069994; 3593408605; 38016083; 3634488961; 3889429448;
   568446438; 3275163606; 4107603335; 1163531501; 2850285829; 4243563512;
   1735328473; 2368359562; 4294588738; 2272392833; 1839030562; 4259657740;
   2763975236; 1272893353; 4139469664; 3200236656; 681279174; 3936430074;
   3572445317; 76029189; 3654602809; 3873151461; 530742520; 3299628645;
   4096336452; 1126891415; 2878612391; 4237533241; 1700485571; 2399980690;
   4293915773; 2240044497; 1873313359; 4264355552; 2734768916; 1309151649;
   4149444226; 3174756917; 718787259; 3951481745].

(** Message padding: a 1 bit, zeros up to 56 mod 64, the bit length on 8
    little-endian bytes. *)
Fixpoint le_bytes (n : nat) (x : Z) : list Z :=
  match n with
  | O => []
  | S k => Z.land x 255 :: le_bytes k (Z.shiftr x 8)
  end.

Definition pad (msg : list Z) : list Z :=
  let l := Z.of_nat (List.length msg) in
  let zeros := Z.to_nat ((55 - l) mod 64) in
  msg ++ 128 :: repeat 0 zeros ++ le_bytes 8 ((8 * l) mod 18446744073709551616).

Fixpoint words (n : nat) (bs : list Z) : list Z :=
  match n with
  | O => []
  | S k =>
      match bs with
      | b0 :: b1 :: b2 :: b3 :: r =>
          (b0 + Z.shiftl b1 8 + Z.shiftl b2 16 + Z.shiftl b3 24) :: words k r
      | _ => []
      end
  end.

Definition state : Type := (Z * Z * Z * Z)%type.

Definition round (m : list Z) (i : Z) (st : state) : state :=
  let '(a, b, c, d) := st in
  let '(f, g) :=
    if i <? 16 then (Z.lor (Z.land b c) (Z.land (not32 b) d), i)
    else if i <? 32 then (Z.lor (Z.land d b) (Z.land (not32 d) c), (5 * i + 1) mod 16)
    else if i <? 48 then (Z.lxor (Z.lxor b c) d, (3 * i + 5) mod 16)
    else (Z.lxor c (Z.lor b (not32 d)), (7 * i) mod 16) in
  let f' := add32 (add32 (add32 f a) (nth (Z.to_nat i) sines 0))
                  (nth (Z.to_nat g) m 0) in
  (d, add32 b (rotl32 f' (nth (Z.to_nat i) shifts 0)), b, c).

Fixpoint rounds (m : list Z) (n : nat) (i : Z) (st : state) : state :=
  match n with
  | O => st
  | S k => rounds m k (i + 1) (round m i st)
  end.

Definition chunk (st : state) (block : list Z) : state :=
  let '(a0, b0, c0, d0) := st in
  let '(a, b, c, d) := rounds (words 16 block) 64 0 st in
  (add32 a0 a, add32 b0 b, add32 c0 c, add32 d0 d).

Fixpoint chunks (n : nat) (bs : list Z) (st : state) : state :=
  match n with
  | O => st
  | S k =>
      match bs with
      | [] => st
      | _ => chunks k (skipn 64 bs) (chunk st (firstn 64 bs))
      end
  end.

Definition init : state := (1732584193, 4023233417, 2562383102, 271733878).

Definition digest (msg : list Z) : list Z :=
  let p := pad msg in
  let '(a, b, c, d) := chunks (List.length p) p init in
  le_bytes 4 a ++ le_bytes 4 b ++ le_bytes 4 c ++ le_bytes 4 d.

Definition hex_digit (z : Z) : ascii :=
  if z <? 10 then PyStr.chr (48 + z) else PyStr.chr (87 + z).

Fixpoint hex (bs : list Z) : string :=
  match bs with
  | [] => EmptyString
  | b :: r => String (hex_digit (Z.shiftr b 4)) (String (hex_digit (Z.land b 15)) (hex r))
  end.

(** [hashlib.md5(s.encode()).hexdigest()] *)
Definition hexdigest (s : string) : string := hex (digest (PyStr.encode s)).

End MD5.

(* ===================================================================== *)
(** ** Python values (the JSON fragment) *)
(* ===================================================================== *)

Module Py.

Inductive value : Type :=
| VNone
| VBool (b : bool)
| VInt (z : Z)
| VFloat (f : float)
| VStr (s : string)
| VList (l : list value)
| VDict (d : list (string * value)).

Definition dict : Type := list (string * value).

(** [d.get(k)] *)
Fixpoint get (k : string) (d : dict) : option value :=
  match d with
  | [] => None
  | (k', v) :: r => if String.eqb k k' then Some v else get k r
  end.

(** [k in d] *)
Definition has (k : string) (d : dict) : bool :=
  match get k d with Some _ => true | None => false end.

(** [d.get(k, dflt)] *)
Definition get_default (k : string) (dflt : value) (d : dict) : value :=
  match get k d with Some v => v | None => dflt end.

(** [d[k] = v]: an existing key keeps its place, a new key goes last. *)
Fixpoint set (k : string) (v : value) (d : dict) : dict :=
  match d with
  | [] => [(k, v)]
  | (k', v') :: r =>
      if String.eqb k k' then (k, v) :: r else (k', v') :: set k v r
  end.

(** [d[k]] when it is a [str] *)
Definition get_str (k : string) (d : dict) : option string :=
  match get k d with Some (VStr s) => Some s | _ => None end.

(** [bool(v)] *)
Definition truthy (v : value) : bool :=
  match v with
  | VNone => false
  | VBool b => b
  | VInt z => negb (z =? 0)
  | VFloat f => negb (PrimFloat.eqb f 0%float)
  | VStr s => negb (String.eqb s "")
  | VList l => match l with [] => false | _ => true end
  | VDict d => match d with [] => false | _ => true end
  end.

(** [isinstance(v, str)] *)
Definition is_str (v : value) : bool :=
  match v with VStr _ => true | _ => false end.

Fixpoint chars (s : string) : list value :=
  match s with
  | EmptyString => []
  | String c r => VStr (String c EmptyString) :: chars r
  end.

(** [for x in v]: the items, or [None] for the TypeError of a value that
    is not iterable. *)
Definition iter (v : value) : option (list value) :=
  match v with
  | VList l => Some l
  | VStr s => Some (chars s)
  | VDict d => Some (map (fun kv => VStr (fst kv)) d)
  | _ => None
  end.

(** The items of a list of [str], or [None] when one is not a [str]. *)
Fixpoint strs (l : list value) : option (list string) :=
  match l with
  | [] => Some []
  | VStr s :: r =>
      match strs r with Some t => Some (s :: t) | None => None end
  | _ :: _ => None
  end.

(** [",".join(v)] *)
Definition join_value (sep : string) (v : value) : option string :=
  match iter v with
  | Some l => match strs l with
              | Some ss => Some (PyStr.join sep ss)
              | None => None
              end
  | None => None
  end.

(** [v + 1] *)
Definition add1 (v : value) : option value :=
  match v with
  | VInt z => Some (VInt (z + 1))
  | VBool b => Some (VInt ((if b then 1 else 0) + 1))
  | VFloat f => Some (VFloat (f + 1)%float)
  | _ => None
  end.

End Py.
Export Py.

(* ===================================================================== *)
(** ** Python lists *)
(* ===================================================================== *)

Module PyList.

Section Sort.
Context {A : Type}.

(** [lt a b]: the key of [a] is below the key of [b]. *)
Variable lt : A -> A -> bool.

(** [l.sort(key=..., reverse=True)]: a stable sort, descending. An element
    goes in front of the first one whose key is not above its own, so equal
    keys keep the order they had. *)
Fixpoint insert_desc (x : A) (l : list A) : list A :=
  match l with
  | [] => [x]
  | y :: r => if lt x y then y :: insert_desc x r else x :: l
  end.

Fixpoint sort_desc (l : list A) : list A :=
  match l with
  | [] => []
  | x :: r => insert_desc x (sort_desc r)
  end.

End Sort.

(** [l[i] = x] on a list used as a store; out of range the list is left as
    it is (the callers only write at indices they have read). *)
Fixpoint update {A : Type} (i : nat) (x : A) (l : list A) : list A :=
  match l, i with
  | [], _ => []
  | _ :: r, O => x :: r
  | y :: r, S k => y :: update k x r
  end.

(** [l[i : i + n]] for i = 0, n, 2n, ...; [fuel] bounds the number of
    slices. *)
Fixpoint batches {A : Type} (fuel n : nat) (l : list A) : list (list A) :=
  match fuel with
  | O => []
  | S k =>
      match l with
      | [] => []
      | _ => firstn n l :: batches k n (skipn n l)
      end
  end.

End PyList.

(* ===================================================================== *)
(** ** The environment: wall clock, log and disk *)
(* ===================================================================== *)

(** A call of [self.logger]: the level and the constant text of the message
    with its counts and file names; the [repr] of a record or of an exception
    that the source interpolates is left out. *)
Inductive event : Type :=
| LogInfo (msg : string)
| LogWarning (msg : string)
| LogError (msg : string).

(** [clock] is the time [datetime.now()] returns next, in seconds; [log] is
    newest first; [disk_ok = false] makes every [open(path, 'w')] raise. *)
Record Env : Type := mkEnv {
  clock : Z;
  log : list event;
  disk_ok : bool
}.

Definition logger (e : event) (env : Env) : Env :=
  mkEnv (clock env) (e :: log env) (disk_ok env).

(** [datetime.now()]: the clock is read, and time moves on. *)
Definition datetime_now (env : Env) : Z * Env :=
  (clock env, mkEnv (clock env + 1) (log env) (disk_ok env)).

(** [t.isoformat()] and [t.strftime(...)]: the time stamp is written as its
    number of seconds. *)
Definition isoformat (t : Z) : string := PyStr.of_Z t.

(* ===================================================================== *)
(** ** The vector index *)
(* ===================================================================== *)

Module Index.

Record entry : Type := mkEntry {
  id : string;
  document : string;
  metadata : dict
}.

Definition t : Type := list entry.

Definition ids (ix : t) : list string := map id ix.

(** Modelled from the spec: the vector index is the chromadb collection, an
    external collaborator whose code is not part of the repository. The spec
    (System overview, External interfaces) gives it as a store of
    (id, text, metadata) triples that supports upsert by id: a write under an
    id that is present replaces that entry, a write under a new id adds one. *)
Fixpoint upsert (e : entry) (ix : t) : t :=
  match ix with
  | [] => [e]
  | e' :: r =>
      if String.eqb (id e) (id e') then e :: r else e' :: upsert e r
  end.

(** [collection.add(documents=..., metadatas=..., ids=...)] *)
Definition add (es : list entry) (ix : t) : t :=
  fold_left (fun acc e => upsert e acc) es ix.

Fixpoint lookup (i : string) (ix : t) : option entry :=
  match ix with
  | [] => None
  | e :: r => if String.eqb i (id e) then Some e else lookup i r
  end.

(** Modelled from the spec: [collection.get()["ids"]] is every identifier
    of the store and [collection.delete(ids=...)] removes the entries under
    the given identifiers (External interfaces: getAll, deleteByIds). *)
Definition delete (gone : list string) (ix : t) : t :=
  filter (fun e => negb (existsb (String.eqb (id e)) gone)) ix.

End Index.

(* ===================================================================== *)
(** ** [AdaptiveLearningSystem] (adaptive_learning_system.py) *)
(* ===================================================================== *)

Module ALS.

(** [self]: the in-memory list, the two files under [knowledge_db_path]
    ([None]: the file does not exist) and the collection [learned_qa]. *)
Record t : Type := mk {
  learned_qa_pairs : list value;
  knowledge_file : option (list value);
  metadata_file : option dict;
  learned_collection : Index.t
}.

Definition set_pairs (l : list value) (s : t) : t :=
  mk l (knowledge_file s) (metadata_file s) (learned_collection s).
Definition set_knowledge_file (f : option (list value)) (s : t) : t :=
  mk (learned_qa_pairs s) f (metadata_file s) (learned_collection s).
Definition set_metadata_file (f : option dict) (s : t) : t :=
  mk (learned_qa_pairs s) (knowledge_file s) f (learned_collection s).
Definition set_collection (ix : Index.t) (s : t) : t :=
  mk (learned_qa_pairs s) (knowledge_file s) (metadata_file s) ix.

(** [__init__] on an empty [knowledge_db_path]. *)
Definition fresh : t := mk [] None None [].

(** *** [_validate_qa_pair] *)

Definition field_ok (d : dict) (field : string) : bool :=
  match get field d with
  | Some v => truthy v && is_str v
  | None => false
  end.

Definition _validate_qa_pair (pair : value) : bool :=
  match pair with
  | VDict d =>
      if negb (forallb (field_ok d) ["question"; "answer"]) then false
      else
        match get_str "question" d, get_str "answer" d with
        | Some q, Some a =>
            if (PyStr.len (PyStr.strip q) <? 5) || (PyStr.len (PyStr.strip a) <? 10)
            then false else true
        | _, _ => false
        end
  | _ => false
  end.

(** *** [_categorize_qa_pair] *)

Definition any_in (terms : list string) (text : string) : bool :=
  existsb (fun term => PyStr.contains term text) terms.

Definition vocabularies : list (list string * string) :=
  [ (["human error"; "hea"; "error avoidance"; "mistake"], "human_error");
    (["operational"; "process"; "procedure"; "workflow"], "operations");
    (["strategic"; "executive"; "board"; "ceo"; "leadership"], "executive");
    (["financial"; "cost"; "savings"; "revenue"; "budget"], "financial");
    (["dell"; "fiscal year"; "fy20"; "fy21"; "fy22"; "fy23"; "fy24"; "fy25"],
     "dell_specific");
    (["trend"; "pattern"; "analysis"; "insight"], "analysis") ].

(** The six [if any(...): categories.append(...)] in their order. *)
Fixpoint matched (vs : list (list string * string)) (combined : string)
  : list string :=
  match vs with
  | [] => []
  | (terms, tag) :: r =>
      if any_in terms combined then tag :: matched r combined
      else matched r combined
  end.

Definition categorize_text (question answer : string) : list string :=
  let combined := PyStr.lower question ++ " " ++ PyStr.lower answer in
  match matched vocabularies combined with
  | [] => ["general"]
  | categories => categories
  end.

Definition _categorize_qa_pair (pair : dict) : option (list string) :=
  match get_str "question" pair, get_str "answer" pair with
  | Some q, Some a => Some (categorize_text q a)
  | _, _ => None
  end.

(** *** [_extract_fiscal_years] *)

(** [(\d{4})] at the head of [s]: the group and what follows it. *)
Definition four_digits (s : string) : option (string * string) :=
  match s with
  | String a (String b (String c (String d r))) =>
      if PyStr.isdigit a && PyStr.isdigit b && PyStr.isdigit c && PyStr.isdigit d
      then Some (String a (String b (String c (String d EmptyString))), r)
      else None
  | _ => None
  end.

(** A lower-case literal [p] at the head of [s], letter case ignored. *)
Definition match_ci (p s : string) : option string :=
  let n := String.length p in
  if String.eqb (PyStr.lower (PyStr.take n s)) p then Some (PyStr.drop n s)
  else None.

(** [\s+] *)
Definition spaces1 (s : string) : option string :=
  match s with
  | String c r => if PyStr.isspace c then Some (PyStr.lstrip r) else None
  | EmptyString => None
  end.

(** [FY\s*(\d{4})] and [fy\s*(\d{4})] (one pattern under IGNORECASE). *)
Definition fy_short (s : string) : option (string * string) :=
  match match_ci "fy" s with
  | Some r => four_digits (PyStr.lstrip r)
  | None => None
  end.

(** [fiscal\s+year\s+(\d{4})] *)
Definition fy_long (s : string) : option (string * string) :=
  match match_ci "fiscal" s with
  | Some r1 =>
      match spaces1 r1 with
      | Some r2 =>
          match match_ci "year" r2 with
          | Some r3 =>
              match spaces1 r3 with
              | Some r4 => four_digits r4
              | None => None
              end
          | None => None
          end
      | None => None
      end
  | None => None
  end.

Definition fy_match (s : string) : option (string * string) :=
  match fy_short s with
  | Some x => Some x
  | None => fy_long s
  end.

(** [re.findall]: leftmost matches, none overlapping; [fuel] bounds the
    scan and the length of the text is enough. *)
Fixpoint findall (fuel : nat) (s : string) : list string :=
  match fuel with
  | O => []
  | S k =>
      match s with
      | EmptyString => []
      | String _ r =>
          match fy_match s with
          | Some (g, rest) => g :: findall k rest
          | None => findall k r
          end
      end
  end.

(** [list(set(fiscal_years))]: the order of a Python set is not specified;
    here the last occurrence of each label stays. *)
Definition _extract_fiscal_years (text : string) : list string :=
  nodup string_dec
    (map (fun g => "FY" ++ g) (findall (String.length text) text)).

(** *** [_enrich_qa_pair] *)

Definition _enrich_qa_pair (pair : dict) (env : Env) : option dict * Env :=
  let (now, env) := datetime_now env in
  (match get_str "question" pair, get "answer" pair, _categorize_qa_pair pair with
   | Some q, Some (VStr a), Some categories =>
       let enriched := pair in
       let enriched := set "learned_timestamp" (VStr (isoformat now)) enriched in
       let enriched := set "question_hash" (VStr (MD5.hexdigest q)) enriched in
       let enriched := set "answer_length" (VInt (PyStr.len a)) enriched in
       let enriched := set "question_length" (VInt (PyStr.len q)) enriched in
       let enriched := set "categories" (VList (map VStr categories)) enriched in
       let enriched := set "usage_count" (VInt 0) enriched in
       let enriched := set "confidence_score" (VFloat 1%float) enriched in
       let enriched :=
         set "source" (get_default "source" (VStr "user_provided") pair) enriched in
       let enriched :=
         set "fiscal_years"
           (VList (map VStr (_extract_fiscal_years (q ++ " " ++ a)))) enriched in
       Some enriched
   | _, _, _ => None
   end, env).

(** *** [_get_category_stats], [_get_fy_stats], [_save_knowledge] *)

(** [counts[k] = counts.get(k, 0) + 1] *)
Definition bump (k : string) (counts : dict) : dict :=
  set k (VInt (match get k counts with Some (VInt n) => n | _ => 0 end + 1)) counts.

(** The labels of one entry under [field]; [None] is the exception of an
    entry that is not a dict, or whose labels are not strings. *)
Definition labels (field : string) (dflt : value) (pair : value)
  : option (list string) :=
  match pair with
  | VDict d =>
      match iter (get_default field dflt d) with
      | Some items => strs items
      | None => None
      end
  | _ => None
  end.

Fixpoint _get_category_stats (pairs : list value) (counts : dict) : option dict :=
  match pairs with
  | [] => Some counts
  | qa :: r =>
      match labels "categories" (VList [VStr "general"]) qa with
      | Some cs => _get_category_stats r (fold_left (fun acc c => bump c acc) cs counts)
      | None => None
      end
  end.

Fixpoint _get_fy_stats (pairs : list value) (counts : dict) : option dict :=
  match pairs with
  | [] => Some counts
  | qa :: r =>
      match labels "fiscal_years" (VList []) qa with
      | Some fys =>
          _get_fy_stats r
            (fold_left (fun acc fy => if String.eqb fy "" then acc else bump fy acc)
               fys counts)
      | None => None
      end
  end.

(** A write error is the exception of [open(path, 'w')] on the knowledge
    file, raised before the file is touched ([disk_ok = false]); the
    statistics that raise come after the knowledge file is written. An I/O
    error that comes once a file is open, and leaves it cut short, is not
    among the runs of this model: the model says what the files hold after
    a write that worked, not after one that failed. *)
Definition _save_knowledge (s : t) (env : Env) : t * Env :=
  if disk_ok env then
    let s := set_knowledge_file (Some (learned_qa_pairs s)) s in
    let (now, env) := datetime_now env in
    match _get_category_stats (learned_qa_pairs s) [],
          _get_fy_stats (learned_qa_pairs s) [] with
    | Some cats, Some fys =>
        let metadata :=
          [ ("total_pairs", VInt (Z.of_nat (List.length (learned_qa_pairs s))));
            ("last_updated", VStr (isoformat now));
            ("categories", VDict cats);
            ("fiscal_years", VDict fys) ] in
        (set_metadata_file (Some metadata) s,
         logger (LogInfo "Knowledge saved to persistent storage") env)
    | _, _ => (s, logger (LogError "Error saving knowledge") env)
    end
  else (s, logger (LogError "Error saving knowledge") env).

(** *** [_add_to_chroma] *)

Definition chroma_entry (pair : dict) : option Index.entry :=
  match get_str "question" pair, get "answer" pair, get "learned_timestamp" pair,
        get "categories" pair, get_str "question_hash" pair with
  | Some q, Some a, Some ts, Some cats, Some h =>
      match join_value "," cats,
            join_value "," (get_default "fiscal_years" (VList []) pair) with
      | Some cs, Some fys =>
          Some (Index.mkEntry h q
                  [ ("answer", a);
                    ("learned_timestamp", ts);
                    ("categories", VStr cs);
                    ("fiscal_years", VStr fys);
                    ("source", get_default "source" (VStr "unknown") pair);
                    ("confidence_score",
                     get_default "confidence_score" (VFloat 1%float) pair) ])
      | _, _ => None
      end
  | _, _, _, _, _ => None
  end.

Fixpoint chroma_entries (qa_pairs : list dict) : option (list Index.entry) :=
  match qa_pairs with
  | [] => Some []
  | qa :: r =>
      match chroma_entry qa, chroma_entries r with
      | Some e, Some es => Some (e :: es)
      | _, _ => None
      end
  end.

Definition _add_to_chroma (qa_pairs : list dict) (s : t) (env : Env) : t * Env :=
  match chroma_entries qa_pairs with
  | Some es =>
      (set_collection (Index.add es (learned_collection s)) s,
       logger (LogInfo ("Added " ++ PyStr.of_Z (Z.of_nat (List.length qa_pairs))
                        ++ " Q&A pairs to ChromaDB")) env)
  | None => (s, logger (LogError "Error adding to ChromaDB") env)
  end.

(** *** [ingest_qa_json] *)

(** The argument [json_data]: a [str], given with what [json.loads] makes of
    it ([None]: it raises), or a [dict] or [list] (any other value too). *)
Inductive json_data : Type :=
| JsonText (loads : option value)
| JsonValue (data : value).

(** The loop over [new_pairs]: the enriched valid records in input order;
    [None] is an exception inside the loop. *)
Fixpoint valid_pairs_of (new_pairs : list value) (env : Env)
  : option (list dict) * Env :=
  match new_pairs with
  | [] => (Some [], env)
  | qa :: r =>
      if _validate_qa_pair qa then
        match qa with
        | VDict d =>
            match _enrich_qa_pair d env with
            | (Some enriched_pair, env) =>
                match valid_pairs_of r env with
                | (Some vs, env) => (Some (enriched_pair :: vs), env)
                | (None, env) => (None, env)
                end
            | (None, env) => (None, env)
            end
        | _ => (None, env)
        end
      else valid_pairs_of r (logger (LogWarning "Invalid Q&A pair skipped") env)
  end.

(** The records [new_pairs] of a payload: [inl] is the early [return False]
    with its log entry, [inr None] an exception. *)
Definition new_pairs_of (data : value) : event + option (list value) :=
  match data with
  | VDict d =>
      if has "qa_pairs" d then inr (iter (get_default "qa_pairs" VNone d))
      else if has "question" d && has "answer" d then inr (Some [data])
      else inl (LogWarning "Unrecognized dict format for Q&A data")
  | VList l => inr (Some l)
  | _ => inl (LogError "Invalid data format for Q&A ingestion")
  end.

Definition ingest_failed (s : t) (env : Env) : bool * t * Env :=
  (false, s, logger (LogError "Error ingesting Q&A JSON") env).

(** The [if valid_pairs: ... else: ...] that ends the [try]. *)
Definition apply_valid_pairs (valid_pairs : list dict) (s : t) (env : Env)
  : bool * t * Env :=
  match valid_pairs with
  | [] =>
      (false, s,
       logger (LogWarning "No valid Q&A pairs found in provided data") env)
  | _ =>
      let s := set_pairs (learned_qa_pairs s ++ map VDict valid_pairs) s in
      let (s, env) := _save_knowledge s env in
      let (s, env) := _add_to_chroma valid_pairs s env in
      (true, s,
       logger (LogInfo ("Successfully ingested "
                        ++ PyStr.of_Z (Z.of_nat (List.length valid_pairs))
                        ++ " new Q&A pairs")) env)
  end.

(** [json.loads(json_data)] for a [str], the value itself otherwise. *)
Definition parsed (json : json_data) : option value :=
  match json with
  | JsonText loads => loads
  | JsonValue data => Some data
  end.

Definition ingest_qa_json (json : json_data) (s : t) (env : Env) : bool * t * Env :=
  match parsed json with
  | None => ingest_failed s env
  | Some data =>
      match new_pairs_of data with
      | inl e => (false, s, logger e env)
      | inr None => ingest_failed s env
      | inr (Some new_pairs) =>
          match valid_pairs_of new_pairs env with
          | (None, env) => ingest_failed s env
          | (Some valid_pairs, env) => apply_valid_pairs valid_pairs s env
          end
      end
  end.

(** *** [search_learned_knowledge] *)

(** What [self.learned_collection.query] returns: one list per query text. *)
Record QueryResult : Type := mkQuery {
  documents : list (list string);
  metadatas : list (list dict);
  distances : option (list (list float))
}.

(** One element of the list [search_learned_knowledge] returns. *)
Record Match : Type := mkMatch {
  question : string;
  answer : value;
  confidence : float;
  categories : list string;
  fiscal_years : list string;
  source : value;
  learned_timestamp : value
}.

(** [max(0, x)]: [x] when [x > 0] and 0 otherwise (also for a NaN); the
    integer 0 of the source is the float 0 here. *)
Definition max0 (x : float) : float :=
  if PrimFloat.ltb 0%float x then x else 0%float.

(** [confidence = max(0, 1 - distance)] *)
Definition confidence_of (distance : float) : float :=
  max0 (1 - distance)%float.

(** [metadata.get(k, "").split(",")]; [None] when the value is no [str]. *)
Definition split_field (k : string) (metadata : dict) : option (list string) :=
  match get_default k (VStr "") metadata with
  | VStr s => Some (PyStr.split_char "," s)
  | _ => None
  end.

(** The dict the loop body appends; [None] is an exception
    ([metadata["answer"]] on a missing key, [split] on a value that is no
    string). *)
Definition match_of (doc : string) (metadata : dict) (c : float) : option Match :=
  match get "answer" metadata, split_field "categories" metadata,
        split_field "fiscal_years" metadata with
  | Some a, Some cs, Some fys =>
      Some (mkMatch doc a c cs fys
              (get_default "source" (VStr "unknown") metadata)
              (get_default "learned_timestamp" VNone metadata))
  | _, _, _ => None
  end.

(** The loop over [zip(documents, metadatas, distances)]. *)
Fixpoint relevant (docs : list string) (metas : list dict) (dists : list float)
  (confidence_threshold : float) : option (list Match) :=
  match docs, metas, dists with
  | doc :: docs', metadata :: metas', distance :: dists' =>
      let c := confidence_of distance in
      if PrimFloat.leb confidence_threshold c then
        match match_of doc metadata c with
        | Some m =>
            match relevant docs' metas' dists' confidence_threshold with
            | Some r => Some (m :: r)
            | None => None
            end
        | None => None
        end
      else relevant docs' metas' dists' confidence_threshold
  | _, _, _ => Some []
  end.

(** [relevant_pairs.sort(key=lambda x: x["confidence"], reverse=True)];
    the keys are never NaN. *)
Definition conf_lt (a b : Match) : bool :=
  PrimFloat.ltb (confidence a) (confidence b).

Definition sort_by_confidence (l : list Match) : list Match :=
  PyList.sort_desc conf_lt l.

(** The body of the [try] of [search_learned_knowledge] on the result of the
    query. *)
Definition search_results (results : QueryResult) (confidence_threshold : float)
  : option (list Match) :=
  match documents results with
  | (_ :: _) as docs :: _ =>
      match metadatas results with
      | metas :: _ =>
          let dists :=
            match distances results with
            | Some (d0 :: _) => d0
            | _ => repeat 0%float (List.length docs)
            end in
          match relevant docs metas dists confidence_threshold with
          | Some relevant_pairs => Some (sort_by_confidence relevant_pairs)
          | None => None
          end
      | [] => None
      end
  | _ => Some []
  end.

(** [f"{confidence:.0%}"]: the float times 100, rounded to the nearest
    integer (ties to even), and a percent sign. *)
Definition round_half_even (m e : Z) : Z :=
  if 0 <=? e then m * 2 ^ e
  else
    let d := 2 ^ (- e) in
    let q := m / d in
    let r := m mod d in
    if 2 * r <? d then q
    else if d <? 2 * r then q + 1
    else if Z.even q then q else q + 1.

Definition format_percent (x : float) : string :=
  match Prim2SF (x * 100)%float with
  | S754_nan => "nan%"
  | S754_infinity s => if s then "-inf%" else "inf%"
  | S754_zero s => if s then "-0%" else "0%"
  | S754_finite s m e =>
      (if s then "-" else "") ++ PyStr.of_Z (round_half_even (Zpos m) e) ++ "%"
  end.

(** *** [_update_usage_count] *)

(** [pair.get("question_hash") == question_hash] *)
Definition hash_is (question_hash : string) (d : dict) : bool :=
  match get "question_hash" d with
  | Some (VStr h) => String.eqb h question_hash
  | _ => false
  end.

(** The loop with its [break]: the first entry whose hash matches is
    updated in place; [None] is an exception (an entry that is no dict, a
    usage count that is no number). *)
Fixpoint bump_usage (question_hash : string) (pairs : list value) (env : Env)
  : option (list value) * Env :=
  match pairs with
  | [] => (Some [], env)
  | VDict d :: r =>
      if hash_is question_hash d then
        match add1 (get_default "usage_count" (VInt 0) d) with
        | Some n =>
            let (now, env) := datetime_now env in
            (Some (VDict (set "last_used" (VStr (isoformat now))
                            (set "usage_count" n d)) :: r), env)
        | None => (None, env)
        end
      else
        match bump_usage question_hash r env with
        | (Some r', env) => (Some (VDict d :: r'), env)
        | (None, env) => (None, env)
        end
  | _ :: _ => (None, env)
  end.

Definition _update_usage_count (q : string) (s : t) (env : Env) : t * Env :=
  match bump_usage (MD5.hexdigest q) (learned_qa_pairs s) env with
  | (Some pairs, env) => _save_knowledge (set_pairs pairs s) env
  | (None, env) => (s, logger (LogError "Error updating usage count") env)
  end.

Section Search.

(** [self.learned_collection.query(query_texts=[question], n_results=n)]:
    the nearest neighbours by the embedding model, outside the repository;
    [None] when the call raises. *)
Variable query : Index.t -> string -> Z -> option QueryResult.

(** [str(v)] for a value that is no [str] (a Python builtin). *)
Variable py_repr : value -> string.

Definition str_of (v : value) : string :=
  match v with VStr s => s | _ => py_repr v end.

Definition search_learned_knowledge (q : string) (n_results : Z)
  (confidence_threshold : float) (s : t) (env : Env) : list Match * Env :=
  match query (learned_collection s) q n_results with
  | Some results =>
      match search_results results confidence_threshold with
      | Some relevant_pairs => (relevant_pairs, env)
      | None => ([], logger (LogError "Error searching learned knowledge") env)
      end
  | None => ([], logger (LogError "Error searching learned knowledge") env)
  end.

(** *** [get_learned_answer] *)

Definition get_learned_answer (q : string) (confidence_threshold : float)
  (s : t) (env : Env) : option string * t * Env :=
  let (relevant_pairs, env) :=
    search_learned_knowledge q 1 confidence_threshold s env in
  match relevant_pairs with
  | best :: _ =>
      if PrimFloat.leb confidence_threshold (confidence best) then
        let (s, env) := _update_usage_count (question best) s env in
        let answer_with_confidence :=
          str_of (answer best) ++ PyStr.nl ++ PyStr.nl
          ++ "*[Learned Response - Confidence: "
          ++ format_percent (confidence best) ++ "]*" in
        (Some answer_with_confidence, s,
         logger (LogInfo ("Returning learned answer with "
                          ++ format_percent (confidence best) ++ " confidence")) env)
      else (None, s, env)
  | [] => (None, s, env)
  end.

End Search.

(** *** [load_existing_knowledge] and [__init__] *)

(** The file holds what a write that worked left there, so [json.load]
    gives that list back and the [except] is not entered. *)
Definition load_existing_knowledge (s : t) (env : Env) : t * Env :=
  match knowledge_file s with
  | Some pairs =>
      (set_pairs pairs s,
       logger (LogInfo ("Loaded " ++ PyStr.of_Z (Z.of_nat (List.length pairs))
                        ++ " existing Q&A pairs")) env)
  | None =>
      (set_pairs [] s,
       logger (LogInfo "No existing knowledge file found, starting fresh") env)
  end.

(** [__init__] over what is on disk: the two files and the collection of
    [s] are what the new object finds; its list starts empty and is then
    read from the file. *)
Definition __init__ (s : t) (env : Env) : t * Env :=
  let (s, env) := load_existing_knowledge (set_pairs [] s) env in
  (s, logger (LogInfo ("Adaptive Learning System initialized with "
                       ++ PyStr.of_Z (Z.of_nat (List.length (learned_qa_pairs s)))
                       ++ " learned Q&A pairs")) env).

(** *** [export_learned_knowledge] *)

(** The document [json.dumps] writes, as a value; [None] is an exception
    (the ValueError of another format, or one raised by the statistics). *)
Definition export_learned_knowledge (format : string) (s : t) (env : Env)
  : option value * Env :=
  if String.eqb format "json" then
    let (now, env) := datetime_now env in
    match _get_category_stats (learned_qa_pairs s) [] with
    | Some cats =>
        (Some (VDict
                 [ ("qa_pairs", VList (learned_qa_pairs s));
                   ("metadata",
                    VDict [ ("export_timestamp", VStr (isoformat now));
                            ("total_pairs",
                             VInt (Z.of_nat (List.length (learned_qa_pairs s))));
                            ("categories", VDict cats) ]) ]), env)
    | None => (None, env)
    end
  else (None, env).

(** *** [clear_learned_knowledge] *)

(** The calls of the collection and of [os.remove] are taken not to raise,
    so the [except] that returns [False] is not entered. *)
Definition clear_learned_knowledge (s : t) (env : Env) : bool * t * Env :=
  let s := set_pairs [] s in
  let all_ids := Index.ids (learned_collection s) in
  let s :=
    match all_ids with
    | [] => s
    | _ => set_collection (Index.delete all_ids (learned_collection s)) s
    end in
  let s := set_knowledge_file None s in
  let s := set_metadata_file None s in
  (true, s, logger (LogInfo "All learned knowledge cleared") env).

End ALS.

(* ===================================================================== *)
(** ** [ScheduledDataLoader] (scheduled_data_loader.py) *)
(* ===================================================================== *)

Module SDL.

(** *** Files and folders *)

(** What [pd.read_excel] makes of a spreadsheet: the column labels, and for
    every row its index label and its cells in the order of the columns;
    a cell is [None] when [pd.notna] is false, and [str(value)] otherwise.
    Column labels are taken to be distinct, so [row[col]] is one cell. *)
Record DataFrame : Type := mkDF {
  columns : list string;
  rows : list (Z * list (option string))
}.

Inductive content : Type :=
| Spreadsheet (df : DataFrame)      (* a file [pd.read_excel] can read *)
| Store (ix : Index.t)              (* the file of a chromadb store *)
| Document (doc : value)            (* a JSON document *)
| Raw (bytes : string).             (* anything else *)

Inductive node : Type :=
| File (name : string) (mtime : Z) (c : content)
| Dir (name : string) (mtime : Z) (children : list node).

Definition node_name (n : node) : string :=
  match n with File name _ _ => name | Dir name _ _ => name end.

(** [os.path.getmtime] *)
Definition getmtime (n : node) : Z :=
  match n with File _ m _ => m | Dir _ m _ => m end.

(** [os.path.isfile] *)
Definition isfile (n : node) : bool :=
  match n with File _ _ _ => true | Dir _ _ _ => false end.

Definition rename (new : string) (n : node) : node :=
  match n with
  | File _ m c => File new m c
  | Dir _ m ch => Dir new m ch
  end.

Fixpoint find (name : string) (folder : list node) : option node :=
  match folder with
  | [] => None
  | n :: r => if String.eqb (node_name n) name then Some n else find name r
  end.

(** The folder without its first entry called [name]. *)
Fixpoint unlink (name : string) (folder : list node) : list node :=
  match folder with
  | [] => []
  | n :: r => if String.eqb (node_name n) name then r else n :: unlink name r
  end.

(** [glob.glob(os.path.join(folder, "*" + suffix))]: the entries whose name
    ends in [suffix] and does not start with a dot, in the order of the
    folder. *)
Definition glob (suffix : string) (folder : list node) : list node :=
  filter (fun n => PyStr.endswith suffix (node_name n)
                   && negb (PyStr.startswith "." (node_name n))) folder.

(** [os.path.splitext] on a file name. *)
Fixpoint rfind (c : ascii) (s : string) (i : nat) (acc : option nat) : option nat :=
  match s with
  | EmptyString => acc
  | String x r => rfind c r (S i) (if Ascii.eqb x c then Some i else acc)
  end.

Fixpoint all_dots (s : string) : bool :=
  match s with
  | EmptyString => true
  | String c r => Ascii.eqb c "." && all_dots r
  end.

Definition splitext (s : string) : string * string :=
  match rfind "." s 0%nat None with
  | Some i =>
      if all_dots (PyStr.take i s) then (s, EmptyString)
      else (PyStr.take i s, PyStr.drop i s)
  | None => (s, EmptyString)
  end.

(** *** The state of the loader *)

(** The directory [self.chroma_path] and the collection stored in it. *)
Record Chroma : Type := mkChroma {
  chroma_mtime : Z;
  collection : Index.t
}.

(** An element of [self.chat_interactions], as [capture_chat_interaction]
    builds it. *)
Record Interaction : Type := mkInteraction {
  timestamp : string;
  user_query : string;
  bot_response : string;
  metadata : dict;
  processed : bool;
  learned_timestamp : option string
}.

(** [self] with the folders it names; a file name stands for its path, and
    [None] is a path that does not exist. *)
Record t : Type := mk {
  excel_folder : list node;
  backup_folder : list node;
  chroma_path : option Chroma;
  learning_system : option ALS.t;
  chat_interactions : list Interaction;
  interaction_file : option (list Interaction)
}.

Definition set_excel_folder (f : list node) (s : t) : t :=
  mk f (backup_folder s) (chroma_path s) (learning_system s)
     (chat_interactions s) (interaction_file s).
Definition set_backup_folder (f : list node) (s : t) : t :=
  mk (excel_folder s) f (chroma_path s) (learning_system s)
     (chat_interactions s) (interaction_file s).
Definition set_chroma_path (c : option Chroma) (s : t) : t :=
  mk (excel_folder s) (backup_folder s) c (learning_system s)
     (chat_interactions s) (interaction_file s).
Definition set_learning_system (l : option ALS.t) (s : t) : t :=
  mk (excel_folder s) (backup_folder s) (chroma_path s) l
     (chat_interactions s) (interaction_file s).
Definition set_chat_interactions (l : list Interaction) (s : t) : t :=
  mk (excel_folder s) (backup_folder s) (chroma_path s) (learning_system s)
     l (interaction_file s).
Definition set_interaction_file (f : option (list Interaction)) (s : t) : t :=
  mk (excel_folder s) (backup_folder s) (chroma_path s) (learning_system s)
     (chat_interactions s) f.

(** *** [find_excel_files] *)

Definition mtime_lt (a b : node) : bool := getmtime a <? getmtime b.

Definition find_excel_files (s : t) (env : Env) : list string * Env :=
  let excel_files :=
    (glob ".xlsx" (excel_folder s) ++ glob ".xls" (excel_folder s)
     ++ glob ".xlsm" (excel_folder s))%list in
  let excel_files := PyList.sort_desc mtime_lt excel_files in
  (map node_name excel_files,
   logger (LogInfo ("Found " ++ PyStr.of_Z (Z.of_nat (List.length excel_files))
                    ++ " Excel files to process")) env).

(** *** [load_excel_to_chroma] *)

(** [pd.read_excel(excel_file)]; [None] when it raises. *)
Definition read_excel (excel_file : string) (s : t) : option DataFrame :=
  match find excel_file (excel_folder s) with
  | Some (File _ _ (Spreadsheet df)) => Some df
  | _ => None
  end.

(** The cells of a row that are not empty, with their columns. *)
Fixpoint notna (cols : list string) (cells : list (option string))
  : list (string * string) :=
  match cols, cells with
  | col :: cols', Some v :: cells' => (col, v) :: notna cols' cells'
  | _ :: cols', None :: cells' => notna cols' cells'
  | _, _ => []
  end.

(** [" | ".join([f"{col}: {row[col]}" for col in df.columns if ...])] *)
Definition doc_text (cols : list string) (cells : list (option string)) : string :=
  PyStr.join " | " (map (fun cv => fst cv ++ ": " ++ snd cv) (notna cols cells)).

(** [str(col).lower().replace(' ', '_')] *)
Definition metadata_key (col : string) : string :=
  PyStr.replace_char " " "_" (PyStr.lower col).

Definition row_metadata (excel_file : string) (now : Z)
  (cols : list string) (cells : list (option string)) : dict :=
  let metadata :=
    fold_left (fun acc cv => set (metadata_key (fst cv)) (VStr (snd cv)) acc)
      (notna cols cells) [] in
  let metadata := set "source" (VStr "excel_import") metadata in
  let metadata := set "file_name" (VStr excel_file) metadata in
  set "loaded_timestamp" (VStr (isoformat now)) metadata.

(** [file_id = os.path.basename(excel_file).replace('.', '_')] and
    [f"excel_{file_id}_{idx}"] *)
Definition file_id (excel_file : string) : string :=
  PyStr.replace_char "." "_" excel_file.

Definition row_id (excel_file : string) (idx : Z) : string :=
  "excel_" ++ file_id excel_file ++ "_" ++ PyStr.of_Z idx.

(** The loop over [df.iterrows()]. *)
Fixpoint row_entries (excel_file : string) (cols : list string)
  (rs : list (Z * list (option string))) (env : Env) : list Index.entry * Env :=
  match rs with
  | [] => ([], env)
  | (idx, cells) :: r =>
      let (now, env) := datetime_now env in
      let e := Index.mkEntry (row_id excel_file idx) (doc_text cols cells)
                 (row_metadata excel_file now cols cells) in
      let (es, env) := row_entries excel_file cols r env in
      (e :: es, env)
  end.

(** The loop over the batches of 100. *)
Fixpoint add_batches (bs : list (list Index.entry)) (batch_no total_added : Z)
  (ix : Index.t) (env : Env) : Z * Index.t * Env :=
  match bs with
  | [] => (total_added, ix, env)
  | b :: r =>
      let total_added := total_added + Z.of_nat (List.length b) in
      add_batches r (batch_no + 1) total_added (Index.add b ix)
        (logger (LogInfo ("Added batch " ++ PyStr.of_Z batch_no
                          ++ ", total records: " ++ PyStr.of_Z total_added)) env)
  end.

Definition batch_size : nat := 100.

Definition load_excel_to_chroma (excel_file : string) (s : t) (env : Env)
  : Z * t * Env :=
  let env := logger (LogInfo ("Loading Excel file: " ++ excel_file)) env in
  match read_excel excel_file s with
  | None => (0, s, logger (LogError ("Error loading Excel file " ++ excel_file)) env)
  | Some df =>
      let env :=
        logger (LogInfo ("Read " ++ PyStr.of_Z (Z.of_nat (List.length (rows df)))
                         ++ " rows from " ++ excel_file)) env in
      let chroma :=
        match chroma_path s with
        | Some c => c
        | None => mkChroma (clock env) []
        end in
      let (entries, env) := row_entries excel_file (columns df) (rows df) env in
      let '(total_added, ix, env) :=
        add_batches (PyList.batches (List.length entries) batch_size entries)
          1 0 (collection chroma) env in
      (total_added,
       set_chroma_path (Some (mkChroma (chroma_mtime chroma) ix)) s,
       logger (LogInfo ("Successfully loaded " ++ PyStr.of_Z total_added
                        ++ " records from " ++ excel_file)) env)
  end.

(** *** [backup_chroma_db], [archive_processed_file], [cleanup_old_backups] *)

(** [shutil.copytree(self.chroma_path, backup_path)]: the snapshot is a
    directory that holds the store. *)
Definition snapshot (name : string) (c : Chroma) : node :=
  Dir name (chroma_mtime c)
    [File "chroma.sqlite3" (chroma_mtime c) (Store (collection c))].

Definition backup_chroma_db (s : t) (env : Env) : t * Env :=
  let (now, env) := datetime_now env in
  let backup_path := "chroma_backup_" ++ isoformat now in
  match chroma_path s with
  | Some c =>
      match find backup_path (backup_folder s) with
      | None =>
          (set_backup_folder (backup_folder s ++ [snapshot backup_path c])%list s,
           logger (LogInfo ("ChromaDB backed up to " ++ backup_path)) env)
      | Some _ => (s, logger (LogError "Error backing up ChromaDB") env)
      end
  | None => (s, env)
  end.

(** [shutil.move(src, dst)] into the backup folder: a file called [dst] is
    replaced, a directory called [dst] receives the entry under its own
    name; [None] when it raises. *)
Definition move_in (src : node) (dst : string) (folder : list node)
  : option (list node) :=
  match find dst folder with
  | None => Some (folder ++ [rename dst src])%list
  | Some (File _ _ _) => Some (unlink dst folder ++ [rename dst src])%list
  | Some (Dir _ m ch) =>
      match find (node_name src) ch with
      | None => Some (unlink dst folder ++ [Dir dst m (ch ++ [src])])%list
      | Some _ => None
      end
  end.

Definition archive_processed_file (excel_file : string) (s : t) (env : Env)
  : t * Env :=
  let (now, env) := datetime_now env in
  let (name, ext) := splitext excel_file in
  let archived_name := name ++ "_processed_" ++ isoformat now ++ ext in
  match find excel_file (excel_folder s) with
  | Some src =>
      match move_in src archived_name (backup_folder s) with
      | Some backup =>
          (set_backup_folder backup
             (set_excel_folder (unlink excel_file (excel_folder s)) s),
           logger (LogInfo ("Archived processed file to " ++ archived_name)) env)
      | None => (s, logger (LogError ("Error archiving file " ++ excel_file)) env)
      end
  | None => (s, logger (LogError ("Error archiving file " ++ excel_file)) env)
  end.

Definition seconds_per_day : Z := 86400.

(** [os.remove(path)]: the entry goes when it is a file; [None] is the
    OSError for a directory or a missing path. *)
Fixpoint os_remove (name : string) (folder : list node) : option (list node) :=
  match folder with
  | [] => None
  | n :: r =>
      if String.eqb (node_name n) name then
        if isfile n then Some r else None
      else
        match os_remove name r with
        | Some r' => Some (n :: r')
        | None => None
        end
  end.

(** The loop of [cleanup_old_backups] over [glob.glob(".../*")]; [None] is
    an exception, which ends the loop. *)
Fixpoint cleanup_loop (cutoff_date : Z) (found : list node)
  (folder : list node) (env : Env) : option unit * list node * Env :=
  match found with
  | [] => (Some tt, folder, env)
  | n :: r =>
      if isfile n then
        if getmtime n <? cutoff_date then
          match os_remove (node_name n) folder with
          | Some folder' =>
              cleanup_loop cutoff_date r folder'
                (logger (LogInfo ("Removed old backup: " ++ node_name n)) env)
          | None => (None, folder, env)
          end
        else cleanup_loop cutoff_date r folder env
      else cleanup_loop cutoff_date r folder env
  end.

Definition cleanup_old_backups (days : Z) (s : t) (env : Env) : t * Env :=
  let (now, env) := datetime_now env in
  let cutoff_date := now - days * seconds_per_day in
  match cleanup_loop cutoff_date (glob "" (backup_folder s)) (backup_folder s) env with
  | (Some _, folder, env) => (set_backup_folder folder s, env)
  | (None, folder, env) =>
      (set_backup_folder folder s, logger (LogError "Error cleaning old backups") env)
  end.

(** *** Chat interaction learning *)

Definition save_chat_interactions (s : t) (env : Env) : t * Env :=
  if disk_ok env then (set_interaction_file (Some (chat_interactions s)) s, env)
  else (s, logger (LogError "Error saving interactions") env).

Definition capture_chat_interaction (q r : string) (md : dict)
  (s : t) (env : Env) : t * Env :=
  let (now, env) := datetime_now env in
  let interaction := mkInteraction (isoformat now) q r md false None in
  let s := set_chat_interactions (chat_interactions s ++ [interaction])%list s in
  let (s, env) := save_chat_interactions s env in
  (s, logger (LogInfo ("Captured chat interaction: " ++ PyStr.take 50 q ++ "...")) env).

(** The Q&A pair built from one interaction. *)
Definition qa_pair_of (i : Interaction) : value :=
  VDict [ ("question", VStr (user_query i));
          ("answer", VStr (bot_response i));
          ("source", VStr "chat_interaction");
          ("timestamp", VStr (timestamp i));
          ("metadata", VDict (metadata i)) ].

(** [unprocessed]: the list holds the very objects of
    [self.chat_interactions], so it is kept as their positions there. *)
Fixpoint positions (i : nat) (l : list Interaction) : list nat :=
  match l with
  | [] => []
  | x :: r => if processed x then positions (S i) r else i :: positions (S i) r
  end.

Definition unprocessed_of (l : list Interaction) : list nat := positions 0 l.

(** [interaction["processed"] = True] and the time stamp, on the object. *)
Definition mark (i : Interaction) (now : Z) : Interaction :=
  mkInteraction (timestamp i) (user_query i) (bot_response i) (metadata i)
    true (Some (isoformat now)).

(** The loop over [unprocessed]; a write to an interaction is a write at its
    position in [self.chat_interactions]. *)
Fixpoint learn_loop (unprocessed : list nat) (chat : list Interaction)
  (ls : ALS.t) (env : Env) : list Interaction * ALS.t * Env :=
  match unprocessed with
  | [] => (chat, ls, env)
  | i :: r =>
      match nth_error chat i with
      | Some interaction =>
          let '(success, ls, env) :=
            ALS.ingest_qa_json (ALS.JsonValue (qa_pair_of interaction)) ls env in
          if success then
            let (now, env) := datetime_now env in
            learn_loop r (PyList.update i (mark interaction now) chat) ls env
          else learn_loop r chat ls env
      | None => learn_loop r chat ls env
      end
  end.

Definition count_processed (unprocessed : list nat) (chat : list Interaction) : Z :=
  Z.of_nat (List.length
              (filter (fun i => match nth_error chat i with
                                | Some x => processed x
                                | None => false
                                end) unprocessed)).

Definition process_chat_interactions (s : t) (env : Env) : t * Env :=
  match learning_system s with
  | None => (s, env)
  | Some ls =>
      match unprocessed_of (chat_interactions s) with
      | [] => (s, env)
      | unprocessed =>
          let env :=
            logger (LogInfo ("Processing "
                             ++ PyStr.of_Z (Z.of_nat (List.length unprocessed))
                             ++ " chat interactions for learning")) env in
          let '(chat, ls, env) :=
            learn_loop unprocessed (chat_interactions s) ls env in
          let s := set_chat_interactions chat (set_learning_system (Some ls) s) in
          let (s, env) := save_chat_interactions s env in
          (s, logger (LogInfo ("Successfully processed "
                               ++ PyStr.of_Z (count_processed unprocessed chat)
                               ++ " interactions for learning")) env)
      end
  end.

(** *** [daily_data_load_job] *)

(** The loop over [excel_files]: load, then archive. *)
Fixpoint load_loop (excel_files : list string) (total_loaded : Z)
  (s : t) (env : Env) : Z * t * Env :=
  match excel_files with
  | [] => (total_loaded, s, env)
  | excel_file :: r =>
      let '(loaded_count, s, env) := load_excel_to_chroma excel_file s env in
      let (s, env) := archive_processed_file excel_file s env in
      load_loop r (total_loaded + loaded_count) s env
  end.

Definition daily_data_load_job (s : t) (env : Env) : t * Env :=
  let env := logger (LogInfo "Starting daily data loading job...") env in
  let (current_ist, env) := datetime_now env in
  let env :=
    logger (LogInfo ("Daily load starting at " ++ isoformat current_ist)) env in
  let (excel_files, env) := find_excel_files s env in
  match excel_files with
  | [] => (s, logger (LogWarning "No Excel files found for loading") env)
  | _ =>
      let (s, env) := backup_chroma_db s env in
      let '(total_loaded, s, env) := load_loop excel_files 0 s env in
      let env :=
        logger (LogInfo ("Daily data loading completed. Total records loaded: "
                         ++ PyStr.of_Z total_loaded)) env in
      process_chat_interactions s env
  end.

(** *** [load_existing_interactions] *)

(** As for the knowledge file: the interaction file holds what a write
    that worked left there. *)
Definition load_existing_interactions (s : t) (env : Env) : t * Env :=
  match interaction_file s with
  | Some l =>
      (set_chat_interactions l s,
       logger (LogInfo ("Loaded " ++ PyStr.of_Z (Z.of_nat (List.length l))
                        ++ " existing interactions")) env)
  | None => (set_chat_interactions [] s, env)
  end.

(** *** [weekly_backup_job] *)

(** [with open(path, 'w') as f: f.write(...)] in a folder: a new file goes
    last, a file of that name is rewritten where it stands; [None] is the
    exception of a directory of that name. *)
Fixpoint write_file (name : string) (now : Z) (c : content) (folder : list node)
  : option (list node) :=
  match folder with
  | [] => Some [File name now c]
  | n :: r =>
      if String.eqb (node_name n) name then
        if isfile n then Some (File name now c :: r) else None
      else
        match write_file name now c r with
        | Some r' => Some (n :: r')
        | None => None
        end
  end.

(** The [if self.learning_system:] block; [None] is an exception. *)
Definition backup_knowledge (s : t) (env : Env) : option t * Env :=
  match learning_system s with
  | Some ls =>
      match ALS.export_learned_knowledge "json" ls env with
      | (Some knowledge_backup, env) =>
          let (now, env) := datetime_now env in
          let backup_file :=
            "learned_knowledge_backup_" ++ isoformat now ++ ".json" in
          if disk_ok env then
            match write_file backup_file (clock env) (Document knowledge_backup)
                    (backup_folder s) with
            | Some folder =>
                (Some (set_backup_folder folder s),
                 logger (LogInfo ("Learned knowledge backed up to " ++ backup_file))
                   env)
            | None => (None, env)
            end
          else (None, env)
      | (None, env) => (None, env)
      end
  | None => (Some s, env)
  end.

Definition weekly_backup_job (s : t) (env : Env) : t * Env :=
  let env := logger (LogInfo "Starting weekly backup job...") env in
  match backup_knowledge s env with
  | (Some s, env) => cleanup_old_backups 30 s env
  | (None, env) => (s, logger (LogError "Error in weekly backup") env)
  end.

End SDL.

(* ===================================================================== *)
(** ** The vocabulary of the properties *)
(* ===================================================================== *)

(** A record the spec rejects: a field is missing, or a text is too short. *)
Definition too_short_or_missing (d : dict) : Prop :=
  Py.get "question" d = None \/ Py.get "answer" d = None
  \/ (exists q, Py.get "question" d = Some (VStr q) /\ PyStr.len q < 5)
  \/ (exists a, Py.get "answer" d = Some (VStr a) /\ PyStr.len a < 10).

Definition tick (env : Env) : Env := mkEnv (clock env + 1) (log env) (disk_ok env).

(** Two environments that differ in their logs only. *)
Definition same_world (e1 e2 : Env) : Prop :=
  clock e1 = clock e2 /\ disk_ok e1 = disk_ok e2.

(** [e] is what [_enrich_qa_pair] makes of the record [rec] at time [now]. *)
Definition enriched_at (now : Z) (rec : value) (e : dict) : Prop :=
  exists d q a,
    rec = VDict d /\ Py.get "question" d = Some (VStr q)
    /\ Py.get "answer" d = Some (VStr a)
    /\ fst (ALS._enrich_qa_pair d (mkEnv now [] true)) = Some e.

(** The records of a payload, as the loop of [ingest_qa_json] meets them. *)
Definition records_of (json : ALS.json_data) : list value :=
  match ALS.parsed json with
  | Some data =>
      match ALS.new_pairs_of data with
      | inr (Some new_pairs) => new_pairs
      | _ => []
      end
  | None => []
  end.

(** The records of a payload that pass validation. *)
Definition validated (json : ALS.json_data) : list value :=
  filter ALS._validate_qa_pair (records_of json).

(** The identifier of a stored entry. *)
Definition question_hash (e : dict) : option value := Py.get "question_hash" e.

(** The MD5 identifiers of the valid records of a list. *)
Fixpoint hashes (recs : list value) : list string :=
  match recs with
  | [] => []
  | VDict d :: r =>
      match Py.get_str "question" d with
      | Some q => MD5.hexdigest q :: hashes r
      | None => hashes r
      end
  | _ :: r => hashes r
  end.

(** The stored entries [vs] are the enrichments of the records [recs]. *)
Definition enrichments (recs : list value) (vs : list dict) : Prop :=
  Forall2 (fun rec e => exists now, enriched_at now rec e) recs vs.

(** The two payload shapes that hold a list of records. *)
Inductive shape : Type :=
| Flat
| Envelope (session : dict).

Definition payload (sh : shape) (recs : list value) : ALS.json_data :=
  ALS.JsonValue
    match sh with
    | Flat => VList recs
    | Envelope session => VDict (Py.set "qa_pairs" (VList recs) session)
    end.

Definition sample_env : Env := mkEnv 1000 [] true.

Definition sample_record : value :=
  VDict [("question", VStr "What is HEA?");
         ("answer", VStr "Human error avoidance.")].


(** The text under [field] of a record, when the record is a dict and the
    field holds a text. *)
Definition text_field (field : string) (r : value) : option string :=
  match r with
  | VDict d => match Py.get field d with Some (VStr t) => Some t | _ => None end
  | _ => None
  end.

(** The text is there and has at least [n] characters, the white space
    around it not counted. *)
Definition long_enough (n : Z) (t : option string) : bool :=
  match t with
  | Some t => n <=? PyStr.len (PyStr.strip t)
  | None => false
  end.

(** A record that validates, in the words of the spec: both required
    fields are present, are non-empty text and meet the minimum length
    (5 characters for the question, 10 for the answer). *)
Definition acceptable (r : value) : bool :=
  long_enough 5 (text_field "question" r) && long_enough 10 (text_field "answer" r).

(** The three payload shapes of the spec and the records each carries: a
    single record, a flat list of records, an envelope that holds the list
    under [qa_pairs]; and the JSON text of any of them. *)
Inductive carries : ALS.json_data -> list value -> Prop :=
| carries_single (d : dict) :
    Py.get "qa_pairs" d = None ->
    Py.has "question" d = true -> Py.has "answer" d = true ->
    carries (ALS.JsonValue (VDict d)) [VDict d]
| carries_list (recs : list value) :
    carries (ALS.JsonValue (VList recs)) recs
| carries_envelope (d : dict) (recs : list value) :
    Py.get "qa_pairs" d = Some (VList recs) ->
    carries (ALS.JsonValue (VDict d)) recs
| carries_text (data : value) (recs : list value) :
    carries (ALS.JsonValue data) recs ->
    carries (ALS.JsonText (Some data)) recs.



Definition is_dir (n : SDL.node) : bool := negb (SDL.isfile n).

(** [folder'] is [folder] without some of its regular files. *)
Definition files_removed (folder folder' : list SDL.node) : Prop :=
  filter is_dir folder' = filter is_dir folder
  /\ incl folder' folder
  /\ forall n, In n folder -> In n folder' \/ SDL.isfile n = true.

(** The record built from an interaction passes validation. *)
Definition learnable (x : SDL.Interaction) : bool :=
  ALS._validate_qa_pair (SDL.qa_pair_of x).

(** The loop of [process_chat_interactions] told along the list itself:
    processed interactions are passed over, each other one is ingested and
    marked when the ingestion reports success. *)
Fixpoint learn_all (chat : list SDL.Interaction) (ls : ALS.t) (env : Env)
  : list SDL.Interaction * ALS.t * Env :=
  match chat with
  | [] => ([], ls, env)
  | x :: r =>
      if SDL.processed x then
        let '(r', ls, env) := learn_all r ls env in (x :: r', ls, env)
      else
        let '(success, ls, env) :=
          ALS.ingest_qa_json (ALS.JsonValue (SDL.qa_pair_of x)) ls env in
        if success then
          let (now, env) := datetime_now env in
          let '(r', ls, env) := learn_all r ls env in
          (SDL.mark x now :: r', ls, env)
        else
          let '(r', ls, env) := learn_all r ls env in (x :: r', ls, env)
  end.

(** How one interaction stands after the job. *)
Definition learned_or_kept (x x' : SDL.Interaction) : Prop :=
  (SDL.processed x = false /\ learnable x = true /\ exists now, x' = SDL.mark x now)
  \/ ((SDL.processed x = true \/ learnable x = false) /\ x' = x).

(** A float that is not NaN, as a point of the integers in lexicographic
    order: the class (infinities, negative, zero, positive), then exponent
    and mantissa, both negated for a negative number. *)
Definition sf_key (x : spec_float) : option (Z * Z * Z) :=
  match x with
  | S754_nan => None
  | S754_infinity true => Some (-2, 0, 0)
  | S754_infinity false => Some (2, 0, 0)
  | S754_zero _ => Some (0, 0, 0)
  | S754_finite true m e => Some (-1, - e, - Zpos m)
  | S754_finite false m e => Some (1, e, Zpos m)
  end.

Definition fkey (x : float) : option (Z * Z * Z) := sf_key (Prim2SF x).

Definition lex_compare (a b : Z * Z * Z) : comparison :=
  let '(a1, a2, a3) := a in
  let '(b1, b2, b3) := b in
  match a1 ?= b1 with
  | Eq => match a2 ?= b2 with Eq => a3 ?= b3 | c => c end
  | c => c
  end.

Definition lex_lt (a b : Z * Z * Z) : Prop :=
  let '(a1, a2, a3) := a in
  let '(b1, b2, b3) := b in
  a1 < b1 \/ (a1 = b1 /\ (a2 < b2 \/ (a2 = b2 /\ a3 < b3))).

Definition lex_le (a b : Z * Z * Z) : Prop := lex_lt a b \/ a = b.

(** [x] is a number. *)
Definition is_number (x : float) : Prop := exists a, fkey x = Some a.

(** A metadata record on which the loop of [search_learned_knowledge] does
    not raise: it has an answer, and its categories and fiscal years are
    strings when present. *)
Definition meta_ok (m : dict) : bool :=
  Py.has "answer" m
  && match ALS.split_field "categories" m with Some _ => true | None => false end
  && match ALS.split_field "fiscal_years" m with Some _ => true | None => false end.

(** The results of the index in the order it returns them, each with the
    confidence [max(0, 1 - distance)]. *)
Fixpoint scored (docs : list string) (metas : list dict) (dists : list float)
  : list (string * dict * float) :=
  match docs, metas, dists with
  | doc :: docs', m :: metas', d :: dists' =>
      (doc, m, ALS.confidence_of d) :: scored docs' metas' dists'
  | _, _, _ => []
  end.

Definition passes (threshold : float) (x : string * dict * float) : bool :=
  PrimFloat.leb threshold (snd x).

(** [m] is the match made of the result [x]. *)
Definition match_for (x : string * dict * float) (m : ALS.Match) : Prop :=
  ALS.question m = fst (fst x)
  /\ Py.get "answer" (snd (fst x)) = Some (ALS.answer m)
  /\ ALS.confidence m = snd x.

(** [a] stands before [b] in a list sorted descending by confidence. *)
Definition conf_ge (a b : ALS.Match) : Prop :=
  PrimFloat.leb (ALS.confidence b) (ALS.confidence a) = true.

Definition conf_is (c : float) (m : ALS.Match) : bool :=
  PrimFloat.eqb (ALS.confidence m) c.

Definition sample_meta (a : string) : dict :=
  [("answer", VStr a); ("categories", VStr "general"); ("fiscal_years", VStr "")].

(** An index with three results at distances 0.5, 0.125 and 0.5. *)
Definition sample_query (ix : Index.t) (q : string) (n : Z) : option ALS.QueryResult :=
  Some (ALS.mkQuery [["first"; "second"; "third"]]
          [[sample_meta "one"; sample_meta "two"; sample_meta "three"]]
          (Some [[0.5%float; 0.125%float; 0.5%float]])).

(** The text [get_learned_answer] returns for an answer and a confidence. *)
Definition answer_text (py_repr : value -> string) (a : value) (c : float) : string :=
  ALS.str_of py_repr a ++ PyStr.nl ++ PyStr.nl
  ++ "*[Learned Response - Confidence: " ++ ALS.format_percent c ++ "]*".

(** An index whose best match for every question lies at distance 0.25. *)
Definition quarter_query (ix : Index.t) (q : string) (n : Z) : option ALS.QueryResult :=
  Some (ALS.mkQuery [["What is HEA?"]] [[sample_meta "Human error avoidance."]]
          (Some [[0.25%float]])).

(** The log entries the daily job is judged by. *)
Inductive mark : Type :=
| LoadFailed (excel_file : string)
| Archived
| ArchiveFailed.

Definition classify (e : event) : list mark :=
  match e with
  | LogError m =>
      if PyStr.startswith "Error loading Excel file " m
      then [LoadFailed (PyStr.drop 25 m)]
      else if PyStr.startswith "Error archiving file " m then [ArchiveFailed]
      else []
  | LogInfo m =>
      if PyStr.startswith "Archived processed file to " m then [Archived] else []
  | LogWarning _ => []
  end.

(** The marks of a log, newest first. *)
Definition marks (l : list event) : list mark := flat_map classify l.

(** From [env] to [env'] the log has grown by entries that carry no mark. *)
Definition quiet (env env' : Env) : Prop :=
  exists new, log env' = (new ++ log env)%list /\ marks new = [].

Definition names (folder : list SDL.node) : list string := map SDL.node_name folder.

(** [s] holds no underscore. *)
Fixpoint no_underscore (s : string) : bool :=
  match s with
  | EmptyString => true
  | String c r => negb (Ascii.eqb c "_") && no_underscore r
  end.

(** [s] holds no [c]. *)
Fixpoint lacks (c : ascii) (s : string) : bool :=
  match s with
  | EmptyString => true
  | String x r => negb (Ascii.eqb x c) && lacks c r
  end.

(** The name under which [archive_processed_file] stores a file [f] at
    time [now]. *)
Definition archived_name (f : string) (now : Z) : string :=
  let (name, ext) := SDL.splitext f in
  name ++ "_processed_" ++ isoformat now ++ ext.

(** [n] is a directory that holds an entry called [name]. *)
Definition holds_name (name : string) (n : SDL.node) : bool :=
  match n with
  | SDL.Dir _ _ ch =>
      match SDL.find name ch with Some _ => true | None => false end
  | SDL.File _ _ _ => false
  end.

(** No directory of the folder holds an entry with one of the names. *)
Definition dirs_free (ns : list string) (folder : list SDL.node) : bool :=
  forallb (fun n => forallb (fun name => negb (holds_name name n)) ns) folder.

(** The folder holds the file [f], with its time and its content, under
    the name [dst], or inside a directory called [dst] under its own
    name. *)
Definition archived_in (dst f : string) (m : Z) (c : SDL.content)
  (folder : list SDL.node) : Prop :=
  In (SDL.File dst m c) folder
  \/ exists dm ch, In (SDL.Dir dst dm ch) folder /\ In (SDL.File f m c) ch.

(** The folder holds the file [f] under the name [archive_processed_file]
    gave it at some time. *)
Definition archived (f : string) (m : Z) (c : SDL.content)
  (folder : list SDL.node) : Prop :=
  exists now, archived_in (archived_name f now) f m c folder.

(** The identifiers of the rows of a spreadsheet. *)
Definition row_ids (excel_file : string) (df : SDL.DataFrame) : list string :=
  map (fun r => SDL.row_id excel_file (fst r)) (SDL.rows df).

(** The identifiers in the store of the loader. *)
Definition stored_ids (s : SDL.t) : list string :=
  match SDL.chroma_path s with
  | Some c => Index.ids (SDL.collection c)
  | None => []
  end.

(** [find_excel_files]: the names it returns belong to entries of the
    inbox and end in one of the three suffixes. *)
Definition excel_name (n : string) : bool :=
  PyStr.endswith ".xlsx" n || PyStr.endswith ".xls" n || PyStr.endswith ".xlsm" n.

(** [f] names a regular file of the inbox that [pd.read_excel] cannot read. *)
Definition unreadable_file (f : string) (s : SDL.t) : bool :=
  match SDL.find f (SDL.excel_folder s) with
  | Some (SDL.File _ _ (SDL.Spreadsheet _)) => false
  | Some (SDL.File _ _ _) => true
  | _ => false
  end.

(** What one turn of the loop leaves behind for a file with content [c]. *)
Definition turn_outcome (f : string) (c : SDL.content) (s s2 : SDL.t)
  (env env2 : Env) : Prop :=
  match c with
  | SDL.Spreadsheet df =>
      (forall i, In i (stored_ids s2) <-> In i (row_ids f df) \/ In i (stored_ids s))
      /\ marks (log env2) = Archived :: marks (log env)
  | _ =>
      stored_ids s2 = stored_ids s
      /\ marks (log env2) = Archived :: LoadFailed f :: marks (log env)
  end.

(** The environment of the daily job when it looks for files. *)
Definition job_start (env : Env) : Env :=
  logger (LogInfo ("Daily load starting at " ++ isoformat (clock env)))
    (snd (datetime_now (logger (LogInfo "Starting daily data loading job...") env))).

(** An inbox with three files; the second is no workbook. *)
Definition sheet_a : SDL.DataFrame :=
  SDL.mkDF ["Problem Number"; "Root Cause"]
    [(0, [Some "PRB1"; Some "config"]); (1, [Some "PRB2"; None])].

Definition sheet_c : SDL.DataFrame :=
  SDL.mkDF ["Problem Number"] [(0, [Some "PRB9"])].

Definition sample_inbox : SDL.t :=
  SDL.mk [SDL.File "a.xlsx" 30 (SDL.Spreadsheet sheet_a);
          SDL.File "b.xlsx" 20 (SDL.Raw "not a workbook");
          SDL.File "c.xlsx" 10 (SDL.Spreadsheet sheet_c)]
         [] None None [] None.

(** Two spreadsheets whose names differ in a dot and an underscore only,
    each with one row at index 0. *)
Definition dotted_inbox : SDL.t :=
  SDL.mk [SDL.File "a.b.xlsx" 30 (SDL.Spreadsheet sheet_c);
          SDL.File "a_b.xlsx" 20 (SDL.Spreadsheet sheet_c)]
         [] None None [] None.

(** The keys [_enrich_qa_pair] writes. *)
Definition enriched_keys : list string :=
  [ "learned_timestamp"; "question_hash"; "answer_length"; "question_length";
    "categories"; "usage_count"; "confidence_score"; "source"; "fiscal_years" ].

(** A label FY followed by four digits. *)
Definition fy_label (l : string) : bool :=
  match l with
  | String "F" (String "Y" (String a (String b (String c (String d EmptyString))))) =>
      PyStr.isdigit a && PyStr.isdigit b && PyStr.isdigit c && PyStr.isdigit d
  | _ => false
  end.

(** [counts.get(k, 0)] of a table of counts. *)
Definition count_of (k : string) (counts : dict) : Z :=
  match Py.get k counts with Some (VInt n) => n | _ => 0 end.

(** The labels the entries carry under [field], in the order of the list. *)
Definition labels_of (field : string) (dflt : value) (pairs : list value)
  : list string :=
  flat_map (fun p => match ALS.labels field dflt p with
                     | Some l => l
                     | None => []
                     end) pairs.

Definition occurrences (k : string) (l : list string) : Z :=
  Z.of_nat (count_occ string_dec l k).

Definition sample_stats_list : list value :=
  [ VDict [ ("categories", VList [VStr "dell_specific"; VStr "analysis"]);
            ("fiscal_years", VList [VStr "FY2024"; VStr ""]) ];
    VDict [ ("question", VStr "no labels here") ];
    VDict [ ("categories", VList [VStr "analysis"]);
            ("fiscal_years", VList [VStr "FY2024"; VStr "FY2023"]) ] ].

(** An entry of the list on which both statistics can be computed. *)
Definition countable (p : value) : bool :=
  match ALS.labels "categories" (VList [VStr "general"]) p,
        ALS.labels "fiscal_years" (VList []) p with
  | Some _, Some _ => true
  | _, _ => false
  end.

(** An index that answers every question with two results, the first of
    which has lost its answer. *)
Definition broken_query (ix : Index.t) (q : string) (n : Z)
  : option ALS.QueryResult :=
  Some (ALS.mkQuery [["What is HEA?"; "What is a P1?"]]
          [[ [("source", VStr "chat_interaction")];
             sample_meta "A priority one incident." ]]
          (Some [[0.125%float; 0.25%float]])).

(** Two entries with the same question, as two calls of [ingest_qa_json]
    leave them. *)
Definition twice_learned : list value :=
  [ VDict [ ("question", VStr "What is HEA?");
            ("question_hash", VStr (MD5.hexdigest "What is HEA?"));
            ("usage_count", VInt 0) ];
    VDict [ ("question", VStr "What is HEA?");
            ("question_hash", VStr (MD5.hexdigest "What is HEA?"));
            ("usage_count", VInt 0) ] ].

(** An entry [glob] shows: its name does not start with a dot. *)
Definition visible (n : SDL.node) : bool :=
  negb (PyStr.startswith "." (SDL.node_name n)).

(** The entries [cleanup_old_backups] removes at a cutoff: the regular
    files that [glob] shows and that were last modified before it. *)
Definition expired (cutoff : Z) (n : SDL.node) : bool :=
  SDL.isfile n && visible n && (SDL.getmtime n <? cutoff).

(** The entries the loop removes among those it was given. *)
Definition doomed (cutoff : Z) (found : list SDL.node) (n : SDL.node) : bool :=
  SDL.isfile n && (SDL.getmtime n <? cutoff)
  && existsb (String.eqb (SDL.node_name n)) (names found).


(** The name [weekly_backup_job] gives the export it writes at a time. *)
Definition export_name (now : Z) : string :=
  "learned_knowledge_backup_" ++ isoformat now ++ ".json".

(** No directory of the folder is called [name]. *)
Definition no_dir_called (name : string) (folder : list SDL.node) : bool :=
  match SDL.find name folder with
  | Some n => SDL.isfile n
  | None => true
  end.

(** The document [export_learned_knowledge] returns at a time. *)
Definition export_document (ls : ALS.t) (cats : dict) (now : Z) : value :=
  VDict [ ("qa_pairs", VList (ALS.learned_qa_pairs ls));
          ("metadata",
           VDict [ ("export_timestamp", VStr (isoformat now));
                   ("total_pairs",
                    VInt (Z.of_nat (List.length (ALS.learned_qa_pairs ls))));
                   ("categories", VDict cats) ]) ].

(** A loader with one learned entry and a backup folder that holds an
    export of 40 days and one of 3 days. *)
Definition weekly_sample : SDL.t :=
  SDL.mk []
    [ SDL.File "learned_knowledge_backup_1.json" (960 * 86400) (SDL.Document VNone);
      SDL.File "learned_knowledge_backup_2.json" (997 * 86400) (SDL.Document VNone) ]
    None
    (Some (ALS.mk [VDict [("question", VStr "What is HEA?");
                          ("categories", VList [VStr "human_error"])]]
             None None []))
    [] None.


(** An entry of the inbox the job takes for a spreadsheet: its name ends
    in one of the three suffixes and does not start with a dot. *)
Definition spreadsheet_entry (n : SDL.node) : bool :=
  excel_name (SDL.node_name n) && visible n.

(** [a] may stand before [b] in a list sorted newest first. *)
Definition newer_or_same (a b : SDL.node) : Prop :=
  SDL.getmtime b <= SDL.getmtime a.

(** An inbox without a spreadsheet the job would take, and an exchange
    that waits to be learned. *)
Definition idle_inbox : SDL.t :=
  SDL.mk [ SDL.File "notes.txt" 30 (SDL.Raw "to do");
           SDL.File ".~lock.a.xlsx" 20 (SDL.Raw "") ]
         [] (Some (SDL.mkChroma 5 [])) (Some ALS.fresh)
         [ SDL.mkInteraction "999" "What is HEA?" "Human error avoidance."
             [] false None ]
         None.

(** A sheet with a column called Source and an empty cell. *)
Definition sheet_with_source : SDL.DataFrame :=
  SDL.mkDF ["Problem Number"; "Source"; "Root Cause"]
    [ (0, [Some "PRB1"; Some "service desk"; None]);
      (1, [Some "PRB2"; None; Some "config"]) ].

Definition source_inbox : SDL.t :=
  SDL.mk [SDL.File "p.xlsx" 30 (SDL.Spreadsheet sheet_with_source)]
         [] None None [] None.

(** The interaction [capture_chat_interaction] appends at a time. *)
Definition captured (now : Z) (q r : string) (md : dict) : SDL.Interaction :=
  SDL.mkInteraction (isoformat now) q r md false None.

(** A loader with a learning system and one exchange already learned. *)
Definition chat_sample : SDL.t :=
  SDL.mk [] [] None (Some ALS.fresh)
    [ SDL.mkInteraction "990" "What is a P1?" "A priority one incident."
        [] true (Some "995") ]
    None.

(* ===================================================================== *)
(** * Properties *)
(* ===================================================================== *)

(** ** MD5 test vectors *)

Example md5_empty : MD5.hexdigest "" = "d41d8cd98f00b204e9800998ecf8427e".
Proof. vm_compute. reflexivity. Qed.

Example md5_abc : MD5.hexdigest "abc" = "900150983cd24fb0d6963f7d28e17f72".
Proof. vm_compute. reflexivity. Qed.

Example md5_two_blocks :
  MD5.hexdigest "aaaaaaaaaaaaaaaaaaaaaaaaaaaaaaaaaaaaaaaaaaaaaaaaaaaaaaaaaaaaaaaaaaaaaa"
  = "0f5c6c4e740bfcc08c3c26ccb2673d46".
Proof. vm_compute. reflexivity. Qed.

Example md5_latin1 :
  MD5.hexdigest (String "c" (String "a" (String "f" (String (PyStr.chr 233) EmptyString))))
  = "07117fe4a1ebd544965dc19573183da2".
Proof. vm_compute. reflexivity. Qed.

Arguments ALS._enrich_qa_pair : simpl never.
Arguments ALS._save_knowledge : simpl never.
Arguments ALS._add_to_chroma : simpl never.
Arguments ALS.apply_valid_pairs : simpl never.
Arguments ALS.ingest_qa_json : simpl never.
Arguments MD5.hexdigest : simpl never.
Arguments PyStr.of_Z : simpl never.

(** ** Dictionaries and strings *)

Lemma get_set_same (k : string) (v : value) (d : dict) :
  Py.get k (Py.set k v d) = Some v.
Proof.
  induction d as [| [k' v'] r IH]; simpl.
  - now rewrite String.eqb_refl.
  - destruct (String.eqb k k') eqn:E; simpl; rewrite ?String.eqb_refl, ?E; auto.
Qed.

Lemma get_set_other (k k' : string) (v : value) (d : dict) :
  String.eqb k k' = false -> Py.get k (Py.set k' v d) = Py.get k d.
Proof.
  intros Hk. induction d as [| [k0 v0] r IH]; simpl.
  - now rewrite Hk.
  - destruct (String.eqb k' k0) eqn:E; simpl.
    + apply String.eqb_eq in E. subst k0. now rewrite Hk.
    + destruct (String.eqb k k0); auto.
Qed.

Lemma get_str_some (k : string) (d : dict) (s : string) :
  Py.get_str k d = Some s <-> Py.get k d = Some (VStr s).
Proof.
  unfold Py.get_str. destruct (Py.get k d) as [[]|]; split; congruence.
Qed.

Lemma length_rev_str (s acc : string) :
  String.length (PyStr.rev_str acc s) = (String.length acc + String.length s)%nat.
Proof.
  revert acc. induction s as [| c r IH]; intros acc; simpl.
  - lia.
  - rewrite IH. simpl. lia.
Qed.

Lemma length_lstrip (s : string) :
  (String.length (PyStr.lstrip s) <= String.length s)%nat.
Proof.
  induction s as [| c r IH]; simpl; auto.
  destruct (PyStr.isspace c); simpl; lia.
Qed.

Lemma len_strip_le (s : string) : PyStr.len (PyStr.strip s) <= PyStr.len s.
Proof.
  unfold PyStr.len, PyStr.strip, PyStr.rstrip.
  rewrite length_rev_str. simpl.
  pose proof (length_lstrip (PyStr.rev_str "" (PyStr.lstrip s))) as H1.
  rewrite length_rev_str in H1. simpl in H1.
  pose proof (length_lstrip s). lia.
Qed.

(** ** Validation *)

(** What a record that passes [_validate_qa_pair] looks like. *)
Lemma validate_inv (p : value) :
  ALS._validate_qa_pair p = true ->
  exists d q a,
    p = VDict d /\ Py.get "question" d = Some (VStr q)
    /\ Py.get "answer" d = Some (VStr a)
    /\ 5 <= PyStr.len (PyStr.strip q) /\ 10 <= PyStr.len (PyStr.strip a).
Proof.
  destruct p as [| | | | |l|d]; simpl; try discriminate.
  destruct (ALS.field_ok d "question" && (ALS.field_ok d "answer" && true)); simpl;
    try discriminate.
  destruct (Py.get_str "question" d) as [q|] eqn:Hq; try discriminate.
  destruct (Py.get_str "answer" d) as [a|] eqn:Ha; try discriminate.
  destruct (PyStr.len (PyStr.strip q) <? 5) eqn:E1; simpl; try discriminate.
  destruct (PyStr.len (PyStr.strip a) <? 10) eqn:E2; simpl; try discriminate.
  intros _. exists d, q, a. apply get_str_some in Hq, Ha.
  apply Z.ltb_ge in E1, E2. auto.
Qed.

Lemma rejected_invalid (d : dict) :
  too_short_or_missing d -> ALS._validate_qa_pair (VDict d) = false.
Proof.
  intros H. destruct (ALS._validate_qa_pair (VDict d)) eqn:E; auto.
  apply validate_inv in E. destruct E as (d' & q & a & Hd & Hq & Ha & H5 & H10).
  injection Hd as <-.
  pose proof (len_strip_le q). pose proof (len_strip_le a).
  destruct H as [H | [H | [(q' & H & Hl) | (a' & H & Hl)]]]; try congruence.
  - rewrite Hq in H. injection H as <-. lia.
  - rewrite Ha in H. injection H as <-. lia.
Qed.

(** ** The index *)

Lemma ids_upsert_in (e : Index.entry) (ix : Index.t) (i : string) :
  In i (Index.ids (Index.upsert e ix)) <-> i = Index.id e \/ In i (Index.ids ix).
Proof.
  induction ix as [| e' r IH]; simpl.
  - intuition.
  - destruct (String.eqb (Index.id e) (Index.id e')) eqn:E; simpl.
    + apply String.eqb_eq in E. rewrite E. intuition.
    + rewrite IH. intuition.
Qed.

Lemma ids_upsert_nodup (e : Index.entry) (ix : Index.t) :
  NoDup (Index.ids ix) -> NoDup (Index.ids (Index.upsert e ix)).
Proof.
  induction ix as [| e' r IH]; simpl; intros H.
  - constructor; [intros [] | constructor].
  - inversion H as [| x l Hn Hr]; subst.
    destruct (String.eqb (Index.id e) (Index.id e')) eqn:E; simpl.
    + apply String.eqb_eq in E. rewrite E. now constructor.
    + constructor; [| now apply IH].
      intros Hin. apply ids_upsert_in in Hin. destruct Hin as [Hin | Hin]; auto.
      rewrite Hin, String.eqb_refl in E. discriminate.
Qed.

Lemma ids_add_in (es : list Index.entry) (ix : Index.t) (i : string) :
  In i (Index.ids (Index.add es ix)) <-> In i (map Index.id es) \/ In i (Index.ids ix).
Proof.
  unfold Index.add. revert ix. induction es as [| e r IH]; intros ix; simpl.
  - intuition.
  - rewrite IH, ids_upsert_in. intuition.
Qed.

Lemma ids_add_nodup (es : list Index.entry) (ix : Index.t) :
  NoDup (Index.ids ix) -> NoDup (Index.ids (Index.add es ix)).
Proof.
  unfold Index.add. revert ix. induction es as [| e r IH]; intros ix H; simpl; auto.
  apply IH. now apply ids_upsert_nodup.
Qed.

(** ** Enrichment *)

Lemma strs_map_VStr (l : list string) : Py.strs (map VStr l) = Some l.
Proof. induction l as [| x r IH]; simpl; [| rewrite IH]; reflexivity. Qed.

Lemma join_value_strs (sep : string) (l : list string) :
  Py.join_value sep (VList (map VStr l)) = Some (PyStr.join sep l).
Proof. unfold Py.join_value. simpl. now rewrite strs_map_VStr. Qed.

Ltac dict_simpl :=
  repeat first [rewrite get_set_same | rewrite get_set_other by reflexivity].

(** The enrichment of a record whose two texts are strings: it succeeds,
    reads the clock once, keeps both texts, and adds the MD5 of the question
    text as [question_hash]. *)
Lemma enrich_spec (d : dict) (q a : string) (env : Env) :
  Py.get "question" d = Some (VStr q) ->
  Py.get "answer" d = Some (VStr a) ->
  exists e,
    ALS._enrich_qa_pair d env = (Some e, tick env)
    /\ Py.get "question" e = Some (VStr q)
    /\ Py.get "answer" e = Some (VStr a)
    /\ Py.get "question_hash" e = Some (VStr (MD5.hexdigest q))
    /\ Py.get "categories" e = Some (VList (map VStr (ALS.categorize_text q a)))
    /\ Py.get "learned_timestamp" e = Some (VStr (isoformat (clock env)))
    /\ Py.get "usage_count" e = Some (VInt 0)
    /\ exists md,
         ALS.chroma_entry e = Some (Index.mkEntry (MD5.hexdigest q) q md)
         /\ Py.get "answer" md = Some (VStr a).
Proof.
  intros Hq Ha. unfold ALS._enrich_qa_pair, ALS._categorize_qa_pair, datetime_now.
  assert (Hq' := proj2 (get_str_some _ _ _) Hq).
  assert (Ha' := proj2 (get_str_some _ _ _) Ha).
  rewrite Hq', Ha, Ha'. eexists. split; [reflexivity |].
  repeat split; dict_simpl; auto.
  unfold ALS.chroma_entry, Py.get_str, Py.get_default.
  dict_simpl. rewrite Hq. dict_simpl. rewrite Ha. dict_simpl.
  rewrite !join_value_strs. eexists. split; [reflexivity |]. reflexivity.
Qed.

(** ** Ingestion *)




Lemma same_world_trans (e1 e2 e3 : Env) :
  same_world e1 e2 -> same_world e2 e3 -> same_world e1 e3.
Proof. intros [H1 H2] [H3 H4]. split; congruence. Qed.


Lemma enrich_clock (d : dict) (e1 e2 : Env) :
  clock e1 = clock e2 ->
  fst (ALS._enrich_qa_pair d e1) = fst (ALS._enrich_qa_pair d e2).
Proof.
  intros Hc. unfold ALS._enrich_qa_pair, datetime_now. simpl. now rewrite Hc.
Qed.

Lemma valid_pairs_cons (qa : value) (r : list value) (env : Env) :
  ALS.valid_pairs_of (qa :: r) env =
  if ALS._validate_qa_pair qa then
    match qa with
    | VDict d =>
        match ALS._enrich_qa_pair d env with
        | (Some enriched_pair, env) =>
            match ALS.valid_pairs_of r env with
            | (Some vs, env) => (Some (enriched_pair :: vs), env)
            | (None, env) => (None, env)
            end
        | (None, env) => (None, env)
        end
    | _ => (None, env)
    end
  else ALS.valid_pairs_of r (logger (LogWarning "Invalid Q&A pair skipped") env).
Proof. reflexivity. Qed.


(** The loop over the records never raises: it returns the enrichments of
    the valid records, in input order, and reads the clock once for each. *)
Lemma valid_pairs_spec (l : list value) :
  forall env, exists vs env',
    ALS.valid_pairs_of l env = (Some vs, env')
    /\ clock env' = clock env + Z.of_nat (List.length vs)
    /\ disk_ok env' = disk_ok env
    /\ Forall2 (fun rec e => exists now, enriched_at now rec e)
               (filter ALS._validate_qa_pair l) vs.
Proof.
  induction l as [| qa r IH]; intros env.
  - exists [], env. repeat split; simpl; auto. lia.
  - rewrite valid_pairs_cons. simpl filter.
    destruct (ALS._validate_qa_pair qa) eqn:Hv.
    + destruct (validate_inv _ Hv) as (d & q & a & -> & Hq & Ha & _).
      destruct (enrich_spec d q a env Hq Ha) as (e & He & _).
      rewrite He.
      destruct (IH (tick env)) as (vs & env' & Hr & Hc & Hd & Hf).
      rewrite Hr. exists (e :: vs), env'. repeat split; auto.
      * rewrite Hc. simpl List.length. unfold tick. simpl. lia.
      * constructor; auto. exists (clock env), d, q, a. repeat split; auto.
        rewrite (enrich_clock d (mkEnv (clock env) [] true) env eq_refl), He.
        reflexivity.
    + destruct (IH (logger (LogWarning "Invalid Q&A pair skipped") env))
        as (vs & env' & Hr & Hc & Hd & Hf).
      exists vs, env'. repeat split; auto.
Qed.





(** [ingest_qa_json] on a payload with records [l]: the valid records are
    enriched and handed to [apply_valid_pairs]. *)
Lemma ingest_records (json : ALS.json_data) (data : value) (l : list value)
  (s : ALS.t) (env : Env) :
  ALS.parsed json = Some data ->
  ALS.new_pairs_of data = inr (Some l) ->
  exists vs env',
    ALS.valid_pairs_of l env = (Some vs, env')
    /\ ALS.ingest_qa_json json s env = ALS.apply_valid_pairs vs s env'.
Proof.
  intros Hp Hn. destruct (valid_pairs_spec l env) as (vs & env' & Hv & _).
  exists vs, env'. split; auto.
  unfold ALS.ingest_qa_json. now rewrite Hp, Hn, Hv.
Qed.

(** What [enriched_at] says about the stored entry. *)
Lemma enriched_props (now : Z) (rec : value) (e : dict) :
  enriched_at now rec e ->
  exists d q a md,
    rec = VDict d
    /\ Py.get "question" d = Some (VStr q) /\ Py.get "answer" d = Some (VStr a)
    /\ Py.get "question" e = Some (VStr q) /\ Py.get "answer" e = Some (VStr a)
    /\ question_hash e = Some (VStr (MD5.hexdigest q))
    /\ ALS.chroma_entry e = Some (Index.mkEntry (MD5.hexdigest q) q md).
Proof.
  intros (d & q & a & -> & Hq & Ha & He).
  destruct (enrich_spec d q a (mkEnv now [] true) Hq Ha)
    as (e' & He' & H1 & H2 & H3 & _ & _ & _ & md & H4 & _).
  rewrite He' in He. simpl in He. injection He as <-.
  exists d, q, a, md. repeat split; auto.
Qed.

Lemma chroma_entries_enriched (recs : list value) (vs : list dict) :
  Forall2 (fun rec e => exists now, enriched_at now rec e) recs vs ->
  exists es, ALS.chroma_entries vs = Some es /\ map Index.id es = hashes recs.
Proof.
  induction 1 as [| rec e recs vs [now He] _ (es & Hes & Hids)].
  - exists []. auto.
  - destruct (enriched_props _ _ _ He) as (d & q & a & md & -> & Hq & _ & _ & _ & _ & Hc).
    simpl. rewrite Hc, Hes. eexists. split; [reflexivity |].
    apply get_str_some in Hq. rewrite Hq. simpl. now rewrite Hids.
Qed.

Ltac destruct_stats :=
  repeat match goal with
         | |- context [ALS._get_category_stats ?a ?b] =>
             destruct (ALS._get_category_stats a b)
         | |- context [ALS._get_fy_stats ?a ?b] =>
             destruct (ALS._get_fy_stats a b)
         end.

Lemma save_fields (s : ALS.t) (env : Env) :
  let s' := fst (ALS._save_knowledge s env) in
  ALS.learned_qa_pairs s' = ALS.learned_qa_pairs s
  /\ ALS.learned_collection s' = ALS.learned_collection s
  /\ ALS.knowledge_file s' =
       (if disk_ok env then Some (ALS.learned_qa_pairs s) else ALS.knowledge_file s).
Proof.
  unfold ALS._save_knowledge, datetime_now. destruct (disk_ok env); simpl; auto.
  destruct_stats; simpl; auto.
Qed.

(** [apply_valid_pairs] on a list that is not empty, whose entries all go
    to the index. *)
Lemma apply_spec (vs : list dict) (es : list Index.entry) (s : ALS.t) (env : Env) :
  vs <> [] ->
  ALS.chroma_entries vs = Some es ->
  exists s' env',
    ALS.apply_valid_pairs vs s env = (true, s', env')
    /\ same_world env' (if disk_ok env then tick env else env)
    /\ ALS.learned_qa_pairs s' = (ALS.learned_qa_pairs s ++ map VDict vs)%list
    /\ ALS.knowledge_file s' =
         (if disk_ok env then Some (ALS.learned_qa_pairs s ++ map VDict vs)%list
          else ALS.knowledge_file s)
    /\ ALS.learned_collection s' = Index.add es (ALS.learned_collection s).
Proof.
  intros Hne Hes. unfold ALS.apply_valid_pairs.
  destruct vs as [| v vs]; [congruence |].
  set (s1 := ALS.set_pairs _ s).
  pose proof (save_fields s1 env) as (H1 & H2 & H3).
  assert (Hw : same_world (snd (ALS._save_knowledge s1 env))
                          (if disk_ok env then tick env else env)).
  { unfold ALS._save_knowledge, datetime_now. destruct (disk_ok env) eqn:E; simpl.
    - destruct_stats; simpl; split; auto.
    - split; auto. }
  destruct (ALS._save_knowledge s1 env) as [s2 env2]. simpl in H1, H2, H3, Hw.
  unfold ALS._add_to_chroma. rewrite Hes. simpl.
  eexists. eexists. split; [reflexivity |]. simpl.
  rewrite H1, H2, H3. repeat split; auto; apply Hw.
Qed.

(** The outcome of [ingest_qa_json]: with no valid record it fails and
    leaves the store as it was; with a valid record it succeeds, appends the
    enrichments of the valid records to the list, writes the list to the
    file when the disk works, and upserts the entries into the index. *)
Lemma ingest_spec (json : ALS.json_data) (s : ALS.t) (env : Env) :
  exists vs,
    enrichments (validated json) vs
    /\ ((vs = []
         /\ exists env',
              ALS.ingest_qa_json json s env = (false, s, env')
              /\ disk_ok env' = disk_ok env)
        \/ (vs <> []
            /\ exists es s' env',
                 ALS.chroma_entries vs = Some es
                 /\ map Index.id es = hashes (validated json)
                 /\ ALS.ingest_qa_json json s env = (true, s', env')
                 /\ disk_ok env' = disk_ok env
                 /\ ALS.learned_qa_pairs s'
                    = (ALS.learned_qa_pairs s ++ map VDict vs)%list
                 /\ ALS.knowledge_file s'
                    = (if disk_ok env
                       then Some (ALS.learned_qa_pairs s ++ map VDict vs)%list
                       else ALS.knowledge_file s)
                 /\ ALS.learned_collection s'
                    = Index.add es (ALS.learned_collection s))).
Proof.
  unfold validated, records_of, ALS.ingest_qa_json.
  destruct (ALS.parsed json) as [data|].
  2:{ exists []. split; [constructor |]. left. split; auto.
      eexists. split; reflexivity. }
  destruct (ALS.new_pairs_of data) as [ev | [l|]].
  1,3: (exists []; split; [constructor |]; left; split; auto;
        eexists; split; reflexivity).
  destruct (valid_pairs_spec l env) as (vs & env1 & Hv & _ & Hd & Hf).
  rewrite Hv. exists vs. split; auto.
  destruct vs as [| v vs].
  - left. split; auto. eexists. split; [reflexivity | exact Hd].
  - right. split; [discriminate |].
    destruct (chroma_entries_enriched _ _ Hf) as (es & Hes & Hids).
    destruct (apply_spec (v :: vs) es s env1 ltac:(discriminate) Hes)
      as (s' & env' & Ha & Hw & H1 & H2 & H3).
    exists es, s', env'. rewrite Hd in H2. repeat split; auto.
    destruct Hw as [_ Hw]. rewrite Hw. destruct (disk_ok env1) eqn:E; simpl; congruence.
Qed.

Lemma enrichments_nil (recs : list value) : enrichments recs [] -> recs = [].
Proof. inversion 1. reflexivity. Qed.

Lemma records_of_payload (sh : shape) (recs : list value) :
  exists data,
    ALS.parsed (payload sh recs) = Some data
    /\ ALS.new_pairs_of data = inr (Some recs).
Proof.
  destruct sh as [| session]; eexists; (split; [reflexivity |]); simpl; auto.
  unfold Py.has, Py.get_default. now rewrite get_set_same.
Qed.

Lemma validated_payload (sh : shape) (recs : list value) :
  validated (payload sh recs) = filter ALS._validate_qa_pair recs.
Proof.
  destruct (records_of_payload sh recs) as (data & Hp & Hn).
  unfold validated, records_of. now rewrite Hp, Hn.
Qed.




(** ** The outcome of an ingestion *)

Lemma validate_acceptable (r : value) : ALS._validate_qa_pair r = acceptable r.
Proof.
  destruct (ALS._validate_qa_pair r) eqn:E.
  - apply validate_inv in E. destruct E as (d & q & a & -> & Hq & Ha & H5 & H10).
    unfold acceptable, text_field, long_enough. rewrite Hq, Ha.
    symmetry. apply andb_true_iff. split; apply Z.leb_le; assumption.
  - destruct (acceptable r) eqn:A; [| reflexivity].
    unfold acceptable in A. apply andb_true_iff in A. destruct A as [A1 A2].
    destruct r as [| | | | | |d]; try discriminate A1.
    unfold text_field, long_enough in A1, A2.
    destruct (Py.get "question" d) as [[| | | |q| |]|] eqn:Hq; try discriminate A1.
    destruct (Py.get "answer" d) as [[| | | |a| |]|] eqn:Ha; try discriminate A2.
    apply Z.leb_le in A1, A2.
    pose proof (len_strip_le q) as Lq. pose proof (len_strip_le a) as La.
    assert (Nq : String.eqb q "" = false).
    { destruct q; [unfold PyStr.len in *; simpl in *; lia | reflexivity]. }
    assert (Na : String.eqb a "" = false).
    { destruct a; [unfold PyStr.len in *; simpl in *; lia | reflexivity]. }
    rewrite <- E. unfold ALS._validate_qa_pair, ALS.field_ok, Py.get_str.
    simpl forallb. rewrite Hq, Ha. simpl. rewrite Nq, Na. simpl.
    destruct (PyStr.len (PyStr.strip q) <? 5) eqn:E1; [apply Z.ltb_lt in E1; lia |].
    destruct (PyStr.len (PyStr.strip a) <? 10) eqn:E2; [apply Z.ltb_lt in E2; lia |].
    reflexivity.
Qed.

Lemma carries_records (json : ALS.json_data) (recs : list value) :
  carries json recs -> records_of json = recs.
Proof.
  unfold records_of. induction 1 as [d Hq H1 H2 | recs | d recs Hq | data recs _ IH]; simpl.
  - unfold Py.has in *. rewrite Hq. simpl.
    destruct (Py.get "question" d); [| discriminate].
    destruct (Py.get "answer" d); [| discriminate]. reflexivity.
  - reflexivity.
  - unfold Py.has, Py.get_default. rewrite Hq. reflexivity.
  - exact IH.
Qed.

Lemma carries_validated (json : ALS.json_data) (recs : list value) :
  carries json recs -> validated json = filter acceptable recs.
Proof.
  intros H. unfold validated. rewrite (carries_records _ _ H).
  apply filter_ext. intros r. apply validate_acceptable.
Qed.







(** One valid record, ingested alone: one entry is appended, its
    identifier is the MD5 of the question text, and the index holds that
    identifier. *)
Lemma ingest_one_valid (d : dict) (q : string) (s : ALS.t) (env : Env) :
  ALS._validate_qa_pair (VDict d) = true ->
  Py.get "question" d = Some (VStr q) ->
  exists e s' env',
    ALS.ingest_qa_json (payload Flat [VDict d]) s env = (true, s', env')
    /\ disk_ok env' = disk_ok env
    /\ question_hash e = Some (VStr (MD5.hexdigest q))
    /\ ALS.learned_qa_pairs s' = (ALS.learned_qa_pairs s ++ [VDict e])%list
    /\ ALS.knowledge_file s'
       = (if disk_ok env then Some (ALS.learned_qa_pairs s') else ALS.knowledge_file s)
    /\ In (MD5.hexdigest q) (Index.ids (ALS.learned_collection s'))
    /\ (NoDup (Index.ids (ALS.learned_collection s)) ->
        NoDup (Index.ids (ALS.learned_collection s'))).
Proof.
  intros Hv Hq.
  destruct (ingest_spec (payload Flat [VDict d]) s env) as (vs & Hen & Hcase).
  assert (Hfil : filter ALS._validate_qa_pair [VDict d] = [VDict d])
    by (unfold filter; now rewrite Hv).
  rewrite validated_payload, Hfil in *.
  inversion Hen as [| rec e recs vs' [now He] Hnil]; subst. inversion Hnil; subst.
  destruct Hcase as [(Habs & _) | (_ & es & s' & env' & Hes & Hids & Hi & Hd & H1 & H2 & H3)];
    [discriminate |].
  destruct (enriched_props _ _ _ He) as (d' & q' & a & md & Hd' & Hq' & _ & _ & _ & Hh & Hc).
  injection Hd' as <-. rewrite Hq in Hq'. injection Hq' as <-.
  simpl in Hes. rewrite Hc in Hes. injection Hes as <-.
  exists e, s', env'. repeat split; auto.
  - rewrite H2, H1. reflexivity.
  - rewrite H3. apply ids_add_in. left. simpl. auto.
  - intros Hn. rewrite H3. now apply ids_add_nodup.
Qed.

(** C1, as the code has it. Each call of [ingest_qa_json] appends the
    enrichment of every valid record, so two calls with the same question
    text leave two entries with the same [question_hash] (the MD5 of the
    question text) in the list and in the file; the list is not
    deduplicated. The index is keyed by that identifier and keeps one entry
    per identifier. *)
Theorem reingest_appends_a_second_entry (d1 d2 : dict) (q : string)
  (s : ALS.t) (env : Env) :
  ALS._validate_qa_pair (VDict d1) = true ->
  ALS._validate_qa_pair (VDict d2) = true ->
  Py.get "question" d1 = Some (VStr q) ->
  Py.get "question" d2 = Some (VStr q) ->
  let '(ok1, s1, env1) := ALS.ingest_qa_json (payload Flat [VDict d1]) s env in
  let '(ok2, s2, env2) := ALS.ingest_qa_json (payload Flat [VDict d2]) s1 env1 in
  ok1 = true /\ ok2 = true
  /\ exists e1 e2,
       ALS.learned_qa_pairs s2
       = (ALS.learned_qa_pairs s ++ [VDict e1; VDict e2])%list
       /\ question_hash e1 = Some (VStr (MD5.hexdigest q))
       /\ question_hash e2 = Some (VStr (MD5.hexdigest q))
       /\ (disk_ok env = true ->
           ALS.knowledge_file s2 = Some (ALS.learned_qa_pairs s2))
       /\ In (MD5.hexdigest q) (Index.ids (ALS.learned_collection s2))
       /\ (NoDup (Index.ids (ALS.learned_collection s)) ->
           NoDup (Index.ids (ALS.learned_collection s2))).
Proof.
  intros Hv1 Hv2 Hq1 Hq2.
  destruct (ingest_one_valid d1 q s env Hv1 Hq1)
    as (e1 & s1 & env1 & Hi1 & Hd1 & Hh1 & Hl1 & Hk1 & Hin1 & Hn1).
  rewrite Hi1.
  destruct (ingest_one_valid d2 q s1 env1 Hv2 Hq2)
    as (e2 & s2 & env2 & Hi2 & Hd2 & Hh2 & Hl2 & Hk2 & Hin2 & Hn2).
  rewrite Hi2. repeat split; auto.
  exists e1, e2. repeat split; auto.
  - rewrite Hl2, Hl1, <- app_assoc. reflexivity.
  - intros Hd. rewrite Hk2, Hd1, Hd. reflexivity.
Qed.

Lemma reingest_appends_a_second_entry_witness :
  let d := [("question", VStr "What is HEA?");
            ("answer", VStr "Human error avoidance.")] in
  let '(ok1, s1, env1) :=
    ALS.ingest_qa_json (payload Flat [VDict d]) ALS.fresh sample_env in
  let '(ok2, s2, env2) := ALS.ingest_qa_json (payload Flat [VDict d]) s1 env1 in
  ok1 = true /\ ok2 = true
  /\ exists e1 e2,
       ALS.learned_qa_pairs s2
       = (ALS.learned_qa_pairs ALS.fresh ++ [VDict e1; VDict e2])%list
       /\ question_hash e1 = Some (VStr (MD5.hexdigest "What is HEA?"))
       /\ question_hash e2 = Some (VStr (MD5.hexdigest "What is HEA?"))
       /\ (disk_ok sample_env = true ->
           ALS.knowledge_file s2 = Some (ALS.learned_qa_pairs s2))
       /\ In (MD5.hexdigest "What is HEA?") (Index.ids (ALS.learned_collection s2))
       /\ (NoDup (Index.ids (ALS.learned_collection ALS.fresh)) ->
           NoDup (Index.ids (ALS.learned_collection s2))).
Proof.
  exact (reingest_appends_a_second_entry
           [("question", VStr "What is HEA?");
            ("answer", VStr "Human error avoidance.")]
           [("question", VStr "What is HEA?");
            ("answer", VStr "Human error avoidance.")]
           "What is HEA?" ALS.fresh sample_env
           eq_refl eq_refl eq_refl eq_refl).
Defined.

(** C1, as the spec has it, fails: the same record ingested twice into an
    empty store leaves two entries in the durable file, both with the
    identifier of the question text. *)
Lemma reingest_leaves_two_entries :
  let '(_, s1, env1) :=
    ALS.ingest_qa_json (ALS.JsonValue sample_record) ALS.fresh sample_env in
  let '(_, s2, _) := ALS.ingest_qa_json (ALS.JsonValue sample_record) s1 env1 in
  option_map (map (fun p => match p with VDict e => question_hash e | _ => None end))
    (ALS.knowledge_file s2)
  = Some [Some (VStr "cc48dd4dbe049f9d6facab5545ea94a6");
          Some (VStr "cc48dd4dbe049f9d6facab5545ea94a6")]
  /\ List.length (ALS.learned_qa_pairs s2) = 2%nat
  /\ Index.ids (ALS.learned_collection s2) = ["cc48dd4dbe049f9d6facab5545ea94a6"].
Proof. vm_compute. repeat split. Qed.

(** ** Categorization *)

Lemma matched_none (vs : list (list string * string)) (combined : string) :
  (forall terms tag, In (terms, tag) vs -> ALS.any_in terms combined = false) ->
  ALS.matched vs combined = [].
Proof.
  induction vs as [| [terms tag] r IH]; intros H; simpl; auto.
  rewrite (H terms tag) by (left; reflexivity).
  apply IH. intros t g Hin. apply (H t g). now right.
Qed.

Lemma categorize_text_nonempty (q a : string) :
  exists c cs, ALS.categorize_text q a = c :: cs.
Proof.
  unfold ALS.categorize_text.
  destruct (ALS.matched ALS.vocabularies _) as [| c cs]; eauto.
Qed.

(** C9. The categories depend on the two texts only: two records with the
    same question and answer get the same categories, whatever else the
    records hold and whatever the state of the clock, the log and the disk
    when they are enriched; the list is never empty, and a text that
    matches no keyword gets the single tag "general". *)
Theorem categorize_is_pure_and_never_empty (p1 p2 : dict) (q a : string)
  (env1 env2 : Env) :
  Py.get "question" p1 = Some (VStr q) ->
  Py.get "answer" p1 = Some (VStr a) ->
  Py.get "question" p2 = Some (VStr q) ->
  Py.get "answer" p2 = Some (VStr a) ->
  ALS._categorize_qa_pair p1 = Some (ALS.categorize_text q a)
  /\ ALS._categorize_qa_pair p2 = ALS._categorize_qa_pair p1
  /\ (exists c cs, ALS.categorize_text q a = c :: cs)
  /\ ((forall terms tag, In (terms, tag) ALS.vocabularies ->
         ALS.any_in terms (PyStr.lower q ++ " " ++ PyStr.lower a) = false) ->
      ALS.categorize_text q a = ["general"])
  /\ exists e1 e2,
       fst (ALS._enrich_qa_pair p1 env1) = Some e1
       /\ fst (ALS._enrich_qa_pair p2 env2) = Some e2
       /\ Py.get "categories" e1 = Some (VList (map VStr (ALS.categorize_text q a)))
       /\ Py.get "categories" e2 = Py.get "categories" e1.
Proof.
  intros Hq1 Ha1 Hq2 Ha2.
  assert (Hc : forall p, Py.get "question" p = Some (VStr q) ->
                         Py.get "answer" p = Some (VStr a) ->
                         ALS._categorize_qa_pair p = Some (ALS.categorize_text q a)).
  { intros p Hq Ha. unfold ALS._categorize_qa_pair.
    apply get_str_some in Hq, Ha. now rewrite Hq, Ha. }
  split; [auto |]. split; [rewrite !Hc; auto |].
  split; [apply categorize_text_nonempty |]. split.
  - intros H. unfold ALS.categorize_text. now rewrite matched_none.
  - destruct (enrich_spec p1 q a env1 Hq1 Ha1) as (e1 & He1 & _ & _ & _ & Hc1 & _).
    destruct (enrich_spec p2 q a env2 Hq2 Ha2) as (e2 & He2 & _ & _ & _ & Hc2 & _).
    exists e1, e2. rewrite He1, He2, Hc1, Hc2. auto.
Qed.

Lemma categorize_is_pure_and_never_empty_witness :
  let p1 := [("question", VStr "What is the budget?");
             ("answer", VStr "The budget is fixed."); ("source", VStr "a")] in
  let p2 := [("answer", VStr "The budget is fixed.");
             ("question", VStr "What is the budget?")] in
  let q := "What is the budget?" in
  let a := "The budget is fixed." in
  ALS._categorize_qa_pair p1 = Some (ALS.categorize_text q a)
  /\ ALS._categorize_qa_pair p2 = ALS._categorize_qa_pair p1
  /\ (exists c cs, ALS.categorize_text q a = c :: cs)
  /\ ((forall terms tag, In (terms, tag) ALS.vocabularies ->
         ALS.any_in terms (PyStr.lower q ++ " " ++ PyStr.lower a) = false) ->
      ALS.categorize_text q a = ["general"])
  /\ exists e1 e2,
       fst (ALS._enrich_qa_pair p1 sample_env) = Some e1
       /\ fst (ALS._enrich_qa_pair p2 (mkEnv 7 [LogInfo "x"] false)) = Some e2
       /\ Py.get "categories" e1 = Some (VList (map VStr (ALS.categorize_text q a)))
       /\ Py.get "categories" e2 = Py.get "categories" e1.
Proof.
  exact (categorize_is_pure_and_never_empty
           [("question", VStr "What is the budget?");
            ("answer", VStr "The budget is fixed."); ("source", VStr "a")]
           [("answer", VStr "The budget is fixed.");
            ("question", VStr "What is the budget?")]
           "What is the budget?" "The budget is fixed."
           sample_env (mkEnv 7 [LogInfo "x"] false)
           eq_refl eq_refl eq_refl eq_refl).
Defined.

Example categorize_general :
  ALS.categorize_text "How are you today?" "I am fine, thanks." = ["general"].
Proof. vm_compute. reflexivity. Qed.

Example categorize_many :
  ALS.categorize_text "What is the Dell BUDGET trend?" "Costs fall in FY24."
  = ["financial"; "dell_specific"; "analysis"].
Proof. vm_compute. reflexivity. Qed.

(** ** Backups *)

Lemma files_removed_refl (folder : list SDL.node) : files_removed folder folder.
Proof. repeat split; auto. apply incl_refl. Qed.

Lemma files_removed_trans (f1 f2 f3 : list SDL.node) :
  files_removed f1 f2 -> files_removed f2 f3 -> files_removed f1 f3.
Proof.
  intros (H1 & H2 & H3) (H4 & H5 & H6). repeat split.
  - congruence.
  - eapply incl_tran; eauto.
  - intros n Hn. destruct (H3 n Hn) as [H | H]; auto.
Qed.

Lemma os_remove_files (name : string) (folder folder' : list SDL.node) :
  SDL.os_remove name folder = Some folder' -> files_removed folder folder'.
Proof.
  revert folder'. induction folder as [| n r IH]; intros folder' H; simpl in H.
  - discriminate.
  - destruct (String.eqb (SDL.node_name n) name).
    + destruct (SDL.isfile n) eqn:Hf; [| discriminate]. injection H as <-.
      repeat split.
      * simpl. unfold is_dir at 2. now rewrite Hf.
      * apply incl_tl, incl_refl.
      * intros m [<- | Hm]; auto.
    + destruct (SDL.os_remove name r) as [r'|]; [| discriminate].
      injection H as <-. destruct (IH r' eq_refl) as (H1 & H2 & H3).
      repeat split.
      * simpl. rewrite H1. reflexivity.
      * intros m [<- | Hm]; [left; auto | right; auto].
      * intros m [<- | Hm]; [left; left; auto |].
        destruct (H3 m Hm); [left; right; auto | right; auto].
Qed.

Lemma cleanup_loop_files (cutoff : Z) (found : list SDL.node) :
  forall folder env,
    files_removed folder (snd (fst (SDL.cleanup_loop cutoff found folder env))).
Proof.
  induction found as [| n r IH]; intros folder env; simpl.
  - apply files_removed_refl.
  - destruct (SDL.isfile n); [| apply IH].
    destruct (SDL.getmtime n <? cutoff); [| apply IH].
    destruct (SDL.os_remove (SDL.node_name n) folder) as [folder'|] eqn:E.
    + eapply files_removed_trans; [eapply os_remove_files, E | apply IH].
    + apply files_removed_refl.
Qed.

(** C10. [cleanup_old_backups] changes the backup folder only, and there it
    removes regular files only: every directory of the folder stays, with
    all it holds, whatever its age; in particular the snapshot directory
    that [backup_chroma_db] has just made. *)
Theorem cleanup_keeps_directories (days : Z) (s : SDL.t) (env : Env) :
  let s' := fst (SDL.cleanup_old_backups days s env) in
  filter is_dir (SDL.backup_folder s') = filter is_dir (SDL.backup_folder s)
  /\ incl (SDL.backup_folder s') (SDL.backup_folder s)
  /\ (forall n, In n (SDL.backup_folder s) ->
        In n (SDL.backup_folder s') \/ SDL.isfile n = true)
  /\ SDL.excel_folder s' = SDL.excel_folder s
  /\ SDL.chroma_path s' = SDL.chroma_path s
  /\ SDL.learning_system s' = SDL.learning_system s
  /\ SDL.chat_interactions s' = SDL.chat_interactions s
  /\ (forall s0 env0 c,
        SDL.chroma_path s0 = Some c ->
        SDL.find ("chroma_backup_" ++ isoformat (clock env0)) (SDL.backup_folder s0)
        = None ->
        SDL.backup_chroma_db s0 env0 = (s, env) ->
        In (SDL.snapshot ("chroma_backup_" ++ isoformat (clock env0)) c)
           (SDL.backup_folder s')).
Proof.
  unfold SDL.cleanup_old_backups, datetime_now.
  set (cutoff := clock env - days * SDL.seconds_per_day).
  set (env1 := mkEnv _ _ _).
  pose proof (cleanup_loop_files cutoff (SDL.glob "" (SDL.backup_folder s))
                (SDL.backup_folder s) env1) as H.
  assert (Hsnap : forall folder,
             filter is_dir folder = filter is_dir (SDL.backup_folder s) ->
             forall s0 env0 c,
               SDL.chroma_path s0 = Some c ->
               SDL.find ("chroma_backup_" ++ isoformat (clock env0))
                 (SDL.backup_folder s0) = None ->
               SDL.backup_chroma_db s0 env0 = (s, env) ->
               In (SDL.snapshot ("chroma_backup_" ++ isoformat (clock env0)) c) folder).
  { intros folder H1 s0 env0 c Hc Hf Hb.
    unfold SDL.backup_chroma_db, datetime_now in Hb.
    rewrite Hc, Hf in Hb. injection Hb as <- _. simpl in H1.
    assert (Hin : In (SDL.snapshot ("chroma_backup_" ++ isoformat (clock env0)) c)
                     (filter is_dir folder)).
    { rewrite H1, filter_app. apply in_or_app. right. simpl. auto. }
    apply filter_In in Hin. apply Hin. }
  destruct (SDL.cleanup_loop cutoff _ (SDL.backup_folder s) env1) as [[[u|] folder] env2];
    simpl in H; destruct H as (H1 & H2 & H3); simpl; repeat split; auto;
    apply Hsnap; assumption.
Qed.

Example cleanup_retention :
  let old (n : string) (age : Z) := SDL.File n (1000 * 86400 - age * 86400 - 1) (SDL.Raw "") in
  let s := SDL.mk []
             [old "a" 5; old "b" 29; old "c" 31; old "d" 60;
              SDL.Dir "chroma_backup_1" 0 [old "chroma.sqlite3" 900]]
             None None [] None in
  map SDL.node_name
    (SDL.backup_folder (fst (SDL.cleanup_old_backups 30 s (mkEnv (1000 * 86400) [] true))))
  = ["a"; "b"; "chroma_backup_1"].
Proof. vm_compute. reflexivity. Qed.

(** ** Interaction learning *)

Lemma update_middle {A : Type} (pre : list A) (x y : A) (r : list A) :
  PyList.update (List.length pre) y (pre ++ x :: r) = (pre ++ y :: r)%list.
Proof. induction pre as [| p pre IH]; simpl; [| rewrite IH]; reflexivity. Qed.

Lemma nth_error_middle {A : Type} (pre : list A) (x : A) (r : list A) :
  nth_error (pre ++ x :: r) (List.length pre) = Some x.
Proof. induction pre as [| p pre IH]; simpl; auto. Qed.

Lemma app_cons_snoc {A : Type} (pre : list A) (x : A) (r : list A) :
  (pre ++ x :: r = (pre ++ [x]) ++ r)%list.
Proof. now rewrite <- app_assoc. Qed.

Lemma length_snoc {A : Type} (pre : list A) (x : A) :
  List.length (pre ++ [x]) = S (List.length pre).
Proof. rewrite length_app. simpl. lia. Qed.

(** The loop over the positions is the loop along the list. *)
Lemma learn_loop_positions (chat : list SDL.Interaction) :
  forall pre ls env,
    SDL.learn_loop (SDL.positions (List.length pre) chat) (pre ++ chat) ls env
    = let '(chat', ls', env') := learn_all chat ls env in
      ((pre ++ chat')%list, ls', env').
Proof.
  induction chat as [| x r IH]; intros pre ls env.
  - reflexivity.
  - simpl SDL.positions. simpl learn_all. destruct (SDL.processed x).
    + rewrite app_cons_snoc, <- (length_snoc pre x), IH.
      destruct (learn_all r ls env) as [[r' ls'] env'].
      now rewrite <- app_assoc.
    + simpl SDL.learn_loop. rewrite nth_error_middle.
      destruct (ALS.ingest_qa_json _ ls env) as [[[|] ls1] env1].
      * unfold datetime_now. rewrite update_middle.
        rewrite app_cons_snoc, <- (length_snoc pre (SDL.mark x (clock env1))), IH.
        destruct (learn_all r ls1 _) as [[r' ls'] env'].
        now rewrite <- app_assoc.
      * rewrite app_cons_snoc, <- (length_snoc pre x), IH.
        destruct (learn_all r ls1 env1) as [[r' ls'] env'].
        now rewrite <- app_assoc.
Qed.

(** The ingestion of the record of one interaction reports success exactly
    when the record is valid; a failure leaves the knowledge store as it
    was, a success appends one entry. *)
Lemma ingest_interaction (x : SDL.Interaction) (ls : ALS.t) (env : Env) :
  exists ls' env',
    ALS.ingest_qa_json (ALS.JsonValue (SDL.qa_pair_of x)) ls env
    = (learnable x, ls', env')
    /\ (learnable x = false -> ls' = ls)
    /\ List.length (ALS.learned_qa_pairs ls')
       = (List.length (ALS.learned_qa_pairs ls) + (if learnable x then 1 else 0))%nat.
Proof.
  destruct (ingest_spec (ALS.JsonValue (SDL.qa_pair_of x)) ls env)
    as (vs & Hen & Hcase).
  assert (Hval : validated (ALS.JsonValue (SDL.qa_pair_of x))
                 = if learnable x then [SDL.qa_pair_of x] else []) by reflexivity.
  rewrite Hval in Hen.
  destruct Hcase as [(-> & env' & Hi & _) |
                     (Hne & es & ls' & env' & _ & _ & Hi & _ & H1 & _)].
  - apply enrichments_nil in Hen. destruct (learnable x); [discriminate |].
    exists ls, env'. repeat split; auto.
  - destruct (learnable x).
    + exists ls', env'. repeat split; auto; [discriminate |].
      rewrite H1, length_app, length_map. f_equal. symmetry.
      apply (Forall2_length Hen).
    + inversion Hen; subst. congruence.
Qed.

Lemma learn_all_spec (chat : list SDL.Interaction) :
  forall ls env,
    let '(chat', ls', env') := learn_all chat ls env in
    Forall2 learned_or_kept chat chat'
    /\ List.length (ALS.learned_qa_pairs ls')
       = (List.length (ALS.learned_qa_pairs ls)
          + List.length (filter (fun x => negb (SDL.processed x) && learnable x) chat))%nat.
Proof.
  induction chat as [| x r IH]; intros ls env; simpl.
  - split; [constructor | lia].
  - destruct (SDL.processed x) eqn:Hp; simpl.
    + specialize (IH ls env). destruct (learn_all r ls env) as [[r' ls'] env'].
      destruct IH as [H1 H2]. split; auto.
      constructor; auto. right. auto.
    + destruct (ingest_interaction x ls env) as (ls1 & env1 & Hi & Hk & Hl).
      rewrite Hi. destruct (learnable x) eqn:Hx.
      * unfold datetime_now.
        match goal with |- context [learn_all r ls1 ?e] => specialize (IH ls1 e);
          destruct (learn_all r ls1 e) as [[r' ls'] env'] end.
        destruct IH as [H1 H2]. split.
        -- constructor; auto. left. eauto.
        -- rewrite H2, Hl. simpl. lia.
      * specialize (IH ls1 env1). destruct (learn_all r ls1 env1) as [[r' ls'] env'].
        destruct IH as [H1 H2]. split.
        -- constructor; auto. right. auto.
        -- rewrite H2, Hl. lia.
Qed.

(** Nothing is left to learn: every interaction is processed or invalid. *)
Lemma learn_all_settled (chat : list SDL.Interaction) :
  Forall (fun x => SDL.processed x = true \/ learnable x = false) chat ->
  forall ls env, exists env',
    learn_all chat ls env = (chat, ls, env') /\ disk_ok env' = disk_ok env.
Proof.
  induction 1 as [| x r Hx _ IH]; intros ls env; simpl.
  - eauto.
  - destruct (SDL.processed x) eqn:Hp.
    + destruct (IH ls env) as (env' & -> & Hd). eauto.
    + destruct Hx as [Hx | Hx]; [discriminate |].
      destruct (ingest_interaction x ls env) as (ls1 & env1 & Hi & Hk & _).
      rewrite Hi, Hx. rewrite (Hk Hx).
      destruct (IH ls env1) as (env' & -> & Hd). 
      exists env'. split; auto. rewrite Hd.
      destruct (ingest_spec (ALS.JsonValue (SDL.qa_pair_of x)) ls env)
        as (vs & _ & [(_ & e & He & Hde) | (_ & es & s' & e & _ & _ & He & Hde & _)]);
        rewrite Hi in He; injection He as _ _ <-; auto.
Qed.

Lemma learned_or_kept_settled (chat chat' : list SDL.Interaction) :
  Forall2 learned_or_kept chat chat' ->
  Forall (fun x => SDL.processed x = true \/ learnable x = false) chat'.
Proof.
  induction 1 as [| x x' r r' Hx _ IH]; constructor; auto.
  destruct Hx as [(_ & _ & now & ->) | (H & ->)]; auto.
Qed.

Lemma positions_nil (chat : list SDL.Interaction) (i : nat) :
  SDL.positions i chat = [] -> Forall (fun x => SDL.processed x = true) chat.
Proof.
  revert i. induction chat as [| x r IH]; intros i H; simpl in H; constructor.
  - destruct (SDL.processed x); [reflexivity | discriminate].
  - destruct (SDL.processed x); [eapply IH, H | discriminate].
Qed.

Lemma positions_in (chat : list SDL.Interaction) :
  forall i k x,
    nth_error chat k = Some x -> SDL.processed x = false ->
    In (i + k)%nat (SDL.positions i chat).
Proof.
  induction chat as [| y r IH]; intros i k x Hn Hp.
  - destruct k; discriminate.
  - simpl. destruct k as [| k]; simpl in Hn.
    + injection Hn as ->. rewrite Hp. left. lia.
    + replace (i + S k)%nat with (S i + k)%nat by lia.
      destruct (SDL.processed y); [| right]; eapply IH; eauto.
Qed.

Lemma short_response_not_learnable (x : SDL.Interaction) :
  PyStr.len (SDL.bot_response x) < 10 -> learnable x = false.
Proof.
  intros H. unfold learnable, SDL.qa_pair_of. apply rejected_invalid.
  right. right. right. exists (SDL.bot_response x). split; [reflexivity | exact H].
Qed.

Lemma Forall2_nth_left {A B : Type} (R : A -> B -> Prop) (l : list A) (l' : list B) :
  Forall2 R l l' ->
  forall k x, nth_error l k = Some x -> exists x', nth_error l' k = Some x' /\ R x x'.
Proof.
  induction 1 as [| a b l l' Hab _ IH]; intros k x Hk.
  - destruct k; discriminate.
  - destruct k as [| k]; simpl in *.
    + injection Hk as <-. eauto.
    + eauto.
Qed.

(** The job as one pass of [learn_all]. *)
Lemma process_spec (s : SDL.t) (ls : ALS.t) (env : Env) :
  SDL.learning_system s = Some ls ->
  exists env0 chat' ls' env',
    learn_all (SDL.chat_interactions s) ls env0 = (chat', ls', env')
    /\ SDL.chat_interactions (fst (SDL.process_chat_interactions s env)) = chat'
    /\ SDL.learning_system (fst (SDL.process_chat_interactions s env)) = Some ls'.
Proof.
  intros Hls. unfold SDL.process_chat_interactions, SDL.unprocessed_of. rewrite Hls.
  destruct (SDL.positions 0 (SDL.chat_interactions s)) as [| i us] eqn:Hpos.
  - apply positions_nil in Hpos.
    destruct (learn_all_settled (SDL.chat_interactions s)) with (ls := ls) (env := env)
      as (env' & Hl & _).
    { eapply Forall_impl; [| exact Hpos]. auto. }
    exists env, (SDL.chat_interactions s), ls, env'. auto.
  - rewrite <- Hpos.
    set (env0 := logger _ env).
    pose proof (learn_loop_positions (SDL.chat_interactions s) [] ls env0) as Hl.
    simpl in Hl. rewrite Hl.
    destruct (learn_all (SDL.chat_interactions s) ls env0) as [[chat' ls'] env']
      eqn:Hla.
    exists env0, chat', ls', env'. split; [exact Hla |].
    unfold SDL.save_chat_interactions. destruct (disk_ok env'); simpl; auto.
Qed.

(** C7. The interaction-learning job sets the processed flag of an
    interaction only when the ingestion of its record reported success,
    which it does exactly for a valid record. An unprocessed interaction
    whose response has fewer than 10 characters stays as it was and is
    among those the next run selects. The knowledge list grows by one entry
    for each unprocessed valid interaction and by nothing else, and a second
    run changes neither the interactions nor the knowledge store. *)
Theorem interaction_learning_marks_learned_only (s : SDL.t) (ls : ALS.t) (env : Env) :
  SDL.learning_system s = Some ls ->
  let '(s1, env1) := SDL.process_chat_interactions s env in
  let '(s2, env2) := SDL.process_chat_interactions s1 env1 in
  (forall x ls0 env0,
     fst (fst (ALS.ingest_qa_json (ALS.JsonValue (SDL.qa_pair_of x)) ls0 env0))
     = learnable x)
  /\ Forall2 learned_or_kept (SDL.chat_interactions s) (SDL.chat_interactions s1)
  /\ (forall k x,
        nth_error (SDL.chat_interactions s) k = Some x ->
        SDL.processed x = false ->
        PyStr.len (SDL.bot_response x) < 10 ->
        nth_error (SDL.chat_interactions s1) k = Some x
        /\ In k (SDL.unprocessed_of (SDL.chat_interactions s1)))
  /\ (exists ls1,
        SDL.learning_system s1 = Some ls1
        /\ List.length (ALS.learned_qa_pairs ls1)
           = (List.length (ALS.learned_qa_pairs ls)
              + List.length (filter (fun x => negb (SDL.processed x) && learnable x)
                               (SDL.chat_interactions s)))%nat)
  /\ SDL.chat_interactions s2 = SDL.chat_interactions s1
  /\ SDL.learning_system s2 = SDL.learning_system s1.
Proof.
  intros Hls.
  destruct (process_spec s ls env Hls) as (env0 & chat1 & ls1 & e1 & Hl1 & Hc1 & Hs1).
  destruct (SDL.process_chat_interactions s env) as [s1 env1]. simpl in Hc1, Hs1.
  destruct (process_spec s1 ls1 env1 Hs1) as (env0' & chat2 & ls2 & e2 & Hl2 & Hc2 & Hs2).
  destruct (SDL.process_chat_interactions s1 env1) as [s2 env2]. simpl in Hc2, Hs2.
  pose proof (learn_all_spec (SDL.chat_interactions s) ls env0) as Hspec.
  rewrite Hl1 in Hspec. destruct Hspec as [HF Hlen].
  assert (Hset := learned_or_kept_settled _ _ HF).
  destruct (learn_all_settled chat1 Hset ls1 env0') as (e' & Hl2' & _).
  rewrite Hc1 in Hl2. rewrite Hl2' in Hl2. injection Hl2 as <- <- _.
  split; [| split; [| split; [| split; [| split]]]].
  - intros x ls0 env0''.
    destruct (ingest_interaction x ls0 env0'') as (l' & e'' & -> & _). reflexivity.
  - now rewrite Hc1.
  - intros k x Hk Hp Hshort. rewrite Hc1.
    destruct (Forall2_nth_left _ _ _ HF k x Hk) as (x' & Hk' & Hx').
    apply short_response_not_learnable in Hshort.
    destruct Hx' as [(_ & Hx' & _) | (_ & ->)]; [congruence |].
    split; auto. apply (positions_in chat1 0 k x Hk' Hp).
  - exists ls1. auto.
  - congruence.
  - congruence.
Qed.

Lemma interaction_learning_marks_learned_only_witness :
  let short := SDL.mkInteraction "1" "What is HEA?" "Unknown" [] false None in
  let good := SDL.mkInteraction "2" "What is HEA?" "Human error avoidance." [] false None in
  let done := SDL.mkInteraction "0" "What is a process?" "A sequence of steps." []
                true (Some "0") in
  let s := SDL.mk [] [] None (Some ALS.fresh) [done; short; good] None in
  let '(s1, env1) := SDL.process_chat_interactions s sample_env in
  let '(s2, env2) := SDL.process_chat_interactions s1 env1 in
  (forall x ls0 env0,
     fst (fst (ALS.ingest_qa_json (ALS.JsonValue (SDL.qa_pair_of x)) ls0 env0))
     = learnable x)
  /\ Forall2 learned_or_kept (SDL.chat_interactions s) (SDL.chat_interactions s1)
  /\ (forall k x,
        nth_error (SDL.chat_interactions s) k = Some x ->
        SDL.processed x = false ->
        PyStr.len (SDL.bot_response x) < 10 ->
        nth_error (SDL.chat_interactions s1) k = Some x
        /\ In k (SDL.unprocessed_of (SDL.chat_interactions s1)))
  /\ (exists ls1,
        SDL.learning_system s1 = Some ls1
        /\ List.length (ALS.learned_qa_pairs ls1)
           = (List.length (ALS.learned_qa_pairs ALS.fresh)
              + List.length (filter (fun x => negb (SDL.processed x) && learnable x)
                               (SDL.chat_interactions s)))%nat)
  /\ SDL.chat_interactions s2 = SDL.chat_interactions s1
  /\ SDL.learning_system s2 = SDL.learning_system s1.
Proof.
  exact (interaction_learning_marks_learned_only
           (SDL.mk [] [] None (Some ALS.fresh)
              [SDL.mkInteraction "0" "What is a process?" "A sequence of steps." []
                 true (Some "0");
               SDL.mkInteraction "1" "What is HEA?" "Unknown" [] false None;
               SDL.mkInteraction "2" "What is HEA?" "Human error avoidance." []
                 false None]
              None)
           ALS.fresh sample_env eq_refl).
Defined.

Example interaction_learning_run :
  let short := SDL.mkInteraction "1" "What is HEA?" "Unknown" [] false None in
  let good := SDL.mkInteraction "2" "What is HEA?" "Human error avoidance." [] false None in
  let s := SDL.mk [] [] None (Some ALS.fresh) [short; good] None in
  let s1 := fst (SDL.process_chat_interactions s sample_env) in
  map SDL.processed (SDL.chat_interactions s1) = [false; true]
  /\ option_map (fun l => List.length (ALS.learned_qa_pairs l)) (SDL.learning_system s1)
     = Some 1%nat.
Proof. vm_compute. auto. Qed.

(** ** The order of floats *)

Lemma lex_compare_lt (a b : Z * Z * Z) : lex_compare a b = Lt <-> lex_lt a b.
Proof.
  destruct a as [[a1 a2] a3], b as [[b1 b2] b3]. unfold lex_compare, lex_lt.
  destruct (Z.compare_spec a1 b1), (Z.compare_spec a2 b2), (Z.compare_spec a3 b3);
    split; intros Hx; try discriminate; try reflexivity; lia.
Qed.

Lemma lex_compare_eq (a b : Z * Z * Z) : lex_compare a b = Eq <-> a = b.
Proof.
  destruct a as [[a1 a2] a3], b as [[b1 b2] b3]. unfold lex_compare.
  destruct (Z.compare_spec a1 b1), (Z.compare_spec a2 b2), (Z.compare_spec a3 b3);
    split; intros Hx; try discriminate; try reflexivity;
    try (injection Hx; lia); subst; reflexivity.
Qed.

Lemma lex_total (a b : Z * Z * Z) : lex_lt a b \/ a = b \/ lex_lt b a.
Proof.
  destruct a as [[a1 a2] a3], b as [[b1 b2] b3]. unfold lex_lt.
  destruct (Z.lt_total a1 b1) as [|[|]], (Z.lt_total a2 b2) as [|[|]],
    (Z.lt_total a3 b3) as [|[|]]; subst; auto; try lia.
Qed.

Lemma lex_lt_irrefl (a : Z * Z * Z) : ~ lex_lt a a.
Proof. destruct a as [[a1 a2] a3]. unfold lex_lt. lia. Qed.

Lemma lex_lt_trans (a b c : Z * Z * Z) : lex_lt a b -> lex_lt b c -> lex_lt a c.
Proof.
  destruct a as [[a1 a2] a3], b as [[b1 b2] b3], c as [[c1 c2] c3].
  unfold lex_lt. lia.
Qed.

Lemma lex_le_trans (a b c : Z * Z * Z) : lex_le a b -> lex_le b c -> lex_le a c.
Proof.
  intros [H1 | ->] [H2 | ->]; unfold lex_le; auto.
  left. eapply lex_lt_trans; eauto.
Qed.

Lemma SFcompare_key (x y : spec_float) (a b : Z * Z * Z) :
  sf_key x = Some a -> sf_key y = Some b ->
  SFcompare x y = Some (lex_compare a b).
Proof.
  destruct x as [sx | sx | | sx mx ex], y as [sy | sy | | sy my ey];
    try destruct sx; try destruct sy; simpl; intros Ha Hb;
    try discriminate; injection Ha as <-; injection Hb as <-; try reflexivity;
    rewrite ?Z.compare_refl.
  - unfold lex_compare. change (-1 ?= -1) with Eq. cbv iota.
    destruct (Z.compare_spec ex ey) as [-> | Hlt | Hgt].
    + rewrite Z.compare_refl. reflexivity.
    + rewrite (proj2 (Z.compare_gt_iff (- ex) (- ey))) by lia. reflexivity.
    + rewrite (proj2 (Z.compare_lt_iff (- ex) (- ey))) by lia. reflexivity.
Qed.

Lemma SFcompare_nan (x y : spec_float) :
  sf_key x = None \/ sf_key y = None -> SFcompare x y = None.
Proof.
  destruct x as [sx | sx | | sx mx ex], y as [sy | sy | | sy my ey];
    try destruct sx; try destruct sy; simpl; intros [H | H];
    try discriminate; reflexivity.
Qed.

Lemma ltb_key (x y : float) :
  PrimFloat.ltb x y = true <->
  exists a b, fkey x = Some a /\ fkey y = Some b /\ lex_lt a b.
Proof.
  rewrite ltb_spec. unfold SFltb, fkey.
  destruct (sf_key (Prim2SF x)) as [a|] eqn:Ha;
    [destruct (sf_key (Prim2SF y)) as [b|] eqn:Hb |].
  - rewrite (SFcompare_key _ _ a b Ha Hb). split.
    + intros H. exists a, b. repeat split.
      apply lex_compare_lt. destruct (lex_compare a b); congruence.
    + intros (a' & b' & Ha' & Hb' & Hl). injection Ha' as <-. injection Hb' as <-.
      apply lex_compare_lt in Hl. now rewrite Hl.
  - rewrite SFcompare_nan by auto. split; [discriminate |].
    intros (a' & b' & _ & Hb' & _). discriminate.
  - rewrite SFcompare_nan by auto. split; [discriminate |].
    intros (a' & b' & Ha' & _). discriminate.
Qed.

Lemma eqb_key (x y : float) :
  PrimFloat.eqb x y = true <-> exists a, fkey x = Some a /\ fkey y = Some a.
Proof.
  rewrite eqb_spec. unfold SFeqb, fkey.
  destruct (sf_key (Prim2SF x)) as [a|] eqn:Ha;
    [destruct (sf_key (Prim2SF y)) as [b|] eqn:Hb |].
  - rewrite (SFcompare_key _ _ a b Ha Hb). split.
    + intros H. exists a. split; auto. f_equal. symmetry.
      apply lex_compare_eq. destruct (lex_compare a b); congruence.
    + intros (a' & Ha' & Hb'). injection Ha' as ->. injection Hb' as ->.
      now rewrite (proj2 (lex_compare_eq _ _) eq_refl).
  - rewrite SFcompare_nan by auto. split; [discriminate |].
    intros (a' & _ & Hb'). discriminate.
  - rewrite SFcompare_nan by auto. split; [discriminate |].
    intros (a' & Ha' & _). discriminate.
Qed.

Lemma leb_key (x y : float) :
  PrimFloat.leb x y = true <->
  exists a b, fkey x = Some a /\ fkey y = Some b /\ lex_le a b.
Proof.
  rewrite leb_spec. unfold SFleb, fkey.
  destruct (sf_key (Prim2SF x)) as [a|] eqn:Ha;
    [destruct (sf_key (Prim2SF y)) as [b|] eqn:Hb |].
  - rewrite (SFcompare_key _ _ a b Ha Hb). split.
    + intros H. exists a, b. repeat split.
      destruct (lex_compare a b) eqn:E; try discriminate.
      * right. now apply lex_compare_eq.
      * left. now apply lex_compare_lt.
    + intros (a' & b' & Ha' & Hb' & [Hl | Hl]); injection Ha' as <-; injection Hb' as <-.
      * apply lex_compare_lt in Hl. now rewrite Hl.
      * apply lex_compare_eq in Hl. now rewrite Hl.
  - rewrite SFcompare_nan by auto. split; [discriminate |].
    intros (a' & b' & _ & Hb' & _). discriminate.
  - rewrite SFcompare_nan by auto. split; [discriminate |].
    intros (a' & b' & Ha' & _). discriminate.
Qed.

Lemma ltb_number (x y : float) : PrimFloat.ltb x y = true -> is_number x /\ is_number y.
Proof.
  intros H. apply ltb_key in H. destruct H as (a & b & Ha & Hb & _).
  split; [exists a | exists b]; assumption.
Qed.

(** Below the threshold means not at or above it. *)
Lemma ltb_not_leb (x y : float) : PrimFloat.ltb x y = true -> PrimFloat.leb y x = false.
Proof.
  intros H. apply ltb_key in H. destruct H as (a & b & Ha & Hb & Hl).
  destruct (PrimFloat.leb y x) eqn:E; auto.
  apply leb_key in E. destruct E as (b' & a' & Hb' & Ha' & Hle).
  rewrite Ha in Ha'. rewrite Hb in Hb'. injection Ha' as <-. injection Hb' as <-.
  exfalso. destruct Hle as [Hle | ->].
  - apply (lex_lt_irrefl a). eapply lex_lt_trans; eauto.
  - apply (lex_lt_irrefl a), Hl.
Qed.

Lemma eqb_leb (x y : float) : PrimFloat.eqb x y = true -> PrimFloat.leb y x = true.
Proof.
  intros H. apply eqb_key in H. destruct H as (a & Ha & Hb).
  apply leb_key. exists a, a. repeat split; auto. now right.
Qed.

Lemma not_ltb_leb (x y : float) :
  is_number x -> is_number y -> PrimFloat.ltb x y = false -> PrimFloat.leb y x = true.
Proof.
  intros [a Ha] [b Hb] H. apply leb_key. exists b, a. repeat split; auto.
  destruct (lex_total a b) as [Hl | [-> | Hl]].
  - assert (PrimFloat.ltb x y = true) by (apply ltb_key; eauto). congruence.
  - now right.
  - now left.
Qed.

Lemma ltb_leb (x y : float) : PrimFloat.ltb x y = true -> PrimFloat.leb x y = true.
Proof.
  intros H. apply ltb_key in H. destruct H as (a & b & Ha & Hb & Hl).
  apply leb_key. exists a, b. repeat split; auto. now left.
Qed.

Lemma leb_trans (x y z : float) :
  PrimFloat.leb x y = true -> PrimFloat.leb y z = true -> PrimFloat.leb x z = true.
Proof.
  intros H1 H2. apply leb_key in H1, H2.
  destruct H1 as (a & b & Ha & Hb & H1). destruct H2 as (b' & c & Hb' & Hc & H2).
  rewrite Hb in Hb'. injection Hb' as <-.
  apply leb_key. exists a, c. repeat split; auto. eapply lex_le_trans; eauto.
Qed.

Lemma ltb_eqb_apart (x y c : float) :
  PrimFloat.ltb x y = true -> PrimFloat.eqb x c = true -> PrimFloat.eqb y c = false.
Proof.
  intros H1 H2. apply ltb_key in H1. apply eqb_key in H2.
  destruct H1 as (a & b & Ha & Hb & Hl). destruct H2 as (a' & Ha' & Hc).
  rewrite Ha in Ha'. injection Ha' as <-.
  destruct (PrimFloat.eqb y c) eqn:E; auto.
  apply eqb_key in E. destruct E as (b' & Hb' & Hc').
  rewrite Hb in Hb'. injection Hb' as <-. rewrite Hc in Hc'. injection Hc' as <-.
  exfalso. apply (lex_lt_irrefl a), Hl.
Qed.

Lemma leb_number (x y : float) : PrimFloat.leb x y = true -> is_number x /\ is_number y.
Proof.
  intros H. apply leb_key in H. destruct H as (a & b & Ha & Hb & _).
  split; [exists a | exists b]; assumption.
Qed.

(** [max(0, x)] is a number, also for a NaN. *)
Lemma max0_number (x : float) : is_number (ALS.max0 x).
Proof.
  unfold ALS.max0. destruct (PrimFloat.ltb 0 x) eqn:E.
  - apply ltb_number in E. apply E.
  - exists (0, 0, 0). reflexivity.
Qed.

(** ** The stable descending sort *)

Section SortFacts.
Context {A : Type}.
Variable lt : A -> A -> bool.

Lemma insert_desc_perm (x : A) (l : list A) :
  Permutation (PyList.insert_desc lt x l) (x :: l).
Proof.
  induction l as [| y r IH]; simpl; auto.
  destruct (lt x y); auto.
  eapply perm_trans; [apply perm_skip, IH | apply perm_swap].
Qed.

Lemma sort_desc_perm (l : list A) : Permutation (PyList.sort_desc lt l) l.
Proof.
  induction l as [| x r IH]; simpl; auto.
  eapply perm_trans; [apply insert_desc_perm | apply perm_skip, IH].
Qed.

(** [P] holds of the elements whose keys are comparable, [R a b] says that
    [a] may stand before [b]. *)
Variable P : A -> Prop.
Variable R : A -> A -> Prop.
Hypothesis R_not_lt : forall a b, P a -> P b -> lt a b = false -> R a b.
Hypothesis R_lt : forall a b, P a -> P b -> lt a b = true -> R b a.
Hypothesis R_trans : forall a b c, R a b -> R b c -> R a c.

Lemma insert_desc_sorted (x : A) (l : list A) :
  P x -> Forall P l -> StronglySorted R l ->
  StronglySorted R (PyList.insert_desc lt x l).
Proof.
  intros Hx. induction l as [| y r IH]; intros HP Hs; simpl.
  - constructor; constructor.
  - inversion HP as [| y' r' Hy HPr]; subst.
    inversion Hs as [| y' r' Hsr Hyr]; subst.
    destruct (lt x y) eqn:E.
    + constructor; [apply IH; assumption |].
      eapply Permutation_Forall; [apply Permutation_sym, insert_desc_perm |].
      constructor; [apply R_lt; assumption | assumption].
    + assert (Hxy : R x y) by (apply R_not_lt; assumption).
      constructor; [assumption |]. constructor; [assumption |].
      eapply Forall_impl; [| exact Hyr]. intros z Hz. eapply R_trans; eassumption.
Qed.

Lemma sort_desc_sorted (l : list A) :
  Forall P l -> StronglySorted R (PyList.sort_desc lt l).
Proof.
  induction 1 as [| x r Hx Hr IH]; simpl; [constructor |].
  apply insert_desc_sorted; auto.
  eapply Permutation_Forall; [apply Permutation_sym, sort_desc_perm | exact Hr].
Qed.

(** [p] picks the elements with one given key: an element never passes
    another with the same key. *)
Variable p : A -> bool.
Hypothesis p_apart : forall x y, lt x y = true -> p x = true -> p y = false.

Lemma insert_desc_stable (x : A) (l : list A) :
  filter p (PyList.insert_desc lt x l) = filter p (x :: l).
Proof.
  induction l as [| y r IH]; simpl; auto.
  destruct (lt x y) eqn:E; simpl; auto.
  rewrite IH. simpl. destruct (p x) eqn:Hx; auto.
  now rewrite (p_apart x y E Hx).
Qed.

Lemma sort_desc_stable (l : list A) :
  filter p (PyList.sort_desc lt l) = filter p l.
Proof.
  induction l as [| x r IH]; simpl; auto.
  rewrite insert_desc_stable. simpl. now rewrite IH.
Qed.

End SortFacts.

(** ** Search *)

Lemma match_of_ok (doc : string) (m : dict) (c : float) :
  meta_ok m = true ->
  exists x, ALS.match_of doc m c = Some x /\ match_for (doc, m, c) x.
Proof.
  unfold meta_ok, ALS.match_of, Py.has. intros H.
  destruct (Py.get "answer" m) as [a|] eqn:Ha; [| discriminate].
  destruct (ALS.split_field "categories" m); [| discriminate].
  destruct (ALS.split_field "fiscal_years" m); [| discriminate].
  eexists. split; [reflexivity |]. repeat split. exact Ha.
Qed.

Lemma relevant_spec (t : float) (docs : list string) :
  forall metas dists,
    forallb meta_ok metas = true ->
    exists kept,
      ALS.relevant docs metas dists t = Some kept
      /\ Forall2 match_for (filter (passes t) (scored docs metas dists)) kept.
Proof.
  induction docs as [| doc docs IH]; intros metas dists Hok.
  - exists []. split; [reflexivity | constructor].
  - destruct metas as [| m metas]; [exists []; split; [reflexivity | constructor] |].
    destruct dists as [| d dists]; [exists []; split; [reflexivity | constructor] |].
    simpl in Hok. apply andb_true_iff in Hok. destruct Hok as [Hm Hok].
    destruct (IH metas dists Hok) as (kept & Hr & Hf).
    simpl. unfold passes at 1. simpl.
    destruct (PrimFloat.leb t (ALS.confidence_of d)) eqn:E.
    + destruct (match_of_ok doc m (ALS.confidence_of d) Hm) as (x & Hx & Hmx).
      rewrite Hx, Hr. exists (x :: kept). split; [reflexivity |]. constructor; auto.
    + exists kept. auto.
Qed.

Lemma kept_numbers (kept : list ALS.Match)
  (docs : list string) (metas : list dict) (dists : list float) (t : float) :
  Forall2 match_for (filter (passes t) (scored docs metas dists)) kept ->
  Forall (fun m => is_number (ALS.confidence m)
                   /\ PrimFloat.leb t (ALS.confidence m) = true) kept.
Proof.
  intros H.
  assert (Hs : Forall (fun x => is_number (snd x) /\ passes t x = true)
                 (filter (passes t) (scored docs metas dists))).
  { apply Forall_forall. intros x Hx. apply filter_In in Hx. destruct Hx as [Hx Hp].
    split; auto. clear Hp H. revert metas dists Hx.
    induction docs as [| doc docs IH]; intros [| m metas] [| d dists] Hx;
      simpl in Hx; try contradiction.
    destruct Hx as [<- | Hx]; [apply max0_number | eapply IH, Hx]. }
  induction H as [| x m xs ms (_ & _ & Hc) _ IH]; constructor.
  - inversion Hs; subst. rewrite Hc. assumption.
  - apply IH. now inversion Hs.
Qed.

(** C4. [search_learned_knowledge] gives every result of the index the
    confidence [max(0, 1 - distance)], keeps those whose confidence is at
    least the threshold, and returns them sorted descending by confidence,
    results of equal confidence in the order the index returned them. *)
Theorem search_converts_filters_and_sorts
  (query : Index.t -> string -> Z -> option ALS.QueryResult)
  (q : string) (n : Z) (t : float) (s : ALS.t) (env : Env)
  (docs : list string) (metas : list dict) (dists : list float)
  (rd : list (list string)) (rm : list (list dict)) (rds : list (list float)) :
  query (ALS.learned_collection s) q n
  = Some (ALS.mkQuery (docs :: rd) (metas :: rm) (Some (dists :: rds))) ->
  forallb meta_ok metas = true ->
  let hits := fst (ALS.search_learned_knowledge query q n t s env) in
  (forall d, ALS.confidence_of d
             = if PrimFloat.ltb 0 (1 - d) then (1 - d)%float else 0%float)
  /\ exists kept,
       Forall2 match_for (filter (passes t) (scored docs metas dists)) kept
       /\ Permutation hits kept
       /\ Forall (fun m => PrimFloat.leb t (ALS.confidence m) = true) hits
       /\ StronglySorted conf_ge hits
       /\ forall c, filter (conf_is c) hits = filter (conf_is c) kept.
Proof.
  intros Hq Hok hits. split; [reflexivity |].
  destruct (relevant_spec t docs metas dists Hok) as (kept & Hr & Hf).
  assert (Hhits : hits = ALS.sort_by_confidence kept).
  { unfold hits, ALS.search_learned_knowledge. rewrite Hq.
    unfold ALS.search_results. simpl.
    destruct docs as [| doc docs].
    - simpl in Hr. injection Hr as <-. reflexivity.
    - now rewrite Hr. }
  pose proof (kept_numbers kept docs metas dists t Hf) as Hn.
  exists kept. rewrite Hhits. unfold ALS.sort_by_confidence.
  split; [assumption |]. split; [apply sort_desc_perm |]. split; [| split].
  - eapply Permutation_Forall; [apply Permutation_sym, sort_desc_perm |].
    eapply Forall_impl; [| exact Hn]. intros m Hm. apply Hm.
  - apply sort_desc_sorted with (P := fun m => is_number (ALS.confidence m)).
    + intros a b Ha Hb H. unfold conf_ge. apply not_ltb_leb; auto.
    + intros a b Ha Hb H. unfold conf_ge. apply ltb_leb, H.
    + intros a b c H1 H2. unfold conf_ge in *. eapply leb_trans; eauto.
    + eapply Forall_impl; [| exact Hn]. intros m Hm. apply Hm.
  - intros c. apply sort_desc_stable. intros x y H1 H2.
    unfold conf_is, ALS.conf_lt in *. eapply ltb_eqb_apart; eauto.
Qed.

Lemma search_converts_filters_and_sorts_witness :
  let hits :=
    fst (ALS.search_learned_knowledge sample_query "q" 5 0.25%float ALS.fresh sample_env) in
  (forall d, ALS.confidence_of d
             = if PrimFloat.ltb 0 (1 - d) then (1 - d)%float else 0%float)
  /\ exists kept,
       Forall2 match_for
         (filter (passes 0.25%float)
            (scored ["first"; "second"; "third"]
               [sample_meta "one"; sample_meta "two"; sample_meta "three"]
               [0.5%float; 0.125%float; 0.5%float])) kept
       /\ Permutation hits kept
       /\ Forall (fun m => PrimFloat.leb 0.25%float (ALS.confidence m) = true) hits
       /\ StronglySorted conf_ge hits
       /\ forall c, filter (conf_is c) hits = filter (conf_is c) kept.
Proof.
  exact (search_converts_filters_and_sorts sample_query "q" 5 0.25%float
           ALS.fresh sample_env ["first"; "second"; "third"]
           [sample_meta "one"; sample_meta "two"; sample_meta "three"]
           [0.5%float; 0.125%float; 0.5%float] [] [] [] eq_refl eq_refl).
Defined.

Example search_order :
  map (fun m => (ALS.question m, ALS.confidence m))
    (fst (ALS.search_learned_knowledge sample_query "q" 5 0.25%float ALS.fresh sample_env))
  = [("second", 0.875%float); ("first", 0.5%float); ("third", 0.5%float)]
  /\ map ALS.question
       (fst (ALS.search_learned_knowledge sample_query "q" 5 0.75%float
               ALS.fresh sample_env))
     = ["second"].
Proof. vm_compute. auto. Qed.

(** ** The threshold of [get_learned_answer] *)

(** C5. [get_learned_answer] returns an answer exactly when the confidence
    of the best match is at or above the threshold: a confidence below the
    threshold gives [None], a confidence equal to it gives the answer. *)
Theorem answer_needs_confidence_at_threshold
  (query : Index.t -> string -> Z -> option ALS.QueryResult)
  (py_repr : value -> string)
  (q : string) (t : float) (s : ALS.t) (env : Env)
  (doc : string) (meta : dict) (a : value) (d : float)
  (rd : list (list string)) (rm : list (list dict)) (rds : list (list float)) :
  query (ALS.learned_collection s) q 1
  = Some (ALS.mkQuery ([doc] :: rd) ([meta] :: rm) (Some ([d] :: rds))) ->
  meta_ok meta = true ->
  Py.get "answer" meta = Some a ->
  let c := ALS.confidence_of d in
  let result := fst (fst (ALS.get_learned_answer query py_repr q t s env)) in
  result = (if PrimFloat.leb t c then Some (answer_text py_repr a c) else None)
  /\ (PrimFloat.ltb c t = true -> result = None)
  /\ (PrimFloat.eqb c t = true -> result = Some (answer_text py_repr a c)).
Proof.
  intros Hq Hok Ha c result.
  assert (Hres : result
                 = if PrimFloat.leb t c then Some (answer_text py_repr a c) else None).
  { unfold result, ALS.get_learned_answer, ALS.search_learned_knowledge.
    rewrite Hq. unfold ALS.search_results. simpl. fold c.
    destruct (PrimFloat.leb t c) eqn:E.
    - destruct (match_of_ok doc meta c Hok) as (m & Hm & Hq' & Hans & Hc).
      simpl in Hq', Hans, Hc. rewrite Hm. simpl. rewrite Hc, E.
      destruct (ALS._update_usage_count (ALS.question m) s env) as [s' env'].
      simpl. unfold answer_text. rewrite Ha in Hans. injection Hans as <-.
      reflexivity.
    - simpl. reflexivity. }
  rewrite Hres. split; [reflexivity |]. split.
  - intros H. now rewrite (ltb_not_leb _ _ H).
  - intros H. now rewrite (eqb_leb _ _ H).
Qed.

Lemma answer_needs_confidence_at_threshold_witness :
  let c := ALS.confidence_of 0.25%float in
  let result :=
    fst (fst (ALS.get_learned_answer quarter_query (fun _ => "") "q" 0.75%float
                ALS.fresh sample_env)) in
  result = (if PrimFloat.leb 0.75%float c
            then Some (answer_text (fun _ => "") (VStr "Human error avoidance.") c)
            else None)
  /\ (PrimFloat.ltb c 0.75%float = true -> result = None)
  /\ (PrimFloat.eqb c 0.75%float = true ->
      result = Some (answer_text (fun _ => "") (VStr "Human error avoidance.") c)).
Proof.
  exact (answer_needs_confidence_at_threshold quarter_query (fun _ => "") "q"
           0.75%float ALS.fresh sample_env "What is HEA?"
           (sample_meta "Human error avoidance.") (VStr "Human error avoidance.")
           0.25%float [] [] [] eq_refl eq_refl eq_refl).
Defined.

Example answer_at_threshold :
  fst (fst (ALS.get_learned_answer quarter_query (fun _ => "") "q" 0.75%float
              ALS.fresh sample_env))
  = Some ("Human error avoidance." ++ PyStr.nl ++ PyStr.nl
          ++ "*[Learned Response - Confidence: 75%]*").
Proof. vm_compute. reflexivity. Qed.

Example answer_just_below_threshold :
  fst (fst (ALS.get_learned_answer quarter_query (fun _ => "") "q"
              (PrimFloat.next_up 0.75%float) ALS.fresh sample_env))
  = None.
Proof. vm_compute. reflexivity. Qed.

(** ** The log of the daily job *)

Lemma quiet_refl (env : Env) : quiet env env.
Proof. exists []. auto. Qed.

Lemma quiet_trans (e1 e2 e3 : Env) : quiet e1 e2 -> quiet e2 e3 -> quiet e1 e3.
Proof.
  intros (n1 & H1 & M1) (n2 & H2 & M2). exists (n2 ++ n1)%list. split.
  - rewrite H2, H1, app_assoc. reflexivity.
  - unfold marks in *. rewrite flat_map_app, M1, M2. reflexivity.
Qed.

Lemma quiet_logger (e : event) (env : Env) :
  classify e = [] -> quiet env (logger e env).
Proof. intros H. exists [e]. split; [reflexivity |]. simpl. now rewrite H. Qed.

Lemma quiet_now (env : Env) : quiet env (snd (datetime_now env)).
Proof. exists []. split; reflexivity. Qed.

Lemma quiet_marks (env env' : Env) :
  quiet env env' -> marks (log env') = marks (log env).
Proof.
  intros (new & H & M). rewrite H. unfold marks in *.
  now rewrite flat_map_app, M.
Qed.

Ltac quiet_step :=
  first [ apply quiet_refl
        | apply quiet_logger; reflexivity
        | eapply quiet_trans; [| apply quiet_logger; reflexivity] ].

Lemma enrich_quiet (d : dict) (env : Env) :
  quiet env (snd (ALS._enrich_qa_pair d env)).
Proof. exists []. split; reflexivity. Qed.

Lemma valid_pairs_quiet (l : list value) :
  forall env, quiet env (snd (ALS.valid_pairs_of l env)).
Proof.
  induction l as [| qa r IH]; intros env.
  - apply quiet_refl.
  - rewrite valid_pairs_cons. destruct (ALS._validate_qa_pair qa).
    + destruct qa as [| | | | | |d]; try apply quiet_refl.
      pose proof (enrich_quiet d env) as He.
      destruct (ALS._enrich_qa_pair d env) as [[e|] env1]; simpl in He; auto.
      pose proof (IH env1) as Hr.
      destruct (ALS.valid_pairs_of r env1) as [[vs|] env2]; simpl in *;
        eapply quiet_trans; eauto.
    + eapply quiet_trans; [| apply IH]. apply quiet_logger. reflexivity.
Qed.

Lemma save_quiet (s : ALS.t) (env : Env) :
  quiet env (snd (ALS._save_knowledge s env)).
Proof.
  unfold ALS._save_knowledge. destruct (disk_ok env); simpl.
  - destruct_stats; simpl;
      (eapply quiet_trans; [apply (quiet_now env) | apply quiet_logger; reflexivity]).
  - apply quiet_logger. reflexivity.
Qed.

Lemma add_chroma_quiet (vs : list dict) (s : ALS.t) (env : Env) :
  quiet env (snd (ALS._add_to_chroma vs s env)).
Proof.
  unfold ALS._add_to_chroma. destruct (ALS.chroma_entries vs); simpl;
    apply quiet_logger; reflexivity.
Qed.

Lemma apply_quiet (vs : list dict) (s : ALS.t) (env : Env) :
  quiet env (snd (ALS.apply_valid_pairs vs s env)).
Proof.
  unfold ALS.apply_valid_pairs. destruct vs as [| v vs].
  - simpl. apply quiet_logger. reflexivity.
  - set (s1 := ALS.set_pairs _ s).
    pose proof (save_quiet s1 env) as H1.
    destruct (ALS._save_knowledge s1 env) as [s2 env2].
    pose proof (add_chroma_quiet (v :: vs) s2 env2) as H2.
    destruct (ALS._add_to_chroma (v :: vs) s2 env2) as [s3 env3].
    simpl in *. eapply quiet_trans; [exact H1 |].
    eapply quiet_trans; [exact H2 |]. apply quiet_logger. reflexivity.
Qed.

Lemma ingest_quiet (json : ALS.json_data) (s : ALS.t) (env : Env) :
  quiet env (snd (ALS.ingest_qa_json json s env)).
Proof.
  unfold ALS.ingest_qa_json, ALS.ingest_failed.
  destruct (ALS.parsed json) as [data|]; [| apply quiet_logger; reflexivity].
  destruct (ALS.new_pairs_of data) as [ev | [l|]] eqn:E.
  - simpl. apply quiet_logger.
    destruct data; simpl in E; try (injection E as <-; reflexivity); try discriminate.
    destruct (Py.has "qa_pairs" d); [discriminate |].
    destruct (Py.has "question" d && Py.has "answer" d); [discriminate |].
    injection E as <-. reflexivity.
  - pose proof (valid_pairs_quiet l env) as H.
    destruct (ALS.valid_pairs_of l env) as [[vs|] env1]; simpl in H.
    + eapply quiet_trans; [exact H | apply apply_quiet].
    + simpl. eapply quiet_trans; [exact H | apply quiet_logger; reflexivity].
  - simpl. apply quiet_logger. reflexivity.
Qed.

Lemma learn_all_quiet (chat : list SDL.Interaction) :
  forall ls env, quiet env (snd (learn_all chat ls env)).
Proof.
  induction chat as [| x r IH]; intros ls env; simpl.
  - apply quiet_refl.
  - destruct (SDL.processed x).
    + specialize (IH ls env). destruct (learn_all r ls env) as [[r' ls'] env'].
      exact IH.
    + pose proof (ingest_quiet (ALS.JsonValue (SDL.qa_pair_of x)) ls env) as Hi.
      destruct (ALS.ingest_qa_json _ ls env) as [[[|] ls1] env1]; simpl in Hi.
      * unfold datetime_now.
        match goal with |- context [learn_all r ls1 ?e] => specialize (IH ls1 e);
          destruct (learn_all r ls1 e) as [[r' ls'] env'] end.
        simpl in *. eapply quiet_trans; [exact Hi |]. exact IH.
      * specialize (IH ls1 env1). destruct (learn_all r ls1 env1) as [[r' ls'] env'].
        simpl in *. eapply quiet_trans; eauto.
Qed.

(** The interaction-learning job leaves the folders and the store of the
    loader alone, and logs nothing the daily job is judged by. *)
Lemma process_frame (s : SDL.t) (env : Env) :
  let '(s', env') := SDL.process_chat_interactions s env in
  SDL.excel_folder s' = SDL.excel_folder s
  /\ SDL.backup_folder s' = SDL.backup_folder s
  /\ SDL.chroma_path s' = SDL.chroma_path s
  /\ quiet env env'.
Proof.
  unfold SDL.process_chat_interactions, SDL.unprocessed_of.
  destruct (SDL.learning_system s) as [ls|]; [| repeat split; apply quiet_refl].
  destruct (SDL.positions 0 (SDL.chat_interactions s)) as [| i us] eqn:Hpos;
    [repeat split; apply quiet_refl |].
  rewrite <- Hpos. set (env0 := logger _ env).
  pose proof (learn_loop_positions (SDL.chat_interactions s) [] ls env0) as Hl.
  simpl in Hl. rewrite Hl.
  pose proof (learn_all_quiet (SDL.chat_interactions s) ls env0) as Hq.
  destruct (learn_all (SDL.chat_interactions s) ls env0) as [[chat' ls'] env'].
  simpl in Hq.
  assert (H0 : quiet env env0) by (apply quiet_logger; reflexivity).
  unfold SDL.save_chat_interactions. destruct (disk_ok env'); lazy beta iota zeta;
    (split; [reflexivity |]); (split; [reflexivity |]); (split; [reflexivity |]).
  - eapply quiet_trans; [exact H0 |]. eapply quiet_trans; [exact Hq |].
    apply quiet_logger. reflexivity.
  - eapply quiet_trans; [exact H0 |]. eapply quiet_trans; [exact Hq |].
    eapply quiet_trans; [| apply quiet_logger; reflexivity].
    apply quiet_logger. reflexivity.
Qed.

(** ** Folders *)

Lemma find_in (name : string) (folder : list SDL.node) (n : SDL.node) :
  SDL.find name folder = Some n -> In n folder /\ SDL.node_name n = name.
Proof.
  induction folder as [| m r IH]; simpl; [discriminate |].
  destruct (String.eqb (SDL.node_name m) name) eqn:E.
  - intros H. injection H as <-. apply String.eqb_eq in E. auto.
  - intros H. destruct (IH H). auto.
Qed.

Lemma find_none (name : string) (folder : list SDL.node) :
  ~ In name (names folder) -> SDL.find name folder = None.
Proof.
  induction folder as [| m r IH]; simpl; auto. intros H.
  destruct (String.eqb (SDL.node_name m) name) eqn:E.
  - apply String.eqb_eq in E. tauto.
  - apply IH. tauto.
Qed.

Lemma unlink_incl (name : string) (folder : list SDL.node) :
  incl (SDL.unlink name folder) folder.
Proof.
  induction folder as [| m r IH]; simpl; [apply incl_refl |].
  destruct (String.eqb (SDL.node_name m) name).
  - apply incl_tl, incl_refl.
  - intros x [<- | Hx]; [left | right]; auto.
Qed.

Lemma unlink_nodup (name : string) (folder : list SDL.node) :
  NoDup (names folder) -> NoDup (names (SDL.unlink name folder)).
Proof.
  induction folder as [| m r IH]; simpl; auto. intros H.
  inversion H as [| x l Hn Hr]; subst.
  destruct (String.eqb (SDL.node_name m) name); auto.
  simpl. constructor; auto. intros Hin. apply Hn.
  apply in_map_iff in Hin. destruct Hin as (y & Hy & Hin).
  apply in_map_iff. exists y. split; auto. eapply unlink_incl, Hin.
Qed.

Lemma find_unlink_same (name : string) (folder : list SDL.node) :
  NoDup (names folder) -> SDL.find name (SDL.unlink name folder) = None.
Proof.
  induction folder as [| m r IH]; simpl; auto. intros H.
  inversion H as [| x l Hn Hr]; subst.
  destruct (String.eqb (SDL.node_name m) name) eqn:E.
  - apply String.eqb_eq in E. subst name. now apply find_none.
  - simpl. rewrite E. auto.
Qed.

Lemma find_unlink_other (name other : string) (folder : list SDL.node) :
  name <> other -> SDL.find other (SDL.unlink name folder) = SDL.find other folder.
Proof.
  intros Hne. induction folder as [| m r IH]; simpl; auto.
  destruct (String.eqb (SDL.node_name m) name) eqn:E.
  - apply String.eqb_eq in E.
    destruct (String.eqb (SDL.node_name m) other) eqn:E'; auto.
    apply String.eqb_eq in E'. congruence.
  - simpl. now rewrite IH.
Qed.

Lemma find_app_none (name : string) (f1 f2 : list SDL.node) :
  SDL.find name f1 = None -> SDL.find name (f1 ++ f2) = SDL.find name f2.
Proof.
  induction f1 as [| m r IH]; simpl; auto.
  destruct (String.eqb (SDL.node_name m) name); [discriminate | auto].
Qed.

(** ** Texts split at their last dot or underscore *)

Lemma of_Z_inj (z z' : Z) : PyStr.of_Z z = PyStr.of_Z z' -> z = z'.
Proof.
  unfold PyStr.of_Z. intros H.
  assert (Hn : forall x, Z.to_int x <> Decimal.Pos Decimal.Nil
                         /\ Z.to_int x <> Decimal.Neg Decimal.Nil).
  { intros [| p | p]; split; simpl; try discriminate; intros E; injection E;
      apply Unsigned.to_uint_nonnil. }
  apply DecimalZ.to_int_inj.
  destruct (Hn z) as [H1 H2]. destruct (Hn z') as [H1' H2'].
  pose proof (NilZero.isi _ H1 H2) as E. pose proof (NilZero.isi _ H1' H2') as E'.
  rewrite H in E. congruence.
Qed.

Lemma no_underscore_uint (d : Decimal.uint) :
  no_underscore (NilEmpty.string_of_uint d) = true.
Proof. induction d; simpl; auto. Qed.

Lemma no_underscore_of_Z (z : Z) : no_underscore (PyStr.of_Z z) = true.
Proof.
  unfold PyStr.of_Z, NilZero.string_of_int, NilZero.string_of_uint.
  destruct (Z.to_int z) as [d | d]; destruct d; simpl; auto;
    apply no_underscore_uint.
Qed.

Lemma append_inv_head (p x y : string) : p ++ x = p ++ y -> x = y.
Proof. induction p as [| c p IH]; simpl; intros H; [| injection H]; auto. Qed.

(** The text after the last underscore fixes the text before it. *)
Lemma split_last_underscore (a b x y : string) :
  no_underscore x = true -> no_underscore y = true ->
  a ++ "_" ++ x = b ++ "_" ++ y -> a = b /\ x = y.
Proof.
  intros Hx Hy. revert b. induction a as [| c a IH]; intros [| c' b] H; simpl in H.
  - injection H as ->. auto.
  - injection H as <- ->. exfalso. clear -Hx.
    induction b as [| d b IHb]; simpl in Hx.
    + discriminate.
    + apply andb_true_iff in Hx. destruct Hx as [_ Hx]. auto.
  - injection H as -> <-. exfalso. clear -Hy.
    induction a as [| d a IHa]; simpl in Hy.
    + discriminate.
    + apply andb_true_iff in Hy. destruct Hy as [_ Hy]. auto.
  - injection H as -> H. destruct (IH b H) as [-> ->]. auto.
Qed.

Lemma append_nil_r_str (s : string) : s ++ EmptyString = s.
Proof. induction s as [| c s IH]; simpl; [| rewrite IH]; reflexivity. Qed.

Lemma str_app_assoc (a b c : string) : (a ++ b) ++ c = a ++ b ++ c.
Proof. induction a as [| x a IH]; simpl; [| rewrite IH]; reflexivity. Qed.

Lemma lacks_app (c : ascii) (a b : string) :
  lacks c (a ++ b) = lacks c a && lacks c b.
Proof.
  induction a as [| x a IH]; simpl; [reflexivity |].
  now rewrite IH, andb_assoc.
Qed.

(** The text after the last [c] fixes the text before it. *)
Lemma split_last (c : ascii) (a b x y : string) :
  lacks c x = true -> lacks c y = true ->
  a ++ String c x = b ++ String c y -> a = b /\ x = y.
Proof.
  intros Hx Hy. revert b. induction a as [| d a IH]; intros [| d' b] H; simpl in H.
  - injection H as ->. auto.
  - injection H as <- ->. exfalso. rewrite lacks_app in Hx. simpl in Hx.
    rewrite Ascii.eqb_refl in Hx. simpl in Hx. now rewrite andb_false_r in Hx.
  - injection H as -> <-. exfalso. rewrite lacks_app in Hy. simpl in Hy.
    rewrite Ascii.eqb_refl in Hy. simpl in Hy. now rewrite andb_false_r in Hy.
  - injection H as -> H. destruct (IH b H) as [-> ->]. auto.
Qed.

Lemma lacks_dot_uint (d : Decimal.uint) :
  lacks "." (NilEmpty.string_of_uint d) = true.
Proof. induction d; simpl; auto. Qed.

Lemma lacks_underscore_uint (d : Decimal.uint) :
  lacks "_" (NilEmpty.string_of_uint d) = true.
Proof. induction d; simpl; auto. Qed.

Lemma lacks_dot_of_Z (z : Z) : lacks "." (PyStr.of_Z z) = true.
Proof.
  unfold PyStr.of_Z, NilZero.string_of_int, NilZero.string_of_uint.
  destruct (Z.to_int z) as [d | d]; destruct d; simpl; auto;
    apply lacks_dot_uint.
Qed.

Lemma lacks_underscore_of_Z (z : Z) : lacks "_" (PyStr.of_Z z) = true.
Proof.
  unfold PyStr.of_Z, NilZero.string_of_int, NilZero.string_of_uint.
  destruct (Z.to_int z) as [d | d]; destruct d; simpl; auto;
    apply lacks_underscore_uint.
Qed.

Lemma all_dots_app (a b : string) :
  SDL.all_dots (a ++ b) = SDL.all_dots a && SDL.all_dots b.
Proof.
  induction a as [| x a IH]; simpl; [reflexivity |].
  now rewrite IH, andb_assoc.
Qed.

Lemma take_drop (n : nat) (s : string) : PyStr.take n s ++ PyStr.drop n s = s.
Proof.
  revert s. induction n as [| k IH]; intros [| c r]; simpl; try reflexivity.
  now rewrite IH.
Qed.

(** [rfind]: the position it returns is that of the last [c]. *)
Lemma rfind_spec (c : ascii) (s : string) :
  forall i acc,
    match SDL.rfind c s i acc with
    | Some j =>
        (lacks c s = true /\ acc = Some j)
        \/ exists k, j = (i + k)%nat
                     /\ PyStr.drop k s = String c (PyStr.drop (S k) s)
                     /\ lacks c (PyStr.drop (S k) s) = true
    | None => acc = None /\ lacks c s = true
    end.
Proof.
  induction s as [| x r IH]; intros i acc; simpl.
  - destruct acc; auto.
  - specialize (IH (S i) (if Ascii.eqb x c then Some i else acc)).
    destruct (SDL.rfind c r (S i) (if Ascii.eqb x c then Some i else acc)) as [j|].
    + destruct IH as [[Hl Ha] | (k & -> & Hd & Hl)].
      * destruct (Ascii.eqb x c) eqn:E.
        -- injection Ha as <-. right. exists 0%nat.
           apply Ascii.eqb_eq in E. subst x. simpl.
           split; [lia | split; [reflexivity | exact Hl]].
        -- left. simpl. auto.
      * right. exists (S k). simpl. split; [lia | split; assumption].
    + destruct IH as [Ha Hl]. destruct (Ascii.eqb x c); [discriminate |].
      simpl. auto.
Qed.

(** What [os.path.splitext] returns: the two parts make the name, and the
    extension is empty, the dots of the name then all leading, or a dot
    and a text without one. *)
Lemma splitext_spec (s name ext : string) :
  SDL.splitext s = (name, ext) ->
  s = name ++ ext
  /\ ((ext = EmptyString
       /\ exists d r, name = d ++ r /\ SDL.all_dots d = true /\ lacks "." r = true)
      \/ exists e, ext = String "." e /\ lacks "." e = true).
Proof.
  unfold SDL.splitext. pose proof (rfind_spec "." s 0 None) as H.
  destruct (SDL.rfind "." s 0 None) as [j|].
  - destruct H as [[_ H] | (k & -> & Hd & Hl)]; [discriminate |]. simpl.
    destruct (SDL.all_dots (PyStr.take k s)) eqn:E; intros Hs; injection Hs as <- <-.
    + split; [now rewrite append_nil_r_str |]. left. split; [reflexivity |].
      exists (PyStr.take k s ++ "."), (PyStr.drop (S k) s). split.
      * rewrite str_app_assoc. cbn [append]. rewrite <- Hd. symmetry. apply take_drop.
      * split; [| exact Hl]. rewrite all_dots_app, E. reflexivity.
    + split; [symmetry; apply take_drop |]. right.
      exists (PyStr.drop (S k) s). split; assumption.
  - destruct H as [_ Hl]. intros Hs. injection Hs as <- <-.
    split; [now rewrite append_nil_r_str |]. left. split; [reflexivity |].
    exists EmptyString, s. auto.
Qed.

Lemma dots_prefix (d y x z : string) :
  SDL.all_dots d = true -> lacks "." y = true ->
  d ++ y = x ++ String "." z -> SDL.all_dots x = true.
Proof.
  intros Hd Hy. revert x. induction d as [| c d IH]; intros x H; simpl in H.
  - subst y. rewrite lacks_app in Hy. simpl in Hy. now rewrite andb_false_r in Hy.
  - simpl in Hd. apply andb_true_iff in Hd. destruct Hd as [Hc Hd].
    destruct x as [| c' x]; [reflexivity |]. simpl in H. injection H as <- H.
    simpl. rewrite Hc. simpl. now apply IH.
Qed.

Lemma stem_inj (name name' : string) (t t' : Z) :
  name ++ "_processed_" ++ isoformat t = name' ++ "_processed_" ++ isoformat t' ->
  name = name'.
Proof.
  intros H. unfold isoformat in H.
  change (name ++ "_processed_" ++ PyStr.of_Z t)
    with (name ++ "_processed" ++ String "_" (PyStr.of_Z t)) in H.
  change (name' ++ "_processed_" ++ PyStr.of_Z t')
    with (name' ++ "_processed" ++ String "_" (PyStr.of_Z t')) in H.
  rewrite <- !str_app_assoc in H.
  apply split_last in H; try apply lacks_underscore_of_Z.
  destruct H as [H _].
  change (name ++ "_processed") with (name ++ String "_" "processed") in H.
  change (name' ++ "_processed") with (name' ++ String "_" "processed") in H.
  apply split_last in H; try reflexivity. tauto.
Qed.

(** Two files are archived under the same name only if they are the same
    file: the archived name gives back the name of the file. *)
Lemma archived_name_inj (f f' : string) (t t' : Z) :
  archived_name f t = archived_name f' t' -> f = f'.
Proof.
  unfold archived_name.
  destruct (SDL.splitext f) as [name ext] eqn:E.
  destruct (SDL.splitext f') as [name' ext'] eqn:E'.
  apply splitext_spec in E. apply splitext_spec in E'.
  destruct E as [-> E]. destruct E' as [-> E']. intros H.
  destruct E as [[-> (d & r & Hn & Hd & Hr)] | (e & -> & He)];
    destruct E' as [[-> (d' & r' & Hn' & Hd' & Hr')] | (e' & -> & He')].
  - rewrite !append_nil_r_str in *. f_equal. eapply stem_inj; eauto.
  - exfalso. rewrite append_nil_r_str in H.
    rewrite <- !(str_app_assoc name' "_processed_"),
            <- (str_app_assoc (name' ++ "_processed_")) in H.
    rewrite Hn, str_app_assoc in H.
    apply dots_prefix in H; auto.
    + rewrite !all_dots_app in H. simpl in H. now rewrite andb_false_r in H.
    + rewrite !lacks_app, Hr. simpl. apply lacks_dot_of_Z.
  - exfalso. rewrite append_nil_r_str in H. symmetry in H.
    rewrite <- !(str_app_assoc name "_processed_"),
            <- (str_app_assoc (name ++ "_processed_")) in H.
    rewrite Hn', str_app_assoc in H.
    apply dots_prefix in H; auto.
    + rewrite !all_dots_app in H. simpl in H. now rewrite andb_false_r in H.
    + rewrite !lacks_app, Hr'. simpl. apply lacks_dot_of_Z.
  - rewrite <- !(str_app_assoc name "_processed_"),
            <- (str_app_assoc (name ++ "_processed_")),
            <- !(str_app_assoc name' "_processed_"),
            <- (str_app_assoc (name' ++ "_processed_")) in H.
    apply split_last in H; auto. destruct H as [H ->].
    rewrite !str_app_assoc in H. f_equal. eapply stem_inj; eauto.
Qed.

Lemma dirs_free_tail (name : string) (ns : list string) (folder : list SDL.node) :
  dirs_free (name :: ns) folder = true ->
  dirs_free [name] folder = true /\ dirs_free ns folder = true.
Proof.
  unfold dirs_free. rewrite !forallb_forall. intros H. split; intros n Hn;
    specialize (H n Hn); simpl in *; apply andb_true_iff in H; destruct H as [H1 H2];
    [now rewrite H1 | exact H2].
Qed.

Lemma dirs_free_incl (ns : list string) (f1 f2 : list SDL.node) :
  incl f1 f2 -> dirs_free ns f2 = true -> dirs_free ns f1 = true.
Proof.
  unfold dirs_free. rewrite !forallb_forall. intros Hi H n Hn. apply H, Hi, Hn.
Qed.

Lemma dirs_free_app (ns : list string) (f1 f2 : list SDL.node) :
  dirs_free ns (f1 ++ f2) = dirs_free ns f1 && dirs_free ns f2.
Proof. unfold dirs_free. apply forallb_app. Qed.

Lemma dirs_free_file (ns : list string) (name : string) (m : Z) (c : SDL.content) :
  dirs_free ns [SDL.File name m c] = true.
Proof.
  unfold dirs_free. simpl. rewrite andb_true_r.
  apply forallb_forall. reflexivity.
Qed.

(** A file moves into the backup folder whenever no directory there holds
    an entry of its name, and the directories then hold no other name they
    did not hold before. *)
Lemma move_in_file (name : string) (m : Z) (c : SDL.content) (dst : string)
  (ns : list string) (folder : list SDL.node) :
  dirs_free (name :: ns) folder = true ->
  ~ In name ns ->
  exists folder',
    SDL.move_in (SDL.File name m c) dst folder = Some folder'
    /\ dirs_free ns folder' = true.
Proof.
  intros Hfree Hnot. apply dirs_free_tail in Hfree. destruct Hfree as [H1 Hns].
  unfold SDL.move_in. destruct (SDL.find dst folder) as [[dn dm dc | dn dm ch]|] eqn:Hf.
  - eexists. split; [reflexivity |]. rewrite dirs_free_app. simpl SDL.rename.
    rewrite dirs_free_file, andb_true_r.
    eapply dirs_free_incl; [apply unlink_incl | exact Hns].
  - apply find_in in Hf. destruct Hf as [Hin _].
    assert (Hh : holds_name name (SDL.Dir dn dm ch) = false).
    { unfold dirs_free in H1. rewrite forallb_forall in H1.
      specialize (H1 _ Hin). simpl in H1. rewrite andb_true_r in H1.
      now apply negb_true_iff in H1. }
    simpl in Hh. simpl SDL.node_name.
    destruct (SDL.find name ch) eqn:Hc; [discriminate |].
    eexists. split; [reflexivity |]. rewrite dirs_free_app. apply andb_true_iff. split.
    + eapply dirs_free_incl; [apply unlink_incl | exact Hns].
    + unfold dirs_free. simpl. rewrite andb_true_r. apply forallb_forall.
      intros x Hx. apply negb_true_iff.
      assert (Hx' : holds_name x (SDL.Dir dn dm ch) = false).
      { unfold dirs_free in Hns. rewrite forallb_forall in Hns.
        specialize (Hns _ Hin). rewrite forallb_forall in Hns.
        specialize (Hns x Hx). now apply negb_true_iff in Hns. }
      simpl in Hx'. destruct (SDL.find x ch) eqn:Hxc; [discriminate |].
      rewrite (find_app_none x ch [SDL.File name m c] Hxc). simpl.
      destruct (String.eqb name x) eqn:E; auto.
      apply String.eqb_eq in E. subst x. contradiction.
  - eexists. split; [reflexivity |]. rewrite dirs_free_app. simpl SDL.rename.
    now rewrite dirs_free_file, andb_true_r.
Qed.

(** Archiving a file of the inbox: it leaves the inbox, the log gets one
    [Archived] mark, nothing else of the loader changes. *)
Lemma archive_file (f : string) (m : Z) (c : SDL.content) (ns : list string)
  (s : SDL.t) (env : Env) :
  SDL.find f (SDL.excel_folder s) = Some (SDL.File f m c) ->
  dirs_free (f :: ns) (SDL.backup_folder s) = true ->
  ~ In f ns ->
  let '(s', env') := SDL.archive_processed_file f s env in
  SDL.excel_folder s' = SDL.unlink f (SDL.excel_folder s)
  /\ dirs_free ns (SDL.backup_folder s') = true
  /\ SDL.chroma_path s' = SDL.chroma_path s
  /\ SDL.learning_system s' = SDL.learning_system s
  /\ SDL.chat_interactions s' = SDL.chat_interactions s
  /\ marks (log env') = Archived :: marks (log env).
Proof.
  intros Hf Hfree Hnot. unfold SDL.archive_processed_file, datetime_now.
  destruct (SDL.splitext f) as [name ext]. rewrite Hf.
  destruct (move_in_file f m c (name ++ "_processed_" ++ isoformat (clock env) ++ ext)
              ns (SDL.backup_folder s) Hfree Hnot) as (folder' & Hm & Hd).
  rewrite Hm. simpl. repeat split; auto.
Qed.

(** ** Where an archived file is *)

Lemma unlink_keeps (name : string) (n : SDL.node) (folder : list SDL.node) :
  In n folder -> SDL.node_name n <> name -> In n (SDL.unlink name folder).
Proof.
  intros Hin Hne. induction folder as [| x r IH]; simpl; [destruct Hin |].
  destruct (String.eqb (SDL.node_name x) name) eqn:E.
  - destruct Hin as [<- | Hin]; [| exact Hin].
    apply String.eqb_eq in E. contradiction.
  - destruct Hin as [<- | Hin]; [left; reflexivity | right; auto].
Qed.

Lemma move_in_archives (f : string) (m : Z) (c : SDL.content) (dst : string)
  (folder folder' : list SDL.node) :
  SDL.move_in (SDL.File f m c) dst folder = Some folder' ->
  archived_in dst f m c folder'.
Proof.
  unfold SDL.move_in.
  destruct (SDL.find dst folder) as [[dn dm dc | dn dm ch]|] eqn:Hf.
  - intros H. injection H as <-. left. apply in_or_app. right. left. reflexivity.
  - simpl SDL.node_name. destruct (SDL.find f ch); [discriminate |].
    intros H. injection H as <-. right. exists dm, (ch ++ [SDL.File f m c])%list.
    split; apply in_or_app; right; left; reflexivity.
  - intros H. injection H as <-. left. apply in_or_app. right. left. reflexivity.
Qed.

Lemma move_in_keeps (src : SDL.node) (dst : string) (folder folder' : list SDL.node)
  (n : SDL.node) :
  SDL.move_in src dst folder = Some folder' ->
  In n folder -> SDL.node_name n <> dst -> In n folder'.
Proof.
  unfold SDL.move_in. intros H Hin Hne.
  destruct (SDL.find dst folder) as [[dn dm dc | dn dm ch]|].
  - injection H as <-. apply in_or_app. left. now apply unlink_keeps.
  - destruct (SDL.find (SDL.node_name src) ch); [discriminate |].
    injection H as <-. apply in_or_app. left. now apply unlink_keeps.
  - injection H as <-. apply in_or_app. now left.
Qed.

(** A later move under another name leaves an archived file where it is. *)
Lemma move_in_keeps_archived (src : SDL.node) (dst : string)
  (folder folder' : list SDL.node) (dst0 f0 : string) (m0 : Z) (c0 : SDL.content) :
  SDL.move_in src dst folder = Some folder' ->
  dst0 <> dst ->
  archived_in dst0 f0 m0 c0 folder -> archived_in dst0 f0 m0 c0 folder'.
Proof.
  intros H Hne [Hin | (dm & ch & Hin & Hch)].
  - left. eapply move_in_keeps; eauto.
  - right. exists dm, ch. split; [| exact Hch]. eapply move_in_keeps; eauto.
Qed.

(** Archiving a file of the inbox is a move of that file, with its time
    and content, into the backup folder under its archived name. *)
Lemma archive_moves (f : string) (m : Z) (c : SDL.content) (ns : list string)
  (s : SDL.t) (env : Env) :
  SDL.find f (SDL.excel_folder s) = Some (SDL.File f m c) ->
  dirs_free (f :: ns) (SDL.backup_folder s) = true ->
  ~ In f ns ->
  SDL.move_in (SDL.File f m c) (archived_name f (clock env)) (SDL.backup_folder s)
  = Some (SDL.backup_folder (fst (SDL.archive_processed_file f s env))).
Proof.
  intros Hf Hfree Hnot. unfold SDL.archive_processed_file, datetime_now, archived_name.
  destruct (SDL.splitext f) as [name ext]. rewrite Hf.
  destruct (move_in_file f m c (name ++ "_processed_" ++ isoformat (clock env) ++ ext)
              ns (SDL.backup_folder s) Hfree Hnot) as (folder' & Hm & Hd).
  rewrite Hm. reflexivity.
Qed.

(** ** Loading a spreadsheet *)

Lemma row_entries_spec (f : string) (cols : list string)
  (rs : list (Z * list (option string))) :
  forall env,
    map Index.id (fst (SDL.row_entries f cols rs env))
    = map (fun r => SDL.row_id f (fst r)) rs
    /\ quiet env (snd (SDL.row_entries f cols rs env)).
Proof.
  induction rs as [| [idx cells] r IH]; intros env; simpl.
  - split; [reflexivity | apply quiet_refl].
  - unfold datetime_now.
    match goal with |- context [SDL.row_entries f cols r ?e] =>
      destruct (IH e) as [H1 H2]; destruct (SDL.row_entries f cols r e) as [es env']
    end.
    simpl in *. split; [now rewrite H1 |].
    eapply quiet_trans; [apply (quiet_now env) | exact H2].
Qed.

Lemma batches_concat {A : Type} (n : nat) (fuel : nat) :
  forall l : list A, (0 < n)%nat -> (List.length l <= fuel)%nat ->
  List.concat (PyList.batches fuel n l) = l.
Proof.
  induction fuel as [| k IH]; intros l Hn Hl.
  - destruct l; [reflexivity | simpl in Hl; lia].
  - destruct l as [| x r]; [reflexivity |].
    change (PyList.batches (S k) n (x :: r))
      with (firstn n (x :: r) :: PyList.batches k n (skipn n (x :: r))).
    simpl List.concat. rewrite IH; auto.
    + apply firstn_skipn.
    + rewrite length_skipn. cbn [List.length] in *. lia.
Qed.

Lemma add_batches_spec (bs : list (list Index.entry)) :
  forall batch_no total ix env,
    let '(total', ix', env') := SDL.add_batches bs batch_no total ix env in
    total' = total + Z.of_nat (List.length (List.concat bs))
    /\ (forall i, In i (Index.ids ix') <->
                  In i (map Index.id (List.concat bs)) \/ In i (Index.ids ix))
    /\ (NoDup (Index.ids ix) -> NoDup (Index.ids ix'))
    /\ quiet env env'.
Proof.
  induction bs as [| b r IH]; intros batch_no total ix env; simpl.
  - split; [lia |]. split; [intros i; simpl; tauto |]. split; [auto | apply quiet_refl].
  - match goal with |- context [SDL.add_batches r ?n ?t ?i ?e] =>
      specialize (IH n t i e); destruct (SDL.add_batches r n t i e) as [[t' ix'] env']
    end.
    destruct IH as (H1 & H2 & H3 & H4). repeat split.
    + rewrite H1, length_app. lia.
    + intros Hi. apply H2 in Hi. rewrite map_app, in_app_iff.
      destruct Hi as [Hi | Hi]; auto. apply ids_add_in in Hi. tauto.
    + intros Hi. apply H2. rewrite map_app, in_app_iff in Hi.
      rewrite ids_add_in. tauto.
    + intros Hn. apply H3. now apply ids_add_nodup.
    + eapply quiet_trans; [| exact H4]. apply quiet_logger. reflexivity.
Qed.

(** A spreadsheet that can be read: every row is committed under its
    identifier, nothing else of the loader changes, and the log gets no
    mark. *)
Lemma load_ok (f : string) (df : SDL.DataFrame) (s : SDL.t) (env : Env) :
  SDL.read_excel f s = Some df ->
  let '(count, s', env') := SDL.load_excel_to_chroma f s env in
  count = Z.of_nat (List.length (SDL.rows df))
  /\ (forall i, In i (stored_ids s') <-> In i (row_ids f df) \/ In i (stored_ids s))
  /\ SDL.excel_folder s' = SDL.excel_folder s
  /\ SDL.backup_folder s' = SDL.backup_folder s
  /\ SDL.learning_system s' = SDL.learning_system s
  /\ SDL.chat_interactions s' = SDL.chat_interactions s
  /\ marks (log env') = marks (log env).
Proof.
  intros Hr. unfold SDL.load_excel_to_chroma. rewrite Hr.
  set (env1 := logger _ (logger _ env)).
  destruct (row_entries_spec f (SDL.columns df) (SDL.rows df) env1) as [Hids Hq1].
  destruct (SDL.row_entries f (SDL.columns df) (SDL.rows df) env1) as [es env2].
  simpl in Hids, Hq1.
  set (c0 := match SDL.chroma_path s with Some c => c | None => _ end).
  pose proof (add_batches_spec (PyList.batches (List.length es) SDL.batch_size es)
                1 0 (SDL.collection c0) env2) as Hb.
  destruct (SDL.add_batches _ 1 0 (SDL.collection c0) env2) as [[total ix] env3].
  rewrite batches_concat in Hb by (unfold SDL.batch_size; lia).
  destruct Hb as (H1 & H2 & _ & H4).
  assert (Hc0 : Index.ids (SDL.collection c0) = stored_ids s).
  { unfold c0, stored_ids. destruct (SDL.chroma_path s); reflexivity. }
  simpl. repeat split; auto.
  - rewrite H1. simpl. rewrite <- (length_map Index.id es), Hids, length_map. reflexivity.
  - unfold stored_ids at 1. simpl. intros Hi. apply H2 in Hi.
    rewrite Hids, Hc0 in Hi. exact Hi.
  - unfold stored_ids at 1. simpl. intros Hi. apply H2. rewrite Hids, Hc0. exact Hi.
  - assert (Hq : quiet env env3).
    { eapply quiet_trans; [| exact H4]. eapply quiet_trans; [| exact Hq1].
      eapply quiet_trans; apply quiet_logger; reflexivity. }
    apply quiet_marks in Hq. exact Hq.
Qed.

(** A spreadsheet that cannot be read: nothing is committed, and the log
    gets the mark of the failure. *)
Lemma load_fail (f : string) (s : SDL.t) (env : Env) :
  SDL.read_excel f s = None ->
  let '(count, s', env') := SDL.load_excel_to_chroma f s env in
  count = 0 /\ s' = s /\ marks (log env') = LoadFailed f :: marks (log env).
Proof.
  intros Hr. unfold SDL.load_excel_to_chroma. rewrite Hr.
  split; [reflexivity |]. split; reflexivity.
Qed.

Lemma find_excel_files_names (s : SDL.t) (env : Env) (n : string) :
  In n (fst (SDL.find_excel_files s env)) ->
  In n (names (SDL.excel_folder s)) /\ excel_name n = true.
Proof.
  unfold SDL.find_excel_files. simpl. intros H.
  apply in_map_iff in H. destruct H as (x & <- & Hx).
  eapply Permutation_in in Hx; [| apply sort_desc_perm].
  unfold excel_name. rewrite !in_app_iff in Hx. unfold SDL.glob in Hx.
  rewrite !filter_In in Hx.
  split.
  - apply in_map. tauto.
  - destruct Hx as [[_ H] | [[_ H] | [_ H]]]; apply andb_true_iff in H; destruct H as [H _];
      rewrite H; rewrite ?orb_true_r; reflexivity.
Qed.

Lemma find_excel_files_quiet (s : SDL.t) (env : Env) :
  quiet env (snd (SDL.find_excel_files s env)).
Proof. unfold SDL.find_excel_files. simpl. apply quiet_logger. reflexivity. Qed.

(** The snapshot before the load: the inbox and the store stay, the log
    gets no mark, and the snapshot holds no spreadsheet. *)
Lemma backup_frame (ns : list string) (s : SDL.t) (env : Env) :
  forallb excel_name ns = true ->
  dirs_free ns (SDL.backup_folder s) = true ->
  let '(s', env') := SDL.backup_chroma_db s env in
  SDL.excel_folder s' = SDL.excel_folder s
  /\ SDL.chroma_path s' = SDL.chroma_path s
  /\ SDL.learning_system s' = SDL.learning_system s
  /\ SDL.chat_interactions s' = SDL.chat_interactions s
  /\ dirs_free ns (SDL.backup_folder s') = true
  /\ quiet env env'.
Proof.
  intros Hex Hfree. unfold SDL.backup_chroma_db, datetime_now.
  assert (Hsnap : forall name c,
             dirs_free ns (SDL.backup_folder s ++ [SDL.snapshot name c]) = true).
  { intros name c. rewrite dirs_free_app, Hfree.
    unfold dirs_free, SDL.snapshot. cbn [forallb andb].
    rewrite andb_true_r. apply forallb_forall. intros x Hx.
    rewrite forallb_forall in Hex. specialize (Hex x Hx).
    cbn [holds_name SDL.find SDL.node_name].
    destruct (String.eqb "chroma.sqlite3" x) eqn:E; auto.
    apply String.eqb_eq in E. subst x. discriminate. }
  assert (Hlog : forall e, classify e = [] ->
             quiet env (logger e (mkEnv (clock env + 1) (log env) (disk_ok env)))).
  { intros e He. eapply quiet_trans; [apply (quiet_now env) |].
    apply quiet_logger, He. }
  destruct (SDL.chroma_path s) as [c|] eqn:Hc.
  - destruct (SDL.find _ (SDL.backup_folder s)); lazy beta iota zeta.
    + repeat (split; [first [reflexivity | assumption | symmetry; assumption] |]).
      apply Hlog. reflexivity.
    + unfold SDL.set_backup_folder. simpl.
      repeat (split; [first [reflexivity | assumption | symmetry; assumption
                            | apply Hsnap] |]).
      apply Hlog. reflexivity.
  - lazy beta iota zeta.
    repeat (split; [first [reflexivity | assumption | symmetry; assumption] |]).
    exists []. split; reflexivity.
Qed.

(** ** The daily job *)

Lemma load_loop_cons (f : string) (r : list string) (total : Z) (s : SDL.t) (env : Env) :
  SDL.load_loop (f :: r) total s env
  = let '(loaded_count, s, env) := SDL.load_excel_to_chroma f s env in
    let (s, env) := SDL.archive_processed_file f s env in
    SDL.load_loop r (total + loaded_count) s env.
Proof. reflexivity. Qed.

(** One turn of the loop of the daily job on a regular file: the file is
    loaded when it can be read, and archived in either case. *)
Lemma turn_file (f : string) (m : Z) (c : SDL.content) (ns : list string)
  (s : SDL.t) (env : Env) :
  SDL.find f (SDL.excel_folder s) = Some (SDL.File f m c) ->
  dirs_free (f :: ns) (SDL.backup_folder s) = true ->
  ~ In f ns ->
  let '(count, s1, env1) := SDL.load_excel_to_chroma f s env in
  let '(s2, env2) := SDL.archive_processed_file f s1 env1 in
  SDL.excel_folder s2 = SDL.unlink f (SDL.excel_folder s)
  /\ dirs_free ns (SDL.backup_folder s2) = true
  /\ turn_outcome f c s s2 env env2.
Proof.
  intros Hf Hfree Hnot.
  assert (Hread : SDL.read_excel f s
                  = match c with SDL.Spreadsheet df => Some df | _ => None end).
  { unfold SDL.read_excel. rewrite Hf. destruct c; reflexivity. }
  destruct c as [df | ix | doc | bytes].
  - pose proof (load_ok f df s env Hread) as Hl.
    destruct (SDL.load_excel_to_chroma f s env) as [[count s1] env1].
    destruct Hl as (_ & Hids & He & Hb & _ & _ & Hm).
    rewrite <- He in Hf. rewrite <- Hb in Hfree.
    pose proof (archive_file f m _ ns s1 env1 Hf Hfree Hnot) as Ha.
    destruct (SDL.archive_processed_file f s1 env1) as [s2 env2].
    destruct Ha as (H1 & H2 & H3 & _ & _ & H6).
    split; [congruence |]. split; [assumption |]. split.
    + unfold stored_ids at 1. rewrite H3. exact Hids.
    + congruence.
  - pose proof (load_fail f s env Hread) as Hl.
    destruct (SDL.load_excel_to_chroma f s env) as [[count s1] env1].
    destruct Hl as (_ & -> & Hm).
    pose proof (archive_file f m _ ns s env1 Hf Hfree Hnot) as Ha.
    destruct (SDL.archive_processed_file f s env1) as [s2 env2].
    destruct Ha as (H1 & H2 & H3 & _ & _ & H6).
    split; [assumption |]. split; [assumption |]. split.
    + unfold stored_ids. now rewrite H3.
    + congruence.
  - pose proof (load_fail f s env Hread) as Hl.
    destruct (SDL.load_excel_to_chroma f s env) as [[count s1] env1].
    destruct Hl as (_ & -> & Hm).
    pose proof (archive_file f m _ ns s env1 Hf Hfree Hnot) as Ha.
    destruct (SDL.archive_processed_file f s env1) as [s2 env2].
    destruct Ha as (H1 & H2 & H3 & _ & _ & H6).
    split; [assumption |]. split; [assumption |]. split.
    + unfold stored_ids. now rewrite H3.
    + congruence.
  - pose proof (load_fail f s env Hread) as Hl.
    destruct (SDL.load_excel_to_chroma f s env) as [[count s1] env1].
    destruct Hl as (_ & -> & Hm).
    pose proof (archive_file f m _ ns s env1 Hf Hfree Hnot) as Ha.
    destruct (SDL.archive_processed_file f s env1) as [s2 env2].
    destruct Ha as (H1 & H2 & H3 & _ & _ & H6).
    split; [assumption |]. split; [assumption |]. split.
    + unfold stored_ids. now rewrite H3.
    + congruence.
Qed.

Lemma read_excel_file (f : string) (df : SDL.DataFrame) (s : SDL.t) :
  SDL.read_excel f s = Some df ->
  exists m, SDL.find f (SDL.excel_folder s) = Some (SDL.File f m (SDL.Spreadsheet df)).
Proof.
  unfold SDL.read_excel.
  destruct (SDL.find f (SDL.excel_folder s)) as [[nm m [df' | | |] | ]|] eqn:Hf;
    try discriminate.
  intros H. injection H as ->. pose proof (find_in _ _ _ Hf) as [_ Hn].
  simpl in Hn. subst nm. exists m. reflexivity.
Qed.

Lemma unreadable_file_found (f : string) (s : SDL.t) :
  unreadable_file f s = true ->
  exists m c,
    SDL.find f (SDL.excel_folder s) = Some (SDL.File f m c)
    /\ match c with SDL.Spreadsheet _ => False | _ => True end.
Proof.
  unfold unreadable_file.
  destruct (SDL.find f (SDL.excel_folder s)) as [[nm m c | ]|] eqn:Hf;
    try discriminate.
  pose proof (find_in _ _ _ Hf) as [_ Hn]. simpl in Hn. subst nm.
  intros H. exists m, c. split; [reflexivity |].
  destruct c; [discriminate | exact I | exact I | exact I].
Qed.

Lemma load_folders (f : string) (s : SDL.t) (env : Env) :
  SDL.excel_folder (snd (fst (SDL.load_excel_to_chroma f s env))) = SDL.excel_folder s
  /\ SDL.backup_folder (snd (fst (SDL.load_excel_to_chroma f s env)))
     = SDL.backup_folder s.
Proof.
  destruct (SDL.read_excel f s) as [df|] eqn:Hr.
  - pose proof (load_ok f df s env Hr) as H.
    destruct (SDL.load_excel_to_chroma f s env) as [[count s1] env1]. simpl. tauto.
  - pose proof (load_fail f s env Hr) as H.
    destruct (SDL.load_excel_to_chroma f s env) as [[count s1] env1]. simpl.
    destruct H as (_ & -> & _). auto.
Qed.

(** One turn of the loop moves the file, with its time and content, into
    the backup folder under an archived name. *)
Lemma turn_moves (f : string) (m : Z) (c : SDL.content) (ns : list string)
  (s : SDL.t) (env : Env) :
  SDL.find f (SDL.excel_folder s) = Some (SDL.File f m c) ->
  dirs_free (f :: ns) (SDL.backup_folder s) = true ->
  ~ In f ns ->
  exists now,
    SDL.move_in (SDL.File f m c) (archived_name f now) (SDL.backup_folder s)
    = Some (SDL.backup_folder
              (fst (SDL.archive_processed_file f
                      (snd (fst (SDL.load_excel_to_chroma f s env)))
                      (snd (SDL.load_excel_to_chroma f s env))))).
Proof.
  intros Hf Hfree Hnot. destruct (load_folders f s env) as [He Hb].
  set (s1 := snd (fst (SDL.load_excel_to_chroma f s env))) in *.
  set (env1 := snd (SDL.load_excel_to_chroma f s env)).
  exists (clock env1). rewrite <- Hb. apply (archive_moves f m c ns); [| | exact Hnot].
  - now rewrite He.
  - now rewrite Hb.
Qed.

Lemma turn_outcome_unreadable (f : string) (c : SDL.content) (s s2 : SDL.t)
  (env env2 : Env) :
  match c with SDL.Spreadsheet _ => False | _ => True end ->
  turn_outcome f c s s2 env env2 ->
  stored_ids s2 = stored_ids s
  /\ marks (log env2) = Archived :: LoadFailed f :: marks (log env).
Proof. destruct c; simpl; intros H H'; [contradiction | | |]; exact H'. Qed.

Lemma daily_job_unfold (s : SDL.t) (env : Env) :
  SDL.daily_data_load_job s env
  = let (excel_files, env0) := SDL.find_excel_files s (job_start env) in
    match excel_files with
    | [] => (s, logger (LogWarning "No Excel files found for loading") env0)
    | _ :: _ =>
        let (s0, env1) := SDL.backup_chroma_db s env0 in
        let '(total_loaded, s1, env2) := SDL.load_loop excel_files 0 s0 env1 in
        SDL.process_chat_interactions s1
          (logger (LogInfo ("Daily data loading completed. Total records loaded: "
                            ++ PyStr.of_Z total_loaded)) env2)
    end.
Proof. reflexivity. Qed.

Lemma job_start_quiet (env : Env) : quiet env (job_start env).
Proof.
  unfold job_start. eapply quiet_trans; [| apply quiet_logger; reflexivity].
  eapply quiet_trans; [| apply quiet_now]. apply quiet_logger. reflexivity.
Qed.

(** C2, as the code has it. With three spreadsheet files in the inbox of
    which the second cannot be read, and a backup folder in which no
    directory holds an entry named like one of them, the daily job commits
    the rows of the first and of the third and no others, logs one load
    error, for the second, and archives every file it attempted, the second
    as well: none of the three is left in the inbox, and each of them is in
    the backup folder, with its modification time and its content, under
    its archived name. *)
Theorem daily_job_archives_every_attempted_file
  (s : SDL.t) (env : Env) (n1 n2 n3 : string) (df1 df3 : SDL.DataFrame) :
  NoDup (names (SDL.excel_folder s)) ->
  fst (SDL.find_excel_files s env) = [n1; n2; n3] ->
  NoDup [n1; n2; n3] ->
  SDL.read_excel n1 s = Some df1 ->
  unreadable_file n2 s = true ->
  SDL.read_excel n3 s = Some df3 ->
  dirs_free [n1; n2; n3] (SDL.backup_folder s) = true ->
  let '(s', env') := SDL.daily_data_load_job s env in
  (forall i, In i (stored_ids s') <->
             In i (row_ids n1 df1) \/ In i (row_ids n3 df3) \/ In i (stored_ids s))
  /\ SDL.excel_folder s'
     = SDL.unlink n3 (SDL.unlink n2 (SDL.unlink n1 (SDL.excel_folder s)))
  /\ SDL.find n1 (SDL.excel_folder s') = None
  /\ SDL.find n2 (SDL.excel_folder s') = None
  /\ SDL.find n3 (SDL.excel_folder s') = None
  /\ marks (log env') = ([Archived; Archived; LoadFailed n2; Archived]
                         ++ marks (log env))%list
  /\ (forall n m c,
        In n [n1; n2; n3] ->
        SDL.find n (SDL.excel_folder s) = Some (SDL.File n m c) ->
        archived n m c (SDL.backup_folder s')).
Proof.
  intros Hnd Hfiles Hnames Hr1 Hr2 Hr3 Hfree.
  (* the three files *)
  destruct (read_excel_file n1 df1 s Hr1) as (m1 & Hf1).
  destruct (unreadable_file_found n2 s Hr2) as (m2 & c2 & Hf2 & Hc2).
  destruct (read_excel_file n3 df3 s Hr3) as (m3 & Hf3).
  assert (Hex : forallb excel_name [n1; n2; n3] = true).
  { apply forallb_forall. intros x Hx.
    apply (find_excel_files_names s env x). rewrite Hfiles. exact Hx. }
  inversion Hnames as [| x1 l1 Hn1 Hnames']; subst.
  inversion Hnames' as [| x2 l2 Hn2 Hnames'']; subst.
  assert (H12 : n1 <> n2) by (intros ->; apply Hn1; left; reflexivity).
  assert (H13 : n1 <> n3) by (intros ->; apply Hn1; right; left; reflexivity).
  assert (H23 : n2 <> n3) by (intros ->; apply Hn2; left; reflexivity).
  (* up to the loop *)
  rewrite daily_job_unfold.
  set (envA := job_start env).
  pose proof (job_start_quiet env) as HqA. fold envA in HqA.
  pose proof (find_excel_files_quiet s envA) as HqB.
  assert (HfilesA : fst (SDL.find_excel_files s envA) = [n1; n2; n3]) by exact Hfiles.
  destruct (SDL.find_excel_files s envA) as [files envB]. simpl in HqB, HfilesA.
  subst files.
  pose proof (backup_frame [n1; n2; n3] s envB Hex Hfree) as Hb.
  destruct (SDL.backup_chroma_db s envB) as [s0 env0].
  destruct Hb as (Hb1 & Hb2 & _ & _ & Hb5 & Hq0).
  (* first file *)
  rewrite load_loop_cons.
  assert (Hf1' : SDL.find n1 (SDL.excel_folder s0)
                 = Some (SDL.File n1 m1 (SDL.Spreadsheet df1))) by (now rewrite Hb1).
  pose proof (turn_file n1 m1 _ [n2; n3] s0 env0 Hf1' Hb5 Hn1) as T1.
  pose proof (turn_moves n1 m1 _ [n2; n3] s0 env0 Hf1' Hb5 Hn1) as (t1 & V1).
  destruct (SDL.load_excel_to_chroma n1 s0 env0) as [[k1 s1] env1].
  cbn [fst snd] in V1.
  destruct (SDL.archive_processed_file n1 s1 env1) as [s2 env2].
  cbn [fst snd] in V1.
  destruct T1 as (E1 & D1 & I1 & M1).
  (* second file *)
  rewrite load_loop_cons.
  assert (Hf2' : SDL.find n2 (SDL.excel_folder s2) = Some (SDL.File n2 m2 c2)).
  { rewrite E1, Hb1, find_unlink_other; auto. }
  pose proof (turn_file n2 m2 c2 [n3] s2 env2 Hf2' D1 Hn2) as T2.
  pose proof (turn_moves n2 m2 c2 [n3] s2 env2 Hf2' D1 Hn2) as (t2 & V2).
  destruct (SDL.load_excel_to_chroma n2 s2 env2) as [[k2 s3] env3].
  cbn [fst snd] in V2.
  destruct (SDL.archive_processed_file n2 s3 env3) as [s4 env4].
  cbn [fst snd] in V2.
  destruct T2 as (E2 & D2 & O2).
  apply turn_outcome_unreadable in O2; [| exact Hc2]. destruct O2 as [I2 M2].
  (* third file *)
  rewrite load_loop_cons.
  assert (Hf3' : SDL.find n3 (SDL.excel_folder s4)
                 = Some (SDL.File n3 m3 (SDL.Spreadsheet df3))).
  { rewrite E2, E1, Hb1, !find_unlink_other; auto. }
  pose proof (turn_file n3 m3 _ [] s4 env4 Hf3' D2 (fun H => H)) as T3.
  pose proof (turn_moves n3 m3 _ [] s4 env4 Hf3' D2 (fun H => H)) as (t3 & V3).
  destruct (SDL.load_excel_to_chroma n3 s4 env4) as [[k3 s5] env5].
  cbn [fst snd] in V3.
  destruct (SDL.archive_processed_file n3 s5 env5) as [s6 env6].
  cbn [fst snd] in V3.
  destruct T3 as (E3 & _ & I3 & M3).
  (* the end of the job *)
  simpl SDL.load_loop. lazy beta iota zeta.
  match goal with
  | |- context [SDL.process_chat_interactions s6 ?e] => set (envC := e)
  end.
  pose proof (process_frame s6 envC) as Hp.
  destruct (SDL.process_chat_interactions s6 envC) as [s' env'].
  destruct Hp as (P1 & P2 & P3 & Pq).
  assert (Hids0 : stored_ids s0 = stored_ids s) by (unfold stored_ids; now rewrite Hb2).
  assert (Hfolder : SDL.excel_folder s'
                    = SDL.unlink n3 (SDL.unlink n2 (SDL.unlink n1 (SDL.excel_folder s)))).
  { rewrite P1, E3, E2, E1, Hb1. reflexivity. }
  split; [| split; [exact Hfolder | split; [| split; [| split; [| split]]]]].
  - intros i. unfold stored_ids at 1. rewrite P3. fold (stored_ids s6).
    rewrite I3, I2, I1, Hids0. tauto.
  - rewrite Hfolder, !find_unlink_other by auto. now apply find_unlink_same.
  - rewrite Hfolder, find_unlink_other by auto.
    apply find_unlink_same. now apply unlink_nodup.
  - rewrite Hfolder. apply find_unlink_same. now apply unlink_nodup, unlink_nodup.
  - assert (HqC : quiet env6 env').
    { eapply quiet_trans; [| exact Pq]. apply quiet_logger. reflexivity. }
    rewrite (quiet_marks _ _ HqC), M3, M2, M1.
    assert (Hq : quiet env env0).
    { eapply quiet_trans; [exact HqA |]. eapply quiet_trans; [exact HqB | exact Hq0]. }
    rewrite (quiet_marks _ _ Hq). reflexivity.
  - intros n m c Hn Hfn. rewrite P2.
    assert (A12 : forall t t', archived_name n1 t <> archived_name n2 t')
      by (intros t t' E; apply archived_name_inj in E; contradiction).
    assert (A13 : forall t t', archived_name n1 t <> archived_name n3 t')
      by (intros t t' E; apply archived_name_inj in E; contradiction).
    assert (A23 : forall t t', archived_name n2 t <> archived_name n3 t')
      by (intros t t' E; apply archived_name_inj in E; contradiction).
    destruct Hn as [<- | [<- | [<- | []]]].
    + rewrite Hf1 in Hfn. injection Hfn as <- <-. exists t1.
      eapply move_in_keeps_archived; [exact V3 | apply A13 |].
      eapply move_in_keeps_archived; [exact V2 | apply A12 |].
      eapply move_in_archives; exact V1.
    + rewrite Hf2 in Hfn. injection Hfn as <- <-. exists t2.
      eapply move_in_keeps_archived; [exact V3 | apply A23 |].
      eapply move_in_archives; exact V2.
    + rewrite Hf3 in Hfn. injection Hfn as <- <-. exists t3.
      eapply move_in_archives; exact V3.
Qed.

Lemma sample_inbox_names : NoDup ["a.xlsx"; "b.xlsx"; "c.xlsx"].
Proof.
  repeat constructor; simpl; intuition discriminate.
Qed.

Lemma daily_job_archives_every_attempted_file_witness :
  let '(s', env') := SDL.daily_data_load_job sample_inbox sample_env in
  (forall i, In i (stored_ids s') <->
             In i (row_ids "a.xlsx" sheet_a) \/ In i (row_ids "c.xlsx" sheet_c)
             \/ In i (stored_ids sample_inbox))
  /\ SDL.excel_folder s'
     = SDL.unlink "c.xlsx" (SDL.unlink "b.xlsx"
         (SDL.unlink "a.xlsx" (SDL.excel_folder sample_inbox)))
  /\ SDL.find "a.xlsx" (SDL.excel_folder s') = None
  /\ SDL.find "b.xlsx" (SDL.excel_folder s') = None
  /\ SDL.find "c.xlsx" (SDL.excel_folder s') = None
  /\ marks (log env') = ([Archived; Archived; LoadFailed "b.xlsx"; Archived]
                         ++ marks (log sample_env))%list
  /\ (forall n m c,
        In n ["a.xlsx"; "b.xlsx"; "c.xlsx"] ->
        SDL.find n (SDL.excel_folder sample_inbox) = Some (SDL.File n m c) ->
        archived n m c (SDL.backup_folder s')).
Proof.
  exact (daily_job_archives_every_attempted_file sample_inbox sample_env
           "a.xlsx" "b.xlsx" "c.xlsx" sheet_a sheet_c
           sample_inbox_names eq_refl sample_inbox_names
           eq_refl eq_refl eq_refl eq_refl).
Defined.

(** C2, as the spec has it, fails: the file that cannot be read does not
    stay in the inbox; the job moves it to the backup folder like the two
    others, after logging the load error. *)
Lemma unreadable_file_is_archived_too :
  let '(s', env') := SDL.daily_data_load_job sample_inbox sample_env in
  SDL.excel_folder s' = []
  /\ SDL.find "b.xlsx" (SDL.excel_folder s') = None
  /\ SDL.find "b_processed_1005.xlsx" (SDL.backup_folder s')
     = Some (SDL.File "b_processed_1005.xlsx" 20 (SDL.Raw "not a workbook"))
  /\ stored_ids s' = ["excel_a_xlsx_0"; "excel_a_xlsx_1"; "excel_c_xlsx_0"]
  /\ marks (log env') = [Archived; Archived; LoadFailed "b.xlsx"; Archived].
Proof. vm_compute. repeat split. Qed.

(** ** Row identifiers *)

(** C8 fails on the code: [file_id] replaces every dot of the file name by
    an underscore, so the rows of a.b.xlsx and of a_b.xlsx get the same
    identifiers, and the second file overwrites the documents of the
    first: two files, two rows, one document. *)
Lemma row_ids_collide_across_files :
  SDL.row_id "a.b.xlsx" 0 = SDL.row_id "a_b.xlsx" 0
  /\ let '(_, s1, env1) := SDL.load_excel_to_chroma "a.b.xlsx" dotted_inbox sample_env in
     let '(_, s2, _) := SDL.load_excel_to_chroma "a_b.xlsx" s1 env1 in
     stored_ids s1 = ["excel_a_b_xlsx_0"]
     /\ stored_ids s2 = ["excel_a_b_xlsx_0"]
     /\ option_map
          (fun c => map (fun e => Py.get "file_name" (Index.metadata e)) (SDL.collection c))
          (SDL.chroma_path s2)
        = Some [Some (VStr "a_b.xlsx")].
Proof. vm_compute. repeat split. Qed.

(** Two rows have the same identifier exactly when their files have the
    same name up to dots written as underscores and their row indices are
    equal. *)
Lemma row_id_eq_iff (f f' : string) (i i' : Z) :
  SDL.row_id f i = SDL.row_id f' i' <-> SDL.file_id f = SDL.file_id f' /\ i = i'.
Proof.
  unfold SDL.row_id. split.
  - intros H. apply (append_inv_head "excel_") in H.
    apply split_last_underscore in H; try apply no_underscore_of_Z.
    destruct H as [H1 H2]. split; [exact H1 | now apply of_Z_inj].
  - intros [-> ->]. reflexivity.
Qed.

Lemma load_nodup (f : string) (df : SDL.DataFrame) (s : SDL.t) (env : Env) :
  SDL.read_excel f s = Some df ->
  NoDup (stored_ids s) ->
  NoDup (stored_ids (snd (fst (SDL.load_excel_to_chroma f s env)))).
Proof.
  intros Hr Hn. unfold SDL.load_excel_to_chroma. rewrite Hr.
  set (env1 := logger _ (logger _ env)).
  destruct (SDL.row_entries f (SDL.columns df) (SDL.rows df) env1) as [es env2].
  set (c0 := match SDL.chroma_path s with Some c => c | None => _ end).
  pose proof (add_batches_spec (PyList.batches (List.length es) SDL.batch_size es)
                1 0 (SDL.collection c0) env2) as Hb.
  destruct (SDL.add_batches _ 1 0 (SDL.collection c0) env2) as [[total ix] env3].
  destruct Hb as (_ & _ & H3 & _). simpl. unfold stored_ids. simpl.
  apply H3. unfold c0. unfold stored_ids in Hn.
  destruct (SDL.chroma_path s); [exact Hn | constructor].
Qed.

(** A spreadsheet loaded a second time: the store holds the identifiers it
    held after the first load, each once. *)
Lemma reload_adds_no_identifier (f : string) (df : SDL.DataFrame)
  (s : SDL.t) (env : Env) :
  SDL.read_excel f s = Some df ->
  NoDup (stored_ids s) ->
  let '(_, s1, env1) := SDL.load_excel_to_chroma f s env in
  let '(_, s2, _) := SDL.load_excel_to_chroma f s1 env1 in
  (forall i, In i (stored_ids s2) <-> In i (stored_ids s1))
  /\ NoDup (stored_ids s1) /\ NoDup (stored_ids s2).
Proof.
  intros Hr Hn.
  pose proof (load_ok f df s env Hr) as H1.
  pose proof (load_nodup f df s env Hr Hn) as N1.
  destruct (SDL.load_excel_to_chroma f s env) as [[k1 s1] env1]. simpl in N1.
  destruct H1 as (_ & I1 & E1 & _).
  assert (Hr1 : SDL.read_excel f s1 = Some df).
  { unfold SDL.read_excel in *. now rewrite E1. }
  pose proof (load_ok f df s1 env1 Hr1) as H2.
  pose proof (load_nodup f df s1 env1 Hr1 N1) as N2.
  destruct (SDL.load_excel_to_chroma f s1 env1) as [[k2 s2] env2]. simpl in N2.
  destruct H2 as (_ & I2 & _).
  split; [| split; assumption].
  intros i. rewrite I2, I1. tauto.
Qed.

Lemma reload_adds_no_identifier_witness :
  let '(_, s1, env1) := SDL.load_excel_to_chroma "a.xlsx" sample_inbox sample_env in
  let '(_, s2, _) := SDL.load_excel_to_chroma "a.xlsx" s1 env1 in
  (forall i, In i (stored_ids s2) <-> In i (stored_ids s1))
  /\ NoDup (stored_ids s1) /\ NoDup (stored_ids s2).
Proof.
  exact (reload_adds_no_identifier "a.xlsx" sheet_a sample_inbox sample_env
           eq_refl (NoDup_nil string)).
Defined.

(** ** Validation, enrichment and statistics of the learning system *)

(** X4. [_validate_qa_pair] accepts a value exactly when it is a dict whose
    question and answer are strings with at least 5 and at least 10
    characters once the white space around them is stripped; text that is
    long enough only through its padding is rejected. *)
Theorem validate_accepts_exactly (p : value) :
  ALS._validate_qa_pair p = true <->
  exists d q a,
    p = VDict d /\ Py.get "question" d = Some (VStr q)
    /\ Py.get "answer" d = Some (VStr a)
    /\ 5 <= PyStr.len (PyStr.strip q) /\ 10 <= PyStr.len (PyStr.strip a).
Proof.
  split; [apply validate_inv |].
  intros (d & q & a & -> & Hq & Ha & H5 & H10).
  pose proof (len_strip_le q) as Lq. pose proof (len_strip_le a) as La.
  assert (Nq : String.eqb q "" = false).
  { destruct q; [simpl in Lq; unfold PyStr.len in *; simpl in *; lia | reflexivity]. }
  assert (Na : String.eqb a "" = false).
  { destruct a; [simpl in La; unfold PyStr.len in *; simpl in *; lia | reflexivity]. }
  unfold ALS._validate_qa_pair, ALS.field_ok, Py.get_str. simpl forallb.
  rewrite Hq, Ha. simpl. rewrite Nq, Na. simpl.
  destruct (PyStr.len (PyStr.strip q) <? 5) eqn:E1; [apply Z.ltb_lt in E1; lia |].
  destruct (PyStr.len (PyStr.strip a) <? 10) eqn:E2; [apply Z.ltb_lt in E2; lia |].
  reflexivity.
Qed.

Lemma get_set_neq (k k' : string) (v : value) (d : dict) :
  k <> k' -> Py.get k (Py.set k' v d) = Py.get k d.
Proof. intros H. apply get_set_other. now apply String.eqb_neq. Qed.

(** What [_enrich_qa_pair] leaves of the record it was given. *)
Lemma enrich_fields (d e : dict) (env : Env) :
  fst (ALS._enrich_qa_pair d env) = Some e ->
  (forall k, ~ In k enriched_keys -> Py.get k e = Py.get k d)
  /\ Py.get "usage_count" e = Some (VInt 0)
  /\ Py.get "confidence_score" e = Some (VFloat 1%float)
  /\ Py.get "source" e
     = Some (Py.get_default "source" (VStr "user_provided") d).
Proof.
  unfold ALS._enrich_qa_pair, datetime_now. simpl.
  destruct (Py.get_str "question" d) as [q|]; [| discriminate].
  destruct (Py.get "answer" d) as [[| | | |a| |]|]; try discriminate.
  destruct (ALS._categorize_qa_pair d) as [cs|]; [| discriminate].
  intros H. injection H as <-.
  split; [| repeat split; dict_simpl; reflexivity].
  intros k Hk. unfold enriched_keys in Hk. simpl in Hk.
  rewrite !get_set_neq; auto; intros ->; apply Hk; tauto.
Qed.

(** X5. The enriched record keeps every field of the caller that is not
    one of the nine keys of the enrichment, whatever its name; a usage
    count or a confidence score sent by the caller is overwritten by 0 and
    1.0, and the source is the caller's when given and "user_provided"
    otherwise. *)
Theorem enrichment_keeps_caller_fields (d e : dict) (env : Env) :
  fst (ALS._enrich_qa_pair d env) = Some e ->
  (forall k, ~ In k enriched_keys -> Py.get k e = Py.get k d)
  /\ Py.get "usage_count" e = Some (VInt 0)
  /\ Py.get "confidence_score" e = Some (VFloat 1%float)
  /\ Py.get "source" e
     = Some (Py.get_default "source" (VStr "user_provided") d).
Proof. apply enrich_fields. Qed.

Lemma enrichment_keeps_caller_fields_witness :
  Py.get "priority"
    (match fst (ALS._enrich_qa_pair
                  [ ("question", VStr "What is FY2024?");
                    ("priority", VInt 3);
                    ("usage_count", VInt 41);
                    ("answer", VStr "The Dell fiscal year 2024.") ] sample_env) with
     | Some e => e
     | None => []
     end) = Some (VInt 3).
Proof.
  destruct (ALS._enrich_qa_pair
              [ ("question", VStr "What is FY2024?");
                ("priority", VInt 3);
                ("usage_count", VInt 41);
                ("answer", VStr "The Dell fiscal year 2024.") ] sample_env)
    as [[e|] env'] eqn:E.
  - simpl.
    pose proof (enrichment_keeps_caller_fields
                  [ ("question", VStr "What is FY2024?");
                    ("priority", VInt 3);
                    ("usage_count", VInt 41);
                    ("answer", VStr "The Dell fiscal year 2024.") ] e sample_env) as H.
    rewrite E in H. destruct (H eq_refl) as [Hk _].
    rewrite Hk; [reflexivity |].
    unfold enriched_keys. simpl. intros F.
    repeat (destruct F as [F | F]; [discriminate F |]). exact F.
  - vm_compute in E. discriminate E.
Defined.

(** ** Fiscal years *)

Lemma four_digits_label (s g rest : string) :
  ALS.four_digits s = Some (g, rest) -> fy_label ("FY" ++ g) = true.
Proof.
  unfold ALS.four_digits.
  destruct s as [| a [| b [| c [| d r]]]]; try discriminate.
  destruct (PyStr.isdigit a && PyStr.isdigit b && PyStr.isdigit c && PyStr.isdigit d)
    eqn:E; [| discriminate].
  intros H. injection H as <- _. simpl. exact E.
Qed.

Lemma fy_match_label (s g rest : string) :
  ALS.fy_match s = Some (g, rest) -> fy_label ("FY" ++ g) = true.
Proof.
  unfold ALS.fy_match, ALS.fy_short, ALS.fy_long.
  destruct (ALS.match_ci "fy" s) as [r|].
  - destruct (ALS.four_digits (PyStr.lstrip r)) as [[g' rest']|] eqn:E.
    + intros H. injection H as <- <-. eapply four_digits_label; eauto.
    + destruct (ALS.match_ci "fiscal" s) as [r1|]; [| discriminate].
      destruct (ALS.spaces1 r1) as [r2|]; [| discriminate].
      destruct (ALS.match_ci "year" r2) as [r3|]; [| discriminate].
      destruct (ALS.spaces1 r3) as [r4|]; [| discriminate].
      apply four_digits_label.
  - destruct (ALS.match_ci "fiscal" s) as [r1|]; [| discriminate].
    destruct (ALS.spaces1 r1) as [r2|]; [| discriminate].
    destruct (ALS.match_ci "year" r2) as [r3|]; [| discriminate].
    destruct (ALS.spaces1 r3) as [r4|]; [| discriminate].
    apply four_digits_label.
Qed.

Lemma findall_labels (fuel : nat) (s : string) :
  Forall (fun g => fy_label ("FY" ++ g) = true) (ALS.findall fuel s).
Proof.
  revert s. induction fuel as [| k IH]; intros s; simpl; [constructor |].
  destruct s as [| c r]; [constructor |].
  destruct (ALS.fy_match (String c r)) as [[g rest]|] eqn:E.
  - constructor; [eapply fy_match_label; eauto | apply IH].
  - apply IH.
Qed.

(** X6. Whatever the text, [_extract_fiscal_years] returns labels that are
    FY followed by four digits, and no label twice. *)
Theorem fiscal_years_are_distinct_labels (text : string) :
  NoDup (ALS._extract_fiscal_years text)
  /\ Forall (fun l => fy_label l = true) (ALS._extract_fiscal_years text).
Proof.
  unfold ALS._extract_fiscal_years. split; [apply NoDup_nodup |].
  apply Forall_forall. intros l Hl. apply nodup_In in Hl.
  apply in_map_iff in Hl. destruct Hl as (g & <- & Hg).
  pose proof (findall_labels (String.length text) text) as H.
  rewrite Forall_forall in H. now apply H.
Qed.

(** ** Statistics *)

Lemma count_bump (k k' : string) (counts : dict) :
  count_of k (ALS.bump k' counts)
  = count_of k counts + (if String.eqb k' k then 1 else 0).
Proof.
  unfold count_of, ALS.bump. destruct (String.eqb k' k) eqn:E.
  - apply String.eqb_eq in E. subst k'. rewrite get_set_same.
    destruct (Py.get k counts) as [[]|]; reflexivity.
  - rewrite get_set_other; [lia |]. rewrite String.eqb_sym. exact E.
Qed.

Lemma has_bump (k k' : string) (counts : dict) :
  Py.has k (ALS.bump k' counts) = Py.has k counts || String.eqb k' k.
Proof.
  unfold Py.has, ALS.bump. destruct (String.eqb k' k) eqn:E.
  - apply String.eqb_eq in E. subst k'. rewrite get_set_same.
    now rewrite orb_true_r.
  - rewrite get_set_other; [now rewrite orb_false_r |].
    rewrite String.eqb_sym. exact E.
Qed.

Lemma occurrences_cons (k c : string) (l : list string) :
  occurrences k (c :: l) = (if String.eqb c k then 1 else 0) + occurrences k l.
Proof.
  unfold occurrences. simpl. destruct (string_dec c k) as [->|N].
  - rewrite String.eqb_refl. lia.
  - apply String.eqb_neq in N. rewrite N. lia.
Qed.

Lemma occurrences_app (k : string) (l1 l2 : list string) :
  occurrences k (l1 ++ l2) = occurrences k l1 + occurrences k l2.
Proof. unfold occurrences. rewrite count_occ_app. lia. Qed.

Lemma occurrences_pos (k : string) (l : list string) :
  0 < occurrences k l <-> In k l.
Proof.
  unfold occurrences. rewrite (count_occ_In string_dec). lia.
Qed.

Lemma fold_bump_count (k : string) (cs : list string) (counts : dict) :
  count_of k (fold_left (fun acc c => ALS.bump c acc) cs counts)
  = count_of k counts + occurrences k cs.
Proof.
  revert counts. induction cs as [| c r IH]; intros counts; simpl.
  - unfold occurrences. simpl. lia.
  - rewrite IH, count_bump, occurrences_cons. lia.
Qed.

Lemma fold_bump_has (k : string) (cs : list string) (counts : dict) :
  Py.has k (fold_left (fun acc c => ALS.bump c acc) cs counts) = true
  <-> Py.has k counts = true \/ In k cs.
Proof.
  revert counts. induction cs as [| c r IH]; intros counts; simpl.
  - tauto.
  - rewrite IH, has_bump, orb_true_iff, String.eqb_eq. tauto.
Qed.

Lemma category_stats_gen (k : string) (pairs : list value) :
  forall counts stats,
    ALS._get_category_stats pairs counts = Some stats ->
    count_of k stats
    = count_of k counts
      + occurrences k (labels_of "categories" (VList [VStr "general"]) pairs)
    /\ (Py.has k stats = true <->
        Py.has k counts = true
        \/ In k (labels_of "categories" (VList [VStr "general"]) pairs)).
Proof.
  induction pairs as [| p r IH]; intros counts stats; simpl.
  - intros H. injection H as <-. unfold occurrences. simpl. split; [lia | tauto].
  - destruct (ALS.labels "categories" (VList [VStr "general"]) p) as [cs|];
      [| discriminate].
    intros H. apply IH in H. destruct H as [H1 H2].
    rewrite H1, H2, fold_bump_count, fold_bump_has, occurrences_app, in_app_iff.
    split; [lia | tauto].
Qed.

(** X7. The table [_get_category_stats] returns gives every category the
    number of times it occurs in the entries of the list (an entry without
    categories counts once under "general"), and has a key for exactly the
    categories that occur. *)
Theorem category_stats_count_occurrences
  (pairs : list value) (stats : dict) (k : string) :
  ALS._get_category_stats pairs [] = Some stats ->
  count_of k stats
  = occurrences k (labels_of "categories" (VList [VStr "general"]) pairs)
  /\ (Py.has k stats = true <->
      In k (labels_of "categories" (VList [VStr "general"]) pairs)).
Proof.
  intros H. apply (category_stats_gen k) in H. destruct H as [H1 H2].
  split.
  - rewrite H1. unfold count_of. simpl. lia.
  - rewrite H2. unfold Py.has. simpl. split; [intros [F|F]; [discriminate | exact F] | tauto].
Qed.

Lemma category_stats_count_occurrences_witness :
  ALS._get_category_stats sample_stats_list []
  = Some [ ("dell_specific", VInt 1); ("analysis", VInt 2); ("general", VInt 1) ]
  /\ count_of "analysis"
       [ ("dell_specific", VInt 1); ("analysis", VInt 2); ("general", VInt 1) ]
     = occurrences "analysis"
         (labels_of "categories" (VList [VStr "general"]) sample_stats_list).
Proof.
  split; [reflexivity |].
  apply (category_stats_count_occurrences sample_stats_list
           [ ("dell_specific", VInt 1); ("analysis", VInt 2); ("general", VInt 1) ]
           "analysis").
  reflexivity.
Defined.

Lemma fold_bump_fy_count (k : string) (fys : list string) (counts : dict) :
  count_of k (fold_left (fun acc fy => if String.eqb fy "" then acc
                                       else ALS.bump fy acc) fys counts)
  = count_of k counts + (if String.eqb k "" then 0 else occurrences k fys).
Proof.
  revert counts. induction fys as [| c r IH]; intros counts; simpl.
  - unfold occurrences. simpl. destruct (String.eqb k ""); lia.
  - rewrite IH, occurrences_cons. destruct (String.eqb c "") eqn:Ec.
    + apply String.eqb_eq in Ec. subst c.
      destruct (String.eqb k "") eqn:Ek; [lia |].
      rewrite String.eqb_sym, Ek. lia.
    + rewrite count_bump. destruct (String.eqb k "") eqn:Ek; [| lia].
      apply String.eqb_eq in Ek. subst k. rewrite Ec. lia.
Qed.

Lemma fy_stats_gen (k : string) (pairs : list value) :
  forall counts stats,
    ALS._get_fy_stats pairs counts = Some stats ->
    count_of k stats
    = count_of k counts
      + (if String.eqb k "" then 0
         else occurrences k (labels_of "fiscal_years" (VList []) pairs)).
Proof.
  induction pairs as [| p r IH]; intros counts stats; simpl.
  - intros H. injection H as <-. unfold occurrences. simpl.
    destruct (String.eqb k ""); lia.
  - destruct (ALS.labels "fiscal_years" (VList []) p) as [fys|]; [| discriminate].
    intros H. apply IH in H. rewrite H, fold_bump_fy_count, occurrences_app.
    destruct (String.eqb k ""); lia.
Qed.

(** X8. The table [_get_fy_stats] returns gives every fiscal-year label
    the number of times it occurs in the entries of the list; the empty
    label is never counted, and an entry without fiscal years adds
    nothing. *)
Theorem fy_stats_count_occurrences
  (pairs : list value) (stats : dict) (k : string) :
  ALS._get_fy_stats pairs [] = Some stats ->
  count_of k stats
  = (if String.eqb k "" then 0
     else occurrences k (labels_of "fiscal_years" (VList []) pairs)).
Proof.
  intros H. apply (fy_stats_gen k) in H. rewrite H. unfold count_of. simpl. lia.
Qed.

Lemma fy_stats_count_occurrences_witness :
  ALS._get_fy_stats sample_stats_list []
  = Some [ ("FY2024", VInt 2); ("FY2023", VInt 1) ]
  /\ count_of "FY2024" [ ("FY2024", VInt 2); ("FY2023", VInt 1) ]
     = (if String.eqb "FY2024" "" then 0
        else occurrences "FY2024"
               (labels_of "fiscal_years" (VList []) sample_stats_list)).
Proof.
  split; [reflexivity |].
  apply (fy_stats_count_occurrences sample_stats_list
           [ ("FY2024", VInt 2); ("FY2023", VInt 1) ] "FY2024").
  reflexivity.
Defined.

(** ** Search on malformed metadata, usage counts, restart and clearing *)

Lemma relevant_malformed (t : float) (docs : list string) :
  forall metas dists doc m c,
    In (doc, m, c) (filter (passes t) (scored docs metas dists)) ->
    Py.get "answer" m = None ->
    ALS.relevant docs metas dists t = None.
Proof.
  induction docs as [| doc0 docs IH]; intros metas dists doc m c Hin Ha.
  - destruct Hin.
  - destruct metas as [| m0 metas]; [destruct Hin |].
    destruct dists as [| d0 dists]; [destruct Hin |].
    simpl in Hin. unfold passes at 1 in Hin. simpl in Hin. simpl.
    destruct (PrimFloat.leb t (ALS.confidence_of d0)) eqn:E.
    + destruct Hin as [Heq | Hin].
      * injection Heq as -> -> <-. unfold ALS.match_of. now rewrite Ha.
      * rewrite (IH _ _ _ _ _ Hin Ha).
        destruct (ALS.match_of doc0 m0 (ALS.confidence_of d0)); reflexivity.
    + eapply IH; eauto.
Qed.

(** X9. One result at or above the threshold whose metadata has no answer
    makes [search_learned_knowledge] return the empty list and log an
    error: the well-formed results of the same query are lost with it. *)
Theorem malformed_hit_empties_search
  (query : Index.t -> string -> Z -> option ALS.QueryResult)
  (q : string) (n : Z) (t : float) (s : ALS.t) (env : Env)
  (docs : list string) (metas : list dict) (dists : list float)
  (rd : list (list string)) (rm : list (list dict)) (rds : list (list float))
  (doc : string) (m : dict) (c : float) :
  query (ALS.learned_collection s) q n
  = Some (ALS.mkQuery (docs :: rd) (metas :: rm) (Some (dists :: rds))) ->
  In (doc, m, c) (filter (passes t) (scored docs metas dists)) ->
  Py.get "answer" m = None ->
  ALS.search_learned_knowledge query q n t s env
  = ([], logger (LogError "Error searching learned knowledge") env).
Proof.
  intros Hq Hin Ha. unfold ALS.search_learned_knowledge, ALS.search_results.
  rewrite Hq. simpl.
  destruct docs as [| doc0 docs]; [destruct Hin |].
  now rewrite (relevant_malformed t _ _ _ _ _ _ Hin Ha).
Qed.

Lemma malformed_hit_empties_search_witness :
  ALS.search_learned_knowledge broken_query "What is a P1?" 5 0.5%float
    ALS.fresh sample_env
  = ([], logger (LogError "Error searching learned knowledge") sample_env).
Proof.
  apply (malformed_hit_empties_search broken_query "What is a P1?" 5 0.5%float
           ALS.fresh sample_env
           ["What is HEA?"; "What is a P1?"]
           [ [("source", VStr "chat_interaction")];
             sample_meta "A priority one incident." ]
           [0.125%float; 0.25%float] [] [] []
           "What is HEA?" [("source", VStr "chat_interaction")]
           (ALS.confidence_of 0.125%float)).
  - reflexivity.
  - vm_compute. left. reflexivity.
  - reflexivity.
Defined.

(** ** Usage counts *)

Lemma bump_usage_first (h : string) (pre : list dict) (d : dict)
  (post : list value) (n : value) (env : Env) :
  forallb (fun x => negb (ALS.hash_is h x)) pre = true ->
  ALS.hash_is h d = true ->
  Py.add1 (Py.get_default "usage_count" (VInt 0) d) = Some n ->
  ALS.bump_usage h (map VDict pre ++ VDict d :: post)%list env
  = (Some (map VDict pre
           ++ VDict (Py.set "last_used" (VStr (isoformat (clock env)))
                       (Py.set "usage_count" n d)) :: post)%list,
     tick env).
Proof.
  intros Hpre Hd Hn. induction pre as [| x pre IH]; simpl.
  - rewrite Hd, Hn. reflexivity.
  - simpl in Hpre. apply andb_true_iff in Hpre. destruct Hpre as [Hx Hpre].
    apply negb_true_iff in Hx. rewrite Hx, (IH Hpre). reflexivity.
Qed.

Lemma bump_usage_length (h : string) (pairs : list value) :
  forall env l env',
    ALS.bump_usage h pairs env = (Some l, env') ->
    List.length l = List.length pairs.
Proof.
  induction pairs as [| p r IH]; intros env l env'; simpl.
  - intros H. injection H as <- _. reflexivity.
  - destruct p as [| | | | | |d]; try discriminate.
    destruct (ALS.hash_is h d).
    + destruct (Py.add1 (Py.get_default "usage_count" (VInt 0) d)); [| discriminate].
      intros H. injection H as <- _. reflexivity.
    + destruct (ALS.bump_usage h r env) as [[r'|] env1] eqn:E; [| discriminate].
      intros H. injection H as <- _. simpl. f_equal. eapply IH; eauto.
Qed.

(** X10. [_update_usage_count] adds one to the usage count of the first
    entry of the list whose hash is the MD5 of the question and stamps it
    as last used; every other entry, a later entry with the same hash
    included, stays as it was, and the updated list is what the file holds
    when the disk works. *)
Theorem usage_update_counts_first_match_only
  (q : string) (s : ALS.t) (env : Env)
  (pre : list dict) (d : dict) (post : list value) (n : Z) :
  ALS.learned_qa_pairs s = (map VDict pre ++ VDict d :: post)%list ->
  forallb (fun x => negb (ALS.hash_is (MD5.hexdigest q) x)) pre = true ->
  ALS.hash_is (MD5.hexdigest q) d = true ->
  Py.get_default "usage_count" (VInt 0) d = VInt n ->
  let s' := fst (ALS._update_usage_count q s env) in
  ALS.learned_qa_pairs s'
  = (map VDict pre
     ++ VDict (Py.set "last_used" (VStr (isoformat (clock env)))
                 (Py.set "usage_count" (VInt (n + 1)) d)) :: post)%list
  /\ (disk_ok env = true ->
      ALS.knowledge_file s' = Some (ALS.learned_qa_pairs s')).
Proof.
  intros Hl Hpre Hd Hn s'. subst s'. unfold ALS._update_usage_count.
  rewrite Hl, (bump_usage_first _ pre d post (VInt (n + 1)) env Hpre Hd)
    by (rewrite Hn; reflexivity).
  set (l' := (map VDict pre ++ _ :: post)%list).
  pose proof (save_fields (ALS.set_pairs l' s) (tick env)) as (H1 & _ & H3).
  simpl in H1, H3. rewrite H1, H3. split; [reflexivity |].
  intros E. rewrite E. reflexivity.
Qed.

Lemma usage_update_counts_first_match_only_witness :
  let s' :=
    fst (ALS._update_usage_count "What is HEA?"
           (ALS.set_pairs twice_learned ALS.fresh) sample_env) in
  ALS.learned_qa_pairs s'
  = (map VDict []
     ++ VDict (Py.set "last_used" (VStr (isoformat (clock sample_env)))
                 (Py.set "usage_count" (VInt (0 + 1))
                    [ ("question", VStr "What is HEA?");
                      ("question_hash", VStr (MD5.hexdigest "What is HEA?"));
                      ("usage_count", VInt 0) ]))
        :: [ VDict [ ("question", VStr "What is HEA?");
                     ("question_hash", VStr (MD5.hexdigest "What is HEA?"));
                     ("usage_count", VInt 0) ] ])%list
  /\ (disk_ok sample_env = true ->
      ALS.knowledge_file s' = Some (ALS.learned_qa_pairs s')).
Proof.
  apply (usage_update_counts_first_match_only "What is HEA?"
           (ALS.set_pairs twice_learned ALS.fresh) sample_env []
           [ ("question", VStr "What is HEA?");
             ("question_hash", VStr (MD5.hexdigest "What is HEA?"));
             ("usage_count", VInt 0) ]
           [ VDict [ ("question", VStr "What is HEA?");
                     ("question_hash", VStr (MD5.hexdigest "What is HEA?"));
                     ("usage_count", VInt 0) ] ] 0).
  - reflexivity.
  - reflexivity.
  - unfold ALS.hash_is, Py.get. simpl String.eqb. cbv iota. apply String.eqb_refl.
  - reflexivity.
Defined.

Lemma update_usage_frame (q : string) (s : ALS.t) (env : Env) :
  let s' := fst (ALS._update_usage_count q s env) in
  ALS.learned_collection s' = ALS.learned_collection s
  /\ List.length (ALS.learned_qa_pairs s') = List.length (ALS.learned_qa_pairs s).
Proof.
  unfold ALS._update_usage_count.
  destruct (ALS.bump_usage (MD5.hexdigest q) (ALS.learned_qa_pairs s) env)
    as [[l|] env1] eqn:E; simpl; [| auto].
  pose proof (save_fields (ALS.set_pairs l s) env1) as (H1 & H2 & _).
  simpl in H1, H2. rewrite H1, H2. split; [reflexivity |].
  eapply bump_usage_length; eauto.
Qed.

(** X11. [get_learned_answer] reads the index and never writes it, and
    never adds or removes an entry of the list; when it returns no answer
    the whole store is as it was. *)
Theorem answering_never_writes_the_index
  (query : Index.t -> string -> Z -> option ALS.QueryResult)
  (py_repr : value -> string)
  (q : string) (t : float) (s : ALS.t) (env : Env) :
  let result := fst (fst (ALS.get_learned_answer query py_repr q t s env)) in
  let s' := snd (fst (ALS.get_learned_answer query py_repr q t s env)) in
  ALS.learned_collection s' = ALS.learned_collection s
  /\ List.length (ALS.learned_qa_pairs s') = List.length (ALS.learned_qa_pairs s)
  /\ (result = None -> s' = s).
Proof.
  unfold ALS.get_learned_answer.
  destruct (ALS.search_learned_knowledge query q 1 t s env) as [[| best r] env1];
    simpl; [auto |].
  destruct (PrimFloat.leb t (ALS.confidence best)); simpl; [| auto].
  pose proof (update_usage_frame (ALS.question best) s env1) as (H1 & H2).
  destruct (ALS._update_usage_count (ALS.question best) s env1) as [s1 env2].
  simpl in *. repeat split; auto. discriminate.
Qed.

(** ** Restart *)

Lemma init_fields (s : ALS.t) (env : Env) :
  ALS.learned_qa_pairs (fst (ALS.__init__ s env))
  = match ALS.knowledge_file s with Some l => l | None => [] end
  /\ ALS.knowledge_file (fst (ALS.__init__ s env)) = ALS.knowledge_file s
  /\ ALS.learned_collection (fst (ALS.__init__ s env)) = ALS.learned_collection s.
Proof.
  destruct s as [l [k|] m ix]; unfold ALS.__init__, ALS.load_existing_knowledge;
    simpl; auto.
Qed.

(** X12. A new object made after a successful [ingest_qa_json] on a
    working disk finds the list the call left, and the index the call
    left: what was learned is there after a restart. *)
Theorem restart_finds_what_was_written
  (json : ALS.json_data) (s s1 : ALS.t) (env env1 env2 : Env) :
  ALS.ingest_qa_json json s env = (true, s1, env1) ->
  disk_ok env = true ->
  ALS.learned_qa_pairs (fst (ALS.__init__ s1 env2)) = ALS.learned_qa_pairs s1
  /\ ALS.learned_collection (fst (ALS.__init__ s1 env2)) = ALS.learned_collection s1.
Proof.
  intros Hi Hd. pose proof (init_fields s1 env2) as (H1 & _ & H3).
  rewrite H1, H3. split; [| reflexivity].
  destruct (ingest_spec json s env) as (vs & Hf & [(-> & env' & Hi' & _) |
    (Hne & es & s' & env' & Hes & Hids & Hi' & _ & Hl & Hk & Hc)]);
    rewrite Hi' in Hi; [discriminate |].
  injection Hi as <- <-. rewrite Hk, Hd, Hl. reflexivity.
Qed.

Lemma restart_finds_what_was_written_witness :
  ALS.learned_qa_pairs
    (fst (ALS.__init__
            (snd (fst (ALS.ingest_qa_json (ALS.JsonValue sample_record)
                         ALS.fresh sample_env)))
            sample_env))
  = ALS.learned_qa_pairs
      (snd (fst (ALS.ingest_qa_json (ALS.JsonValue sample_record)
                   ALS.fresh sample_env))).
Proof.
  destruct (ALS.ingest_qa_json (ALS.JsonValue sample_record) ALS.fresh sample_env)
    as [[ok s1] env1] eqn:E.
  assert (Hok : ok = true).
  { apply (f_equal (fun x => fst (fst x))) in E. vm_compute in E. now symmetry. }
  subst ok.
  exact (proj1 (restart_finds_what_was_written (ALS.JsonValue sample_record)
                  ALS.fresh s1 sample_env env1 sample_env E eq_refl)).
Defined.

(** ** Statistics stay computable *)

Lemma strs_total (l : list string) : Py.strs (map VStr l) = Some l.
Proof. apply strs_map_VStr. Qed.




Lemma fy_stats_total (pairs : list value) :
  forall counts,
    forallb countable pairs = true ->
    exists stats, ALS._get_fy_stats pairs counts = Some stats.
Proof.
  induction pairs as [| p r IH]; intros counts H; simpl.
  - eauto.
  - simpl in H. apply andb_true_iff in H. destruct H as [Hp Hr].
    unfold countable in Hp.
    destruct (ALS.labels "categories" (VList [VStr "general"]) p); [| discriminate].
    destruct (ALS.labels "fiscal_years" (VList []) p); [| discriminate].
    now apply IH.
Qed.




(** ** Clearing *)

Lemma delete_all (ix : Index.t) : Index.delete (Index.ids ix) ix = [].
Proof.
  unfold Index.delete, Index.ids.
  assert (H : forall l, incl ix l ->
              filter (fun e => negb (existsb (String.eqb (Index.id e))
                                       (map Index.id l))) ix = []).
  { induction ix as [| e r IH]; intros l Hl; simpl; [reflexivity |].
    assert (He : existsb (String.eqb (Index.id e)) (map Index.id l) = true).
    { apply existsb_exists. exists (Index.id e). split.
      - apply in_map, Hl. now left.
      - apply String.eqb_refl. }
    rewrite He. simpl. apply IH. intros x Hx. apply Hl. now right. }
  apply H, incl_refl.
Qed.

(** X14. [clear_learned_knowledge] reports success and leaves the store of
    a first start: the list and the index are empty and both files are
    gone; clearing a store that is already empty does the same. *)
Theorem clear_leaves_a_fresh_store (s : ALS.t) (env : Env) :
  fst (ALS.clear_learned_knowledge s env) = (true, ALS.fresh)
  /\ fst (ALS.clear_learned_knowledge
            (snd (fst (ALS.clear_learned_knowledge s env)))
            (snd (ALS.clear_learned_knowledge s env))) = (true, ALS.fresh)
  /\ ALS.learned_qa_pairs
       (fst (ALS.__init__ (snd (fst (ALS.clear_learned_knowledge s env))) env)) = [].
Proof.
  assert (H : forall s0 env0,
             fst (ALS.clear_learned_knowledge s0 env0) = (true, ALS.fresh)).
  { intros [l k m ix] env0. unfold ALS.clear_learned_knowledge. simpl.
    destruct (Index.ids ix) eqn:E.
    - destruct ix; [reflexivity | discriminate].
    - rewrite <- E. unfold ALS.set_collection, ALS.set_metadata_file,
        ALS.set_knowledge_file, ALS.set_pairs. simpl.
      now rewrite delete_all. }
  split; [apply H | split; [apply H |]].
  pose proof (H s env) as Hs.
  destruct (ALS.clear_learned_knowledge s env) as [[ok s1] env1].
  simpl in Hs. injection Hs as -> ->. reflexivity.
Qed.

(** ** Retention of the backup folder *)

Lemma filter_true {A : Type} (p : A -> bool) (l : list A) :
  (forall x, In x l -> p x = true) -> filter p l = l.
Proof.
  induction l as [| x r IH]; intros H; simpl; [reflexivity |].
  rewrite (H x (or_introl eq_refl)), IH; auto. intros y Hy. apply H. now right.
Qed.

Lemma filter_andb {A : Type} (p q : A -> bool) (l : list A) :
  filter p (filter q l) = filter (fun x => q x && p x) l.
Proof.
  induction l as [| x r IH]; simpl; [reflexivity |].
  destruct (q x); simpl; [destruct (p x) |]; now rewrite IH.
Qed.

Lemma names_filter_nodup (p : SDL.node -> bool) (folder : list SDL.node) :
  NoDup (names folder) -> NoDup (names (filter p folder)).
Proof.
  induction folder as [| n r IH]; simpl; auto. intros H.
  inversion H as [| x l Hn Hr]; subst.
  destruct (p n); [| auto]. simpl. constructor; auto.
  intros Hin. apply Hn. apply in_map_iff in Hin. destruct Hin as (y & Hy & Hin).
  apply in_map_iff. exists y. split; auto. apply filter_In in Hin. tauto.
Qed.

(** In a folder of distinct names a name is the name of one entry. *)
Lemma same_name_same_node (folder : list SDL.node) (a b : SDL.node) :
  NoDup (names folder) -> In a folder -> In b folder ->
  SDL.node_name a = SDL.node_name b -> a = b.
Proof.
  induction folder as [| n r IH]; intros Hnd Ha Hb Hab; [destruct Ha |].
  inversion Hnd as [| x l Hn Hr]; subst.
  destruct Ha as [<- | Ha]; destruct Hb as [<- | Hb]; auto.
  - exfalso. apply Hn. rewrite Hab. now apply in_map.
  - exfalso. apply Hn. rewrite <- Hab. now apply in_map.
Qed.

Lemma unlink_filter (name : string) (folder : list SDL.node) :
  NoDup (names folder) ->
  SDL.unlink name folder
  = filter (fun n => negb (String.eqb (SDL.node_name n) name)) folder.
Proof.
  induction folder as [| n r IH]; simpl; auto. intros H.
  inversion H as [| x l Hn Hr]; subst.
  destruct (String.eqb (SDL.node_name n) name) eqn:E; simpl.
  - apply String.eqb_eq in E. subst name. symmetry. apply filter_true.
    intros y Hy. apply negb_true_iff, String.eqb_neq. intros Hyn.
    apply Hn. rewrite <- Hyn. now apply in_map.
  - now rewrite IH.
Qed.

Lemma os_remove_unlink (x : SDL.node) (folder : list SDL.node) :
  NoDup (names folder) -> In x folder -> SDL.isfile x = true ->
  SDL.os_remove (SDL.node_name x) folder
  = Some (SDL.unlink (SDL.node_name x) folder).
Proof.
  induction folder as [| n r IH]; intros Hnd Hin Hf; [destruct Hin |].
  inversion Hnd as [| y l Hn Hr]; subst. simpl.
  destruct (String.eqb (SDL.node_name n) (SDL.node_name x)) eqn:E.
  - apply String.eqb_eq in E.
    assert (n = x)
      by (apply (same_name_same_node (n :: r)); [exact Hnd | now left | exact Hin | exact E]).
    subst n. now rewrite Hf.
  - destruct Hin as [-> | Hin]; [now rewrite String.eqb_refl in E |].
    now rewrite IH.
Qed.

(** The loop of [cleanup_old_backups] on entries of the folder itself: it
    ends without an exception and removes what is doomed. *)
Lemma cleanup_loop_exact (cutoff : Z) (found : list SDL.node) :
  forall folder env,
    NoDup (names folder) -> incl found folder -> NoDup (names found) ->
    fst (fst (SDL.cleanup_loop cutoff found folder env)) = Some tt
    /\ snd (fst (SDL.cleanup_loop cutoff found folder env))
       = filter (fun n => negb (doomed cutoff found n)) folder.
Proof.
  induction found as [| x r IH]; intros folder env Hnd Hincl Hfound.
  - simpl. split; [reflexivity |]. symmetry. apply filter_true.
    intros n _. unfold doomed. simpl. now rewrite andb_false_r.
  - assert (Hx : In x folder) by (apply Hincl; now left).
    assert (Hr : incl r folder) by (intros y Hy; apply Hincl; now right).
    inversion Hfound as [| y l Hxr Hfr]; subst.
    assert (Hstep : forall n, In n folder ->
              doomed cutoff (x :: r) n
              = (String.eqb (SDL.node_name n) (SDL.node_name x)
                 && SDL.isfile x && (SDL.getmtime x <? cutoff))
                || doomed cutoff r n).
    { intros n Hn. unfold doomed. simpl.
      destruct (String.eqb (SDL.node_name n) (SDL.node_name x)) eqn:E; simpl.
      - apply String.eqb_eq in E.
        assert (n = x)
          by (apply (same_name_same_node folder); [exact Hnd | exact Hn | exact Hx | exact E]).
        subst n.
        destruct (SDL.isfile x), (SDL.getmtime x <? cutoff); simpl; auto.
      - reflexivity. }
    cbn [SDL.cleanup_loop].
    destruct (SDL.isfile x) eqn:Hf;
      [destruct (SDL.getmtime x <? cutoff) eqn:Hold |].
    + rewrite (os_remove_unlink x folder Hnd Hx Hf). cbv beta iota.
      assert (Hnd' : NoDup (names (SDL.unlink (SDL.node_name x) folder)))
        by now apply unlink_nodup.
      assert (Hr' : incl r (SDL.unlink (SDL.node_name x) folder)).
      { intros y Hy. apply unlink_keeps; [now apply Hr |].
        intros Hyx. apply Hxr. rewrite <- Hyx. now apply in_map. }
      destruct (IH (SDL.unlink (SDL.node_name x) folder)
                  (logger (LogInfo ("Removed old backup: " ++ SDL.node_name x)) env)
                  Hnd' Hr' Hfr) as [H1 H2].
      split; [exact H1 |]. rewrite H2, (unlink_filter _ _ Hnd), filter_andb.
      apply filter_ext_in. intros n Hn. rewrite (Hstep n Hn).
      rewrite !andb_true_r, negb_orb. reflexivity.
    + destruct (IH folder env Hnd Hr Hfr) as [H1 H2].
      split; [exact H1 |]. rewrite H2.
      apply filter_ext_in. intros n Hn. rewrite (Hstep n Hn).
      now rewrite andb_false_r.
    + destruct (IH folder env Hnd Hr Hfr) as [H1 H2].
      split; [exact H1 |]. rewrite H2.
      apply filter_ext_in. intros n Hn. rewrite (Hstep n Hn).
      now rewrite andb_false_r.
Qed.

Lemma endswith_empty (s : string) : PyStr.endswith "" s = true.
Proof. reflexivity. Qed.

Lemma glob_all (folder : list SDL.node) : SDL.glob "" folder = filter visible folder.
Proof. unfold SDL.glob. apply filter_ext. intros n. reflexivity. Qed.

Lemma cleanup_folder (days : Z) (s : SDL.t) (env : Env) :
  NoDup (names (SDL.backup_folder s)) ->
  SDL.backup_folder (fst (SDL.cleanup_old_backups days s env))
  = filter (fun n => negb (expired (clock env - days * SDL.seconds_per_day) n))
      (SDL.backup_folder s).
Proof.
  intros Hnd. unfold SDL.cleanup_old_backups, datetime_now.
  set (cutoff := clock env - days * SDL.seconds_per_day).
  set (env1 := mkEnv (clock env + 1) (log env) (disk_ok env)).
  rewrite glob_all.
  destruct (cleanup_loop_exact cutoff (filter visible (SDL.backup_folder s))
              (SDL.backup_folder s) env1 Hnd) as [H1 H2].
  { intros n Hn. apply filter_In in Hn. tauto. }
  { now apply names_filter_nodup. }
  destruct (SDL.cleanup_loop cutoff (filter visible (SDL.backup_folder s))
              (SDL.backup_folder s) env1) as [[r folder] env2].
  simpl in H1, H2. subst r. simpl. rewrite H2.
  apply filter_ext_in. intros n Hn. f_equal. unfold doomed, expired.
  assert (Hv : existsb (String.eqb (SDL.node_name n))
                 (names (filter visible (SDL.backup_folder s))) = visible n).
  { destruct (visible n) eqn:V.
    - apply existsb_exists. exists (SDL.node_name n). split.
      + apply in_map, filter_In. auto.
      + apply String.eqb_refl.
    - apply not_true_is_false. intros Hex. apply existsb_exists in Hex.
      destruct Hex as (k & Hk & Hek). apply String.eqb_eq in Hek. subst k.
      apply in_map_iff in Hk. destruct Hk as (y & Hy & Hin).
      apply filter_In in Hin. destruct Hin as [_ Vy].
      unfold visible in *. rewrite Hy in Vy. congruence. }
  rewrite Hv. destruct (SDL.isfile n), (visible n), (SDL.getmtime n <? cutoff);
    reflexivity.
Qed.



(** ** The weekly backup *)

Lemma write_file_spec (name : string) (now : Z) (c : SDL.content)
  (folder : list SDL.node) :
  no_dir_called name folder = true ->
  exists folder',
    SDL.write_file name now c folder = Some folder'
    /\ In (SDL.File name now c) folder'
    /\ (NoDup (names folder) -> NoDup (names folder'))
    /\ (forall n, In n folder -> SDL.node_name n <> name -> In n folder')
    /\ (forall n, In n folder' -> n = SDL.File name now c \/ In n folder).
Proof.
  unfold no_dir_called. induction folder as [| n r IH]; simpl; intros H.
  - eexists. split; [reflexivity |]. repeat split.
    + now left.
    + intros _. simpl. constructor; [intros [] | constructor].
    + intros n [].
    + intros n [<- | []]. now left.
  - destruct (String.eqb (SDL.node_name n) name) eqn:E.
    + rewrite H. eexists. split; [reflexivity |]. apply String.eqb_eq in E.
      repeat split.
      * now left.
      * simpl. now rewrite E.
      * intros m [<- | Hm] Hne; [contradiction | now right].
      * intros m [<- | Hm]; [now left | right; now right].
    + destruct (IH H) as (r' & Hw & Hin & Hnd & Hk & Hb). rewrite Hw.
      eexists. split; [reflexivity |]. repeat split.
      * now right.
      * intros Hn. inversion Hn as [| y l Hy Hl]; subst. simpl.
        constructor; [| auto]. intros Hin'.
        apply in_map_iff in Hin'. destruct Hin' as (m & Hm & Hmr).
        destruct (Hb m Hmr) as [-> | Hm'].
        -- simpl in Hm. subst name. now rewrite String.eqb_refl in E.
        -- apply Hy. rewrite <- Hm. now apply in_map.
      * intros m [<- | Hm] Hne; [now left | right; auto].
      * intros m [<- | Hm]; [right; now left |].
        destruct (Hb m Hm); [now left | right; now right].
Qed.

(** X16. [weekly_backup_job] with a learning system whose export works and
    a working disk writes the export of the whole list into the backup
    folder and then cleans the folder with a retention of 30 days: the
    export just written is in the folder after the job, and what else the
    folder holds is what was there and has not expired. *)
Theorem weekly_backup_keeps_the_new_export
  (s : SDL.t) (ls : ALS.t) (cats : dict) (env : Env) :
  SDL.learning_system s = Some ls ->
  ALS._get_category_stats (ALS.learned_qa_pairs ls) [] = Some cats ->
  disk_ok env = true ->
  NoDup (names (SDL.backup_folder s)) ->
  no_dir_called (export_name (clock env + 1)) (SDL.backup_folder s) = true ->
  let folder' := SDL.backup_folder (fst (SDL.weekly_backup_job s env)) in
  let export :=
    SDL.File (export_name (clock env + 1)) (clock env + 2)
      (SDL.Document (export_document ls cats (clock env))) in
  In export folder'
  /\ (forall n, In n folder' -> n = export \/ In n (SDL.backup_folder s))
  /\ (forall n, In n (SDL.backup_folder s) ->
                SDL.node_name n <> export_name (clock env + 1) ->
                (In n folder' <->
                 expired (clock env + 2 - 30 * SDL.seconds_per_day) n = false)).
Proof.
  intros Hls Hcats Hdisk Hnd Hdir folder' export.
  destruct (write_file_spec (export_name (clock env + 1)) (clock env + 2)
              (SDL.Document (export_document ls cats (clock env)))
              (SDL.backup_folder s) Hdir) as (folder1 & Hw & Hin & Hnd1 & Hk & Hb).
  assert (Hjob : SDL.backup_knowledge s
                   (logger (LogInfo "Starting weekly backup job...") env)
                 = (Some (SDL.set_backup_folder folder1 s),
                    logger (LogInfo ("Learned knowledge backed up to "
                                     ++ export_name (clock env + 1)))
                      (mkEnv (clock env + 2)
                         (LogInfo "Starting weekly backup job..." :: log env)
                         (disk_ok env)))).
  { unfold SDL.backup_knowledge, ALS.export_learned_knowledge, datetime_now.
    rewrite Hls. cbn [clock log disk_ok logger].
    rewrite String.eqb_refl, Hcats. cbn [clock log disk_ok logger].
    rewrite Hdisk. replace (clock env + 1 + 1) with (clock env + 2) by lia.
    fold (export_name (clock env + 1)). fold (export_document ls cats (clock env)).
    rewrite Hw. reflexivity. }
  assert (Hf : folder'
               = filter (fun n => negb (expired (clock env + 2 - 30 * SDL.seconds_per_day) n))
                   folder1).
  { unfold folder', SDL.weekly_backup_job. rewrite Hjob.
    rewrite cleanup_folder; [reflexivity | simpl; auto]. }
  assert (Hnew : expired (clock env + 2 - 30 * SDL.seconds_per_day) export = false).
  { unfold expired, export. cbn [SDL.getmtime].
    replace (clock env + 2 <? clock env + 2 - 30 * SDL.seconds_per_day) with false;
      [apply andb_false_r |].
    symmetry. apply Z.ltb_ge. unfold SDL.seconds_per_day. lia. }
  rewrite Hf. repeat split.
  - apply filter_In. split; [exact Hin | now rewrite Hnew].
  - intros n Hn. apply filter_In in Hn. destruct Hn as [Hn _]. now apply Hb.
  - intros Hn. apply filter_In in Hn. destruct Hn as [_ Hn].
    now apply negb_true_iff in Hn.
  - intros He. apply filter_In. split; [now apply Hk | now rewrite He].
Qed.

Lemma weekly_backup_keeps_the_new_export_witness :
  names (SDL.backup_folder
           (fst (SDL.weekly_backup_job weekly_sample (mkEnv (1000 * 86400) [] true))))
  = ["learned_knowledge_backup_2.json"; "learned_knowledge_backup_86400001.json"]
  /\ In (SDL.File (export_name (1000 * 86400 + 1)) (1000 * 86400 + 2)
           (SDL.Document
              (export_document
                 (ALS.mk [VDict [("question", VStr "What is HEA?");
                                 ("categories", VList [VStr "human_error"])]]
                    None None [])
                 [("human_error", VInt 1)] (1000 * 86400))))
        (SDL.backup_folder
           (fst (SDL.weekly_backup_job weekly_sample (mkEnv (1000 * 86400) [] true)))).
Proof.
  split; [vm_compute; reflexivity |].
  assert (Hn : NoDup (names (SDL.backup_folder weekly_sample)))
    by (repeat constructor; simpl; intuition discriminate).
  assert (Hd : no_dir_called (export_name (clock (mkEnv (1000 * 86400) [] true) + 1))
                 (SDL.backup_folder weekly_sample) = true)
    by (vm_compute; reflexivity).
  exact (proj1 (weekly_backup_keeps_the_new_export weekly_sample
                  (ALS.mk [VDict [("question", VStr "What is HEA?");
                                  ("categories", VList [VStr "human_error"])]]
                     None None [])
                  [("human_error", VInt 1)] (mkEnv (1000 * 86400) [] true)
                  eq_refl eq_refl eq_refl Hn Hd)).
Defined.



(** ** The files the daily job finds *)

Lemma perm_filter_or {A : Type} (p q : A -> bool) (l : list A) :
  (forall x, p x = true -> q x = false) ->
  Permutation (filter p l ++ filter q l) (filter (fun x => p x || q x) l).
Proof.
  intros H. induction l as [| x r IH]; simpl; [constructor |].
  destruct (p x) eqn:Hp; simpl.
  - rewrite (H x Hp). now constructor.
  - destruct (q x); [| exact IH].
    eapply perm_trans; [apply Permutation_sym, Permutation_middle |].
    now constructor.
Qed.

(** No name ends in two of the three suffixes. *)
Lemma suffixes_apart (n : string) :
  (PyStr.endswith ".xlsx" n = true -> PyStr.endswith ".xls" n = false)
  /\ (PyStr.endswith ".xlsx" n = true -> PyStr.endswith ".xlsm" n = false)
  /\ (PyStr.endswith ".xls" n = true -> PyStr.endswith ".xlsm" n = false).
Proof.
  unfold PyStr.endswith. cbn [PyStr.rev_str].
  destruct (PyStr.rev_str "" n) as [| c r]; cbn [PyStr.startswith]; [auto |].
  repeat split; intros H; apply andb_true_iff in H; destruct H as [H _];
    apply Ascii.eqb_eq in H; subst c; reflexivity.
Qed.

Lemma found_files (s : SDL.t) (env : Env) :
  exists found,
    fst (SDL.find_excel_files s env) = map SDL.node_name found
    /\ Permutation found (filter spreadsheet_entry (SDL.excel_folder s))
    /\ StronglySorted newer_or_same found.
Proof.
  unfold SDL.find_excel_files. cbn [fst].
  set (all := (SDL.glob ".xlsx" (SDL.excel_folder s)
               ++ SDL.glob ".xls" (SDL.excel_folder s)
               ++ SDL.glob ".xlsm" (SDL.excel_folder s))%list).
  exists (PyList.sort_desc SDL.mtime_lt all). split; [reflexivity |]. split.
  - eapply perm_trans; [apply sort_desc_perm |]. unfold all, SDL.glob.
    set (v := fun n => negb (PyStr.startswith "." (SDL.node_name n))).
    set (p1 := fun n => PyStr.endswith ".xlsx" (SDL.node_name n) && v n).
    set (p2 := fun n => PyStr.endswith ".xls" (SDL.node_name n) && v n).
    set (p3 := fun n => PyStr.endswith ".xlsm" (SDL.node_name n) && v n).
    eapply perm_trans.
    { apply Permutation_app_head. apply (perm_filter_or p2 p3).
      intros x Hx. unfold p2, p3 in *. apply andb_true_iff in Hx.
      destruct Hx as [Hx _].
      destruct (suffixes_apart (SDL.node_name x)) as (_ & _ & H).
      now rewrite (H Hx). }
    eapply perm_trans.
    { apply (perm_filter_or p1 (fun x => p2 x || p3 x)).
      intros x Hx. unfold p1, p2, p3 in *. apply andb_true_iff in Hx.
      destruct Hx as [Hx _].
      destruct (suffixes_apart (SDL.node_name x)) as (H1 & H2 & _).
      now rewrite (H1 Hx), (H2 Hx). }
    erewrite filter_ext; [apply Permutation_refl |].
    intros n. unfold p1, p2, p3, spreadsheet_entry, excel_name, visible, v.
    destruct (PyStr.endswith ".xlsx" (SDL.node_name n)),
             (PyStr.endswith ".xls" (SDL.node_name n)),
             (PyStr.endswith ".xlsm" (SDL.node_name n)),
             (PyStr.startswith "." (SDL.node_name n)); reflexivity.
  - apply (sort_desc_sorted SDL.mtime_lt (fun _ => True) newer_or_same).
    + intros a b _ _ H. unfold SDL.mtime_lt in H. apply Z.ltb_ge in H. exact H.
    + intros a b _ _ H. unfold SDL.mtime_lt in H. apply Z.ltb_lt in H.
      unfold newer_or_same. lia.
    + intros a b c H1 H2. unfold newer_or_same in *. lia.
    + apply Forall_forall. auto.
Qed.

(** X18. [find_excel_files] returns the names of exactly the entries of the
    inbox whose name ends in .xlsx, .xls or .xlsm and does not start with
    a dot, each entry once, the most recently modified first. *)
Theorem excel_files_found_newest_first (s : SDL.t) (env : Env) :
  exists found,
    fst (SDL.find_excel_files s env) = map SDL.node_name found
    /\ Permutation found (filter spreadsheet_entry (SDL.excel_folder s))
    /\ StronglySorted newer_or_same found.
Proof. apply found_files. Qed.

(** X19. With no such spreadsheet in the inbox [daily_data_load_job] warns
    and returns at once: the loader is as it was, so no snapshot is made,
    the store is not touched, and the interactions that wait are not
    learned by this job. *)
Theorem daily_job_without_files_changes_nothing (s : SDL.t) (env : Env) :
  filter spreadsheet_entry (SDL.excel_folder s) = [] ->
  fst (SDL.daily_data_load_job s env) = s
  /\ exists rest,
       log (snd (SDL.daily_data_load_job s env))
       = LogWarning "No Excel files found for loading" :: rest
       /\ marks rest = marks (log env).
Proof.
  intros Hnone. rewrite daily_job_unfold.
  destruct (found_files s (job_start env)) as (found & Hf & Hp & _).
  rewrite Hnone in Hp. apply Permutation_sym, Permutation_nil in Hp. subst found.
  pose proof (find_excel_files_quiet s (job_start env)) as Hq.
  destruct (SDL.find_excel_files s (job_start env)) as [files env0].
  simpl in Hf, Hq. subst files. simpl. split; [reflexivity |].
  exists (log env0). split; [reflexivity |].
  apply quiet_marks. eapply quiet_trans; [apply job_start_quiet | exact Hq].
Qed.

Lemma daily_job_without_files_changes_nothing_witness :
  fst (SDL.daily_data_load_job idle_inbox sample_env) = idle_inbox
  /\ exists rest,
       log (snd (SDL.daily_data_load_job idle_inbox sample_env))
       = LogWarning "No Excel files found for loading" :: rest
       /\ marks rest = marks (log sample_env).
Proof.
  apply (daily_job_without_files_changes_nothing idle_inbox sample_env).
  reflexivity.
Defined.

(** ** What a loaded row is stored as *)

Lemma lookup_upsert_same (e : Index.entry) (ix : Index.t) :
  Index.lookup (Index.id e) (Index.upsert e ix) = Some e.
Proof.
  induction ix as [| x r IH]; simpl.
  - now rewrite String.eqb_refl.
  - destruct (String.eqb (Index.id e) (Index.id x)) eqn:E; simpl.
    + now rewrite String.eqb_refl.
    + now rewrite E.
Qed.

Lemma lookup_upsert_other (i : string) (e : Index.entry) (ix : Index.t) :
  i <> Index.id e -> Index.lookup i (Index.upsert e ix) = Index.lookup i ix.
Proof.
  intros Hne. apply String.eqb_neq in Hne.
  induction ix as [| x r IH]; simpl.
  - now rewrite Hne.
  - destruct (String.eqb (Index.id e) (Index.id x)) eqn:E; simpl.
    + apply String.eqb_eq in E. rewrite <- E. now rewrite Hne.
    + now rewrite IH.
Qed.

Lemma lookup_add_other (i : string) (es : list Index.entry) :
  forall ix, ~ In i (map Index.id es) ->
             Index.lookup i (Index.add es ix) = Index.lookup i ix.
Proof.
  unfold Index.add. induction es as [| e r IH]; intros ix Hn; simpl; [reflexivity |].
  rewrite IH by (intros H; apply Hn; now right).
  apply lookup_upsert_other. intros H. apply Hn. now left.
Qed.

(** With distinct identifiers every entry written is the one a lookup of
    its identifier finds. *)
Lemma lookup_add (es : list Index.entry) :
  forall ix e, NoDup (map Index.id es) -> In e es ->
               Index.lookup (Index.id e) (Index.add es ix) = Some e.
Proof.
  induction es as [| a r IH]; intros ix e Hnd Hin; [destruct Hin |].
  inversion Hnd as [| x l Ha Hr]; subst.
  change (Index.add (a :: r) ix) with (Index.add r (Index.upsert a ix)).
  destruct Hin as [-> | Hin].
  - rewrite lookup_add_other by exact Ha. apply lookup_upsert_same.
  - now apply IH.
Qed.

Lemma add_app (es1 es2 : list Index.entry) (ix : Index.t) :
  Index.add (es1 ++ es2) ix = Index.add es2 (Index.add es1 ix).
Proof. unfold Index.add. apply fold_left_app. Qed.

Lemma add_batches_index (bs : list (list Index.entry)) :
  forall batch_no total ix env,
    snd (fst (SDL.add_batches bs batch_no total ix env))
    = Index.add (List.concat bs) ix.
Proof.
  induction bs as [| b r IH]; intros batch_no total ix env; simpl; [reflexivity |].
  now rewrite IH, add_app.
Qed.

Lemma row_entries_in (f : string) (cols : list string)
  (rs : list (Z * list (option string))) (idx : Z) (cells : list (option string)) :
  forall env,
    In (idx, cells) rs ->
    exists now,
      In (Index.mkEntry (SDL.row_id f idx) (SDL.doc_text cols cells)
            (SDL.row_metadata f now cols cells))
         (fst (SDL.row_entries f cols rs env)).
Proof.
  induction rs as [| [i c] r IH]; intros env Hin; [destruct Hin |].
  simpl. unfold datetime_now.
  match goal with |- context [SDL.row_entries f cols r ?e] =>
    specialize (IH e); destruct (SDL.row_entries f cols r e) as [es env']
  end.
  simpl in *. destruct Hin as [Heq | Hin].
  - injection Heq as -> ->. exists (clock env). now left.
  - destruct (IH Hin) as (now & Hn). exists now. now right.
Qed.

Lemma row_id_same_file (f : string) (i i' : Z) :
  SDL.row_id f i = SDL.row_id f i' -> i = i'.
Proof.
  unfold SDL.row_id. intros H. apply (append_inv_head "excel_") in H.
  apply split_last_underscore in H; try apply no_underscore_of_Z.
  destruct H as [_ H]. now apply of_Z_inj.
Qed.

Lemma row_ids_nodup (f : string) (rs : list (Z * list (option string))) :
  NoDup (map fst rs) -> NoDup (map (fun r => SDL.row_id f (fst r)) rs).
Proof.
  induction rs as [| r rs IH]; simpl; intros H; [constructor |].
  inversion H as [| x l Hn Hr]; subst. constructor; [| auto].
  intros Hin. apply Hn. apply in_map_iff in Hin. destruct Hin as (y & Hy & Hin).
  apply row_id_same_file in Hy. rewrite <- Hy. now apply in_map.
Qed.

(** X20. After [load_excel_to_chroma] on a readable sheet whose row labels
    are distinct, the store holds for every row of the sheet, under the
    identifier of the row, the text of its cells that are not empty and a
    metadata record whose [source] is "excel_import" and whose [file_name]
    is the name of the file, whatever columns the sheet has: a column
    called Source or File Name does not reach these two fields. *)
Theorem loaded_row_carries_its_provenance
  (f : string) (df : SDL.DataFrame) (s : SDL.t) (env : Env)
  (idx : Z) (cells : list (option string)) :
  SDL.read_excel f s = Some df ->
  NoDup (map fst (SDL.rows df)) ->
  In (idx, cells) (SDL.rows df) ->
  exists c e now,
    SDL.chroma_path (snd (fst (SDL.load_excel_to_chroma f s env))) = Some c
    /\ Index.lookup (SDL.row_id f idx) (SDL.collection c) = Some e
    /\ Index.document e = SDL.doc_text (SDL.columns df) cells
    /\ Index.metadata e = SDL.row_metadata f now (SDL.columns df) cells
    /\ Py.get "source" (Index.metadata e) = Some (VStr "excel_import")
    /\ Py.get "file_name" (Index.metadata e) = Some (VStr f)
    /\ Py.get "loaded_timestamp" (Index.metadata e) = Some (VStr (isoformat now)).
Proof.
  intros Hr Hnd Hin. unfold SDL.load_excel_to_chroma. rewrite Hr.
  set (env1 := logger _ (logger _ env)).
  destruct (row_entries_spec f (SDL.columns df) (SDL.rows df) env1) as [Hids _].
  destruct (row_entries_in f (SDL.columns df) (SDL.rows df) idx cells env1 Hin)
    as (now & Hen).
  destruct (SDL.row_entries f (SDL.columns df) (SDL.rows df) env1) as [es env2].
  simpl in Hids, Hen.
  set (c0 := match SDL.chroma_path s with Some c => c | None => _ end).
  pose proof (add_batches_index (PyList.batches (List.length es) SDL.batch_size es)
                1 0 (SDL.collection c0) env2) as Hix.
  destruct (SDL.add_batches _ 1 0 (SDL.collection c0) env2) as [[total ix] env3].
  simpl in Hix. rewrite batches_concat in Hix by (unfold SDL.batch_size; lia).
  exists (SDL.mkChroma (SDL.chroma_mtime c0) ix),
         (Index.mkEntry (SDL.row_id f idx) (SDL.doc_text (SDL.columns df) cells)
            (SDL.row_metadata f now (SDL.columns df) cells)), now.
  cbn [fst snd SDL.chroma_path SDL.set_chroma_path].
  split; [reflexivity |]. cbn [SDL.collection]. rewrite Hix. split.
  - assert (Hes : NoDup (map Index.id es))
      by (rewrite Hids; now apply row_ids_nodup).
    exact (lookup_add es (SDL.collection c0) _ Hes Hen).
  - cbn [Index.document Index.metadata]. unfold SDL.row_metadata.
    repeat split; dict_simpl; reflexivity.
Qed.

Lemma loaded_row_carries_its_provenance_witness :
  exists c e now,
    SDL.chroma_path
      (snd (fst (SDL.load_excel_to_chroma "p.xlsx" source_inbox sample_env))) = Some c
    /\ Index.lookup (SDL.row_id "p.xlsx" 0) (SDL.collection c) = Some e
    /\ Index.document e
       = SDL.doc_text (SDL.columns sheet_with_source)
           [Some "PRB1"; Some "service desk"; None]
    /\ Index.metadata e
       = SDL.row_metadata "p.xlsx" now (SDL.columns sheet_with_source)
           [Some "PRB1"; Some "service desk"; None]
    /\ Py.get "source" (Index.metadata e) = Some (VStr "excel_import")
    /\ Py.get "file_name" (Index.metadata e) = Some (VStr "p.xlsx")
    /\ Py.get "loaded_timestamp" (Index.metadata e) = Some (VStr (isoformat now)).
Proof.
  apply (loaded_row_carries_its_provenance "p.xlsx" sheet_with_source source_inbox
           sample_env 0 [Some "PRB1"; Some "service desk"; None]).
  - reflexivity.
  - repeat constructor; simpl; intuition discriminate.
  - left. reflexivity.
Defined.

(** ** The batches of a load *)

Lemma batches_sizes {A : Type} (n : nat) (fuel : nat) :
  forall l : list A, (0 < n)%nat ->
    Forall (fun b => (0 < List.length b <= n)%nat) (PyList.batches fuel n l).
Proof.
  induction fuel as [| k IH]; intros l Hn; [constructor |].
  destruct l as [| x r]; [constructor |].
  change (PyList.batches (S k) n (x :: r))
    with (firstn n (x :: r) :: PyList.batches k n (skipn n (x :: r))).
  constructor; [| now apply IH].
  rewrite length_firstn. cbn [List.length]. lia.
Qed.

(** X21. The loop of [load_excel_to_chroma] over
    [range(0, len(documents), batch_size)] submits every entry once and in
    order, in batches that are never empty and never longer than the batch
    size. *)
Theorem batches_cover_the_entries {A : Type} (n : nat) (l : list A) :
  (0 < n)%nat ->
  List.concat (PyList.batches (List.length l) n l) = l
  /\ Forall (fun b => (0 < List.length b <= n)%nat)
       (PyList.batches (List.length l) n l).
Proof.
  intros Hn. split; [apply batches_concat; auto | now apply batches_sizes].
Qed.

Lemma batches_cover_the_entries_witness :
  List.concat (PyList.batches (List.length [1; 2; 3; 4; 5]) 2 [1; 2; 3; 4; 5])
  = [1; 2; 3; 4; 5]
  /\ Forall (fun b => (0 < List.length b <= 2)%nat)
       (PyList.batches (List.length [1; 2; 3; 4; 5]) 2 [1; 2; 3; 4; 5]).
Proof.
  apply (batches_cover_the_entries 2 [1; 2; 3; 4; 5]). lia.
Defined.

(** ** From a captured exchange to a learned entry *)

Lemma capture_fields (q r : string) (md : dict) (s : SDL.t) (env : Env) :
  let s1 := fst (SDL.capture_chat_interaction q r md s env) in
  SDL.chat_interactions s1
  = (SDL.chat_interactions s ++ [captured (clock env) q r md])%list
  /\ SDL.learning_system s1 = SDL.learning_system s
  /\ SDL.excel_folder s1 = SDL.excel_folder s
  /\ SDL.backup_folder s1 = SDL.backup_folder s
  /\ SDL.chroma_path s1 = SDL.chroma_path s
  /\ (disk_ok env = true ->
      SDL.interaction_file s1 = Some (SDL.chat_interactions s1)).
Proof.
  unfold SDL.capture_chat_interaction, SDL.save_chat_interactions, datetime_now,
    captured.
  cbn [disk_ok]. destruct (disk_ok env); cbn; repeat split; auto; discriminate.
Qed.

Lemma learn_all_prefix (pre rest : list SDL.Interaction) (ls : ALS.t) (env : Env) :
  forallb SDL.processed pre = true ->
  learn_all (pre ++ rest) ls env
  = let '(rest', ls', env') := learn_all rest ls env in
    ((pre ++ rest')%list, ls', env').
Proof.
  intros H. induction pre as [| x pre IH]; simpl.
  - destruct (learn_all rest ls env) as [[rest' ls'] env']. reflexivity.
  - simpl in H. apply andb_true_iff in H. destruct H as [Hx Hpre].
    rewrite Hx, (IH Hpre).
    destruct (learn_all rest ls env) as [[rest' ls'] env']. reflexivity.
Qed.

(** The ingestion of the record of one exchange whose texts are long
    enough: one entry is appended, with the two texts and the provenance
    of the chat. *)
Lemma ingest_exchange (x : SDL.Interaction) (ls : ALS.t) (env : Env) :
  5 <= PyStr.len (PyStr.strip (SDL.user_query x)) ->
  10 <= PyStr.len (PyStr.strip (SDL.bot_response x)) ->
  exists e ls' env',
    ALS.ingest_qa_json (ALS.JsonValue (SDL.qa_pair_of x)) ls env = (true, ls', env')
    /\ ALS.learned_qa_pairs ls' = (ALS.learned_qa_pairs ls ++ [VDict e])%list
    /\ Py.get "question" e = Some (VStr (SDL.user_query x))
    /\ Py.get "answer" e = Some (VStr (SDL.bot_response x))
    /\ Py.get "source" e = Some (VStr "chat_interaction").
Proof.
  intros H5 H10.
  set (d := [ ("question", VStr (SDL.user_query x));
              ("answer", VStr (SDL.bot_response x));
              ("source", VStr "chat_interaction");
              ("timestamp", VStr (SDL.timestamp x));
              ("metadata", VDict (SDL.metadata x)) ]).
  assert (Hc : carries (ALS.JsonValue (SDL.qa_pair_of x)) [VDict d])
    by (apply carries_single; reflexivity).
  assert (Hv : validated (ALS.JsonValue (SDL.qa_pair_of x)) = [VDict d]).
  { rewrite (carries_validated _ _ Hc). cbn [filter].
    assert (Ha : acceptable (VDict d) = true).
    { unfold acceptable, text_field, long_enough, d. cbn [Py.get String.eqb].
      simpl. apply andb_true_iff. split; apply Z.leb_le; assumption. }
    now rewrite Ha. }
  destruct (ingest_spec (ALS.JsonValue (SDL.qa_pair_of x)) ls env)
    as (vs & Hen & Hcase).
  rewrite Hv in Hen.
  inversion Hen as [| rec e recs vs' [now He] Hnil]; subst.
  inversion Hnil; subst.
  destruct Hcase as [(Habs & _) | (_ & es & ls' & env' & _ & _ & Hi & _ & Hl & _)];
    [discriminate |].
  destruct He as (d' & q' & a' & Hd & _ & _ & He). injection Hd as <-.
  destruct (enrich_fields d e _ He) as (Hk & _ & _ & Hs).
  exists e, ls', env'. split; [exact Hi |]. split; [exact Hl |].
  assert (Hq : ~ In "question" enriched_keys)
    by (unfold enriched_keys; simpl; intuition discriminate).
  assert (Ha : ~ In "answer" enriched_keys)
    by (unfold enriched_keys; simpl; intuition discriminate).
  rewrite (Hk _ Hq), (Hk _ Ha), Hs. repeat split.
Qed.

(** X22. An exchange captured by [capture_chat_interaction] whose question
    and response have at least 5 and 10 characters (white space around
    them not counted) is learned by the next run of
    [process_chat_interactions], when no other interaction waits: the
    knowledge list grows by one entry with the question, the response as
    its answer and the source "chat_interaction", and the interaction is
    marked processed in its place, the last of the list. *)
Theorem captured_exchange_is_learned
  (q r : string) (md : dict) (s : SDL.t) (ls : ALS.t) (env env1 : Env) :
  SDL.learning_system s = Some ls ->
  forallb SDL.processed (SDL.chat_interactions s) = true ->
  5 <= PyStr.len (PyStr.strip q) ->
  10 <= PyStr.len (PyStr.strip r) ->
  let s1 := fst (SDL.capture_chat_interaction q r md s env) in
  let s2 := fst (SDL.process_chat_interactions s1 env1) in
  exists e ls2 now,
    SDL.learning_system s2 = Some ls2
    /\ ALS.learned_qa_pairs ls2 = (ALS.learned_qa_pairs ls ++ [VDict e])%list
    /\ Py.get "question" e = Some (VStr q)
    /\ Py.get "answer" e = Some (VStr r)
    /\ Py.get "source" e = Some (VStr "chat_interaction")
    /\ SDL.chat_interactions s2
       = (SDL.chat_interactions s
          ++ [SDL.mark (captured (clock env) q r md) now])%list.
Proof.
  intros Hls Hall H5 H10 s1 s2.
  destruct (capture_fields q r md s env) as (Hchat & Hls1 & _).
  fold s1 in Hchat, Hls1. rewrite Hls in Hls1.
  destruct (process_spec s1 ls env1 Hls1) as (env0 & chat' & ls' & env' & Hla & Hc & Hl).
  fold s2 in Hc, Hl.
  rewrite Hchat, (learn_all_prefix _ _ _ _ Hall) in Hla.
  destruct (ingest_exchange (captured (clock env) q r md) ls env0 H5 H10)
    as (e & ls2 & env2 & Hi & Hlist & Hq & Ha & Hs).
  cbn [learn_all] in Hla. cbn [SDL.processed captured] in Hla.
  fold (captured (clock env) q r md) in Hla. rewrite Hi in Hla.
  unfold datetime_now in Hla. cbn in Hla. injection Hla as <- <- _.
  exists e, ls2, (clock env2). rewrite Hl, Hc. repeat split; auto.
Qed.

Lemma captured_exchange_is_learned_witness :
  exists e ls2 now,
    SDL.learning_system
      (fst (SDL.process_chat_interactions
              (fst (SDL.capture_chat_interaction "  What is HEA?  "
                      "Human error avoidance." [] chat_sample sample_env))
              sample_env)) = Some ls2
    /\ ALS.learned_qa_pairs ls2 = (ALS.learned_qa_pairs ALS.fresh ++ [VDict e])%list
    /\ Py.get "question" e = Some (VStr "  What is HEA?  ")
    /\ Py.get "answer" e = Some (VStr "Human error avoidance.")
    /\ Py.get "source" e = Some (VStr "chat_interaction")
    /\ SDL.chat_interactions
         (fst (SDL.process_chat_interactions
                 (fst (SDL.capture_chat_interaction "  What is HEA?  "
                         "Human error avoidance." [] chat_sample sample_env))
                 sample_env))
       = (SDL.chat_interactions chat_sample
          ++ [SDL.mark (captured (clock sample_env) "  What is HEA?  "
                          "Human error avoidance." []) now])%list.
Proof.
  apply (captured_exchange_is_learned "  What is HEA?  " "Human error avoidance." []
           chat_sample ALS.fresh sample_env sample_env).
  - reflexivity.
  - reflexivity.
  - vm_compute. discriminate.
  - vm_compute. discriminate.
Defined.

(** X23. On a working disk every captured interaction is in the
    interaction file at once: a loader that starts afterwards reads back,
    through [load_existing_interactions], the list the first one has in
    memory, the new interaction last and not yet processed. *)
Theorem captured_exchange_survives_restart
  (q r : string) (md : dict) (s : SDL.t) (env env1 : Env) :
  disk_ok env = true ->
  let s1 := fst (SDL.capture_chat_interaction q r md s env) in
  SDL.chat_interactions
    (fst (SDL.load_existing_interactions (SDL.set_chat_interactions [] s1) env1))
  = (SDL.chat_interactions s ++ [captured (clock env) q r md])%list.
Proof.
  intros Hd s1. destruct (capture_fields q r md s env) as (Hchat & _ & _ & _ & _ & Hf).
  fold s1 in Hchat, Hf. specialize (Hf Hd).
  unfold SDL.load_existing_interactions. cbn [SDL.interaction_file SDL.set_chat_interactions].
  rewrite Hf. cbn. exact Hchat.
Qed.

Lemma captured_exchange_survives_restart_witness :
  SDL.chat_interactions
    (fst (SDL.load_existing_interactions
            (SDL.set_chat_interactions []
               (fst (SDL.capture_chat_interaction "What is HEA?"
                       "Human error avoidance." [] chat_sample sample_env)))
            sample_env))
  = (SDL.chat_interactions chat_sample
     ++ [captured (clock sample_env) "What is HEA?" "Human error avoidance." []])%list.
Proof.
  apply (captured_exchange_survives_restart "What is HEA?" "Human error avoidance." []
           chat_sample sample_env sample_env).
  reflexivity.
Defined.
